(** * USFWS goose mark-resight data extract: the transformation pipeline

    A shallow embedding of the notebook
    [USFWS_Goose_Mark-Resight_DataExtract]: the pandas frames it works on,
    the library calls it makes, and one definition per notebook step, each
    named after the variable or function of the notebook it stands for.

    Frames are column oriented, as in pandas: a frame is a row count and an
    ordered list of named series; a series is a dtype and a list of cells.
    Library calls that can raise return a [result]. *)

From Stdlib Require Import ZArith String Ascii List Bool Lia.
From stdpp Require Import base option list strings gmap.

Local Open Scope Z_scope.
Local Open Scope string_scope.

(** * pandas and pyjanitor *)

(** ** Exceptions *)

Inductive exn :=
| KeyError (key : string)
| AttributeError (msg : string)
| TypeError (msg : string)
| ValueError (msg : string)
| LocalizeError (wall : Z).

Inductive result (A : Type) :=
| Ok (a : A)
| Raise (e : exn).
Arguments Ok {A} a.
Arguments Raise {A} e.

#[export] Instance result_ret : MRet result := fun _ a => Ok a.
#[export] Instance result_bind : MBind result := fun _ _ f m =>
  match m with
  | Ok a => f a
  | Raise e => Raise e
  end.

(** [mapM] over a list, stopping at the first exception. *)
Fixpoint traverse {A B} (f : A -> result B) (l : list A) : result (list B) :=
  match l with
  | [] => Ok []
  | a :: l' => b ← f a; bs ← traverse f l'; Ok (b :: bs)
  end.

(** ** Cells, series, frames *)

(** A cell of a frame.  [NA] is pandas' missing value ([NaN], [None],
    [NaT]).  Counts and coordinates are numbers; a number is kept as an
    integer (coordinates are only ever copied, never computed with).  A
    timestamp is its [int64] payload: the wall-clock reading for a naive
    series, the UTC instant for a zone-aware one. *)
Inductive cell :=
| NA
| Str (s : string)
| Num (z : Z)
| Time (t : Z).

#[export] Instance cell_eq_dec : EqDecision cell.
Proof. solve_decision. Defined.
#[export] Instance cell_inhabited : Inhabited cell := populate NA.

(** The dtypes the notebook tests for: [object], a numeric dtype, and
    [datetime64[ns]] (no zone) or [datetime64[ns, tz]]. *)
Inductive dtype :=
| object
| float64
| datetime64 (tz : option string).

#[export] Instance dtype_eq_dec : EqDecision dtype.
Proof. solve_decision. Defined.

Record Series := mkSeries { dt : dtype; values : list cell }.

#[export] Instance Series_eq_dec : EqDecision Series.
Proof. solve_decision. Defined.

Record DataFrame := mkFrame { nrows : nat; columns : list (string * Series) }.

(** [df.columns] *)
Definition column_names (df : DataFrame) : list string := (columns df).*1.

(** First column of that name. *)
Fixpoint lookup_col (name : string) (cols : list (string * Series)) : option Series :=
  match cols with
  | [] => None
  | (n, s) :: cols' => if String.eqb n name then Some s else lookup_col name cols'
  end.

(** [df[name]] *)
Definition getitem (df : DataFrame) (name : string) : result Series :=
  match lookup_col name (columns df) with
  | Some s => Ok s
  | None => Raise (KeyError name)
  end.

(** [df.name]: attribute access to a column. *)
Definition getattr (df : DataFrame) (name : string) : result Series :=
  match lookup_col name (columns df) with
  | Some s => Ok s
  | None => Raise (AttributeError name)
  end.

(** The cell of column [name] at row [i]. *)
Definition cell_at (df : DataFrame) (name : string) (i : nat) : option cell :=
  s ← lookup_col name (columns df); values s !! i.

Fixpoint replace_col (name : string) (s : Series) (cols : list (string * Series))
  : list (string * Series) :=
  match cols with
  | [] => [(name, s)]
  | (n, s0) :: cols' =>
      if String.eqb n name then (n, s) :: cols' else (n, s0) :: replace_col name s cols'
  end.

(** [df[name] = s]: an existing column is replaced where it stands, a new
    one is appended. *)
Definition setitem (df : DataFrame) (name : string) (s : Series) : DataFrame :=
  mkFrame (nrows df) (replace_col name s (columns df)).

(** [df[name] = scalar] *)
Definition setitem_scalar (df : DataFrame) (name : string) (ty : dtype) (v : cell)
  : DataFrame :=
  setitem df name (mkSeries ty (replicate (nrows df) v)).

(** [df[names] = src]: the columns of [src], one after the other, are
    stored under the given names. *)
Definition setitem_frame (df : DataFrame) (names : list string) (src : DataFrame)
  : DataFrame :=
  foldl (fun d p => setitem d p.1 p.2.2) df (zip names (columns src)).

(** [df[names]]: the named columns, in the order asked for. *)
Definition getitem_list (df : DataFrame) (names : list string) : result DataFrame :=
  cols ← traverse (fun n => s ← getitem df n; Ok (n, s)) names;
  Ok (mkFrame (nrows df) cols).

(** In a well-formed frame every column has one cell per row. *)
Definition wf_frame (df : DataFrame) : Prop :=
  Forall (fun c => length (values c.2) = nrows df) (columns df).

(** ** Element-wise tests *)

(** [series == scalar]: a missing value equals nothing. *)
Definition eq_scalar (s : Series) (v : cell) : list bool :=
  (fun c => match c with NA => false | _ => bool_decide (c = v) end) <$> values s.

(** Whether a cell holds one of the given strings. *)
Definition cell_in (names : list string) (c : cell) : bool :=
  match c with Str x => bool_decide (x ∈ names) | _ => false end.

(** [series.isin(names)] for a list of strings. *)
Definition isin (s : Series) (names : list string) : list bool :=
  cell_in names <$> values s.

Definition is_NA (c : cell) : bool :=
  match c with NA => true | _ => false end.

Definition is_Num (c : cell) : bool := match c with Num _ => true | _ => false end.
Definition is_Time (c : cell) : bool := match c with Time _ => true | _ => false end.

(** [series.isnull()] and [series.notnull()] *)
Definition isnull (s : Series) : list bool := is_NA <$> values s.
Definition notnull (s : Series) : list bool := (fun c => negb (is_NA c)) <$> values s.

(** [mask & mask] and [~mask] *)
Definition mask_and (a b : list bool) : list bool := zip_with andb a b.
Definition mask_not (a : list bool) : list bool := negb <$> a.

(** ** Masked assignment *)

(** Row by row: the new cell where the mask holds, the old one elsewhere. *)
Fixpoint mask_assign (mask : list bool) (new old : list cell) : list cell :=
  match mask, new, old with
  | m :: mask', n :: new', o :: old' => (if m then n else o) :: mask_assign mask' new' old'
  | _, _, _ => old
  end.

Definition merge_dtype (a b : dtype) : dtype :=
  if bool_decide (a = b) then a else object.

(** [df.loc[mask, name] = rhs].  A column that does not exist yet is first
    created holding [NA] in every row. *)
Definition loc_setitem (df : DataFrame) (mask : list bool) (name : string) (rhs : Series)
  : DataFrame :=
  match lookup_col name (columns df) with
  | Some old =>
      setitem df name
        (mkSeries (merge_dtype (dt old) (dt rhs)) (mask_assign mask (values rhs) (values old)))
  | None =>
      setitem df name
        (mkSeries (dt rhs) (mask_assign mask (values rhs) (replicate (nrows df) NA)))
  end.

(** What row [i] of column [name] holds before an assignment through
    [.loc]: its cell, or [NA] when the assignment is about to create the
    column. *)
Definition prior_cell (df : DataFrame) (name : string) (i : nat) : option cell :=
  match lookup_col name (columns df) with
  | Some s => values s !! i
  | None => if bool_decide (i < nrows df)%nat then Some NA else None
  end.

(** [df.loc[mask, name] = scalar].  A scalar cannot create a column in a
    frame that has no row: pandas raises a [ValueError] there, whatever the
    mask. *)
Definition loc_setitem_scalar (df : DataFrame) (mask : list bool) (name : string)
    (ty : dtype) (v : cell) : result DataFrame :=
  if bool_decide (nrows df = 0%nat) && bool_decide (lookup_col name (columns df) = None)
  then Raise (ValueError "cannot set a frame with no defined index and a scalar")
  else Ok (loc_setitem df mask name (mkSeries ty (replicate (nrows df) v))).

(** ** Row selection *)

(** [series.take(idx)]: the cells at the given positions, in that order. *)
Definition take_rows (idx : list nat) (s : Series) : Series :=
  mkSeries (dt s) ((fun i => values s !!! i) <$> idx).

Definition take_frame (idx : list nat) (df : DataFrame) : DataFrame :=
  mkFrame (length idx) (prod_map id (take_rows idx) <$> columns df).

(** Positions at which a mask holds. *)
Definition true_positions (mask : list bool) : list nat :=
  List.filter (fun i => mask !!! i) (seq 0 (length mask)).

(** [df[mask]] *)
Definition select_rows (mask : list bool) (df : DataFrame) : DataFrame :=
  take_frame (true_positions mask) df.

(** Whether no column is missing in row [i]. *)
Definition row_complete (df : DataFrame) (i : nat) : bool :=
  forallb (fun c => negb (is_NA (values c.2 !!! i))) (columns df).

(** [df.dropna()]: the rows without a missing value. *)
Definition dropna (df : DataFrame) : DataFrame :=
  select_rows (row_complete df <$> seq 0 (nrows df)) df.

(** [df.dropna(how='all', axis=1)]: the columns that are missing in every
    row go. *)
Definition dropna_all_columns (df : DataFrame) : DataFrame :=
  mkFrame (nrows df) (List.filter (fun c => negb (forallb is_NA (values c.2))) (columns df)).

(** [df.isna().all(1)]: per row, whether every column is missing. *)
Definition isna_all (df : DataFrame) : list bool :=
  (fun i => forallb (fun c => is_NA (values c.2 !!! i)) (columns df)) <$> seq 0 (nrows df).

(** ** Column selection by name and pattern *)

(** Shell-style match in which [*] stands for any run of characters (the
    only wildcard the notebook uses). *)
Fixpoint glob_match (pat : string) : string -> bool :=
  match pat with
  | EmptyString => fun s => match s with EmptyString => true | _ => false end
  | String p pat' =>
      if Ascii.eqb p "*"
      then fix star (s : string) : bool :=
             glob_match pat' s
             || match s with EmptyString => false | String _ s' => star s' end
      else fun s =>
             match s with
             | EmptyString => false
             | String c s' => Ascii.eqb p c && glob_match pat' s'
             end
  end.

(** One argument of [select_columns]: a column of that very name, or else
    every column the pattern matches, in frame order; nothing matching is a
    [KeyError]. *)
Definition select_one (df : DataFrame) (arg : string) : result (list string) :=
  if bool_decide (arg ∈ column_names df) then Ok [arg]
  else match List.filter (glob_match arg) (column_names df) with
       | [] => Raise (KeyError arg)
       | found => Ok found
       end.

(** [df.select_columns(args)] *)
Definition select_columns (df : DataFrame) (args : list string) : result DataFrame :=
  names ← traverse (select_one df) args;
  getitem_list df (concat names).

(** [df.remove_columns(names)] *)
Definition remove_columns (df : DataFrame) (names : list string) : result DataFrame :=
  match List.filter (fun n => negb (bool_decide (n ∈ column_names df))) names with
  | [] => Ok (mkFrame (nrows df)
                (List.filter (fun c => negb (bool_decide (c.1 ∈ names))) (columns df)))
  | n :: _ => Raise (KeyError n)
  end.

(** [df.rename_columns(new_column_names=d)]: every key of [d] must name a
    column. *)
Definition rename_columns (df : DataFrame) (d : gmap string string) : result DataFrame :=
  match List.filter (fun kv => negb (bool_decide (kv.1 ∈ column_names df))) (map_to_list d) with
  | [] => Ok (mkFrame (nrows df)
                ((fun c => (default c.1 (d !! c.1), c.2)) <$> columns df))
  | kv :: _ => Raise (ValueError kv.1)
  end.

(** Whether [sub] occurs in [s]. *)
Fixpoint contains (sub s : string) : bool :=
  String.prefix sub s
  || match s with EmptyString => false | String _ s' => contains sub s' end.

(** [df.filter(like=sub)]: the columns whose name contains [sub]. *)
Definition filter_like (df : DataFrame) (sub : string) : DataFrame :=
  mkFrame (nrows df) (List.filter (fun c => contains sub c.1) (columns df)).

(** [df.filter(regex='Dusky*', axis=1)]: the regular expression is searched
    for in the name, and matches "Dusk" followed by any number of "y". *)
Definition filter_regex_Dusky_star (df : DataFrame) : DataFrame :=
  mkFrame (nrows df) (List.filter (fun c => contains "Dusk" c.1) (columns df)).

(** ** Merge *)

(** Row pairs of an inner join: every left row with every right row that
    has the same key, in left order.  As in pandas, a missing key matches a
    missing key. *)
Definition join_indexers (lk rk : list cell) : list (nat * nat) :=
  i ← seq 0 (length lk);
  j ← List.filter (fun j => bool_decide (lk !!! i = rk !!! j)) (seq 0 (length rk));
  [(i, j)].

(** A column name that occurs on both sides gets the side's suffix. *)
Definition suffixed (others : list string) (suffix name : string) : string :=
  if bool_decide (name ∈ others) then name +:+ suffix else name.

(** [pd.merge(left, right, how="inner", left_on=.., right_on=..)] with two
    different key names, as in both calls of the notebook: all columns of
    both sides are kept, the left ones first. *)
Definition merge_inner (left right : DataFrame) (left_on right_on : string)
  : result DataFrame :=
  lk ← getitem left left_on;
  rk ← getitem right right_on;
  let idx := join_indexers (values lk) (values rk) in
  let lcols :=
    (fun c => (suffixed (column_names right) "_x" c.1, take_rows idx.*1 c.2))
      <$> columns left in
  let rcols :=
    (fun c => (suffixed (column_names left) "_y" c.1, take_rows idx.*2 c.2))
      <$> columns right in
  Ok (mkFrame (length idx) (lcols ++ rcols)).

(** The column names of the merged frame. *)
Definition merged_names (left right : DataFrame) : list string :=
  (suffixed (column_names right) "_x" <$> column_names left)
  ++ (suffixed (column_names left) "_y" <$> column_names right).

(** What makes [joined] an inner join of [left] and [right] on the two key
    columns: every row of [joined] is a row [i] of [left] beside a row [j] of
    [right] that holds the same key, so both key columns of [joined] agree;
    a key found on one side only is found in no row of [joined]; and every
    key found on both sides is found in some row. *)
Definition inner_join_of (left right : DataFrame) (left_on right_on : string)
    (joined : DataFrame) : Prop :=
  ∃ lk rk,
    lookup_col left_on (columns left) = Some lk
    ∧ lookup_col right_on (columns right) = Some rk
    ∧ (∀ k, (k < nrows joined)%nat →
         ∃ (i j : nat) key,
           values lk !! i = Some key ∧ values rk !! j = Some key
           ∧ cell_at joined (suffixed (column_names right) "_x" left_on) k = Some key
           ∧ cell_at joined (suffixed (column_names left) "_y" right_on) k = Some key
           ∧ (∀ n s, lookup_col n (columns left) = Some s →
                cell_at joined (suffixed (column_names right) "_x" n) k
                = Some (values s !!! i))
           ∧ (∀ n s, lookup_col n (columns right) = Some s →
                cell_at joined (suffixed (column_names left) "_y" n) k
                = Some (values s !!! j)))
    ∧ (∀ key, key ∉ values lk ∨ key ∉ values rk →
         ∀ k, (k < nrows joined)%nat →
           cell_at joined (suffixed (column_names right) "_x" left_on) k ≠ Some key
           ∧ cell_at joined (suffixed (column_names left) "_y" right_on) k ≠ Some key)
    ∧ (∀ key, key ∈ values lk → key ∈ values rk →
         ∃ k, (k < nrows joined)%nat
           ∧ cell_at joined (suffixed (column_names right) "_x" left_on) k = Some key).

(** ** Sums and maps *)

Definition Zsum (l : list Z) : Z := foldr Z.add 0 l.

(** What a cell adds to a sum that skips missing values. *)
Definition cell_number (c : cell) : Z :=
  match c with Num z => z | _ => 0 end.

(** A cell that a sum can take in: a number, or a missing value. *)
Definition summable (c : cell) : bool :=
  match c with NA | Num _ => true | _ => false end.

(** [df.sum(axis=1)]: the row sums, missing values skipped.  Adding a
    string or a timestamp is a [TypeError].  (pandas releases before 2.0
    caught that error and summed the numeric columns alone; on columns
    that hold counts the two agree.)  The sum is the exact one: it is the
    sum pandas computes as long as the numbers added and their sum are
    whole numbers that [float64] holds exactly, that is below [2^53] in
    size; what is proved of it is proved under such a bound. *)
Definition sum_axis1 (df : DataFrame) : result Series :=
  if forallb (fun c => forallb summable (values c.2)) (columns df)
  then Ok (mkSeries float64
             ((fun i => Num (Zsum ((fun c => cell_number (values c.2 !!! i)) <$> columns df)))
                <$> seq 0 (nrows df)))
  else Raise (TypeError "unsupported operand type(s) for +").

(** [series.map(d)]: a value that is no key of [d] maps to the missing
    value. *)
Definition series_map (d : gmap string string) (s : Series) : Series :=
  mkSeries object
    ((fun c => match c with Str k => from_option Str NA (d !! k) | _ => NA end)
       <$> values s).

(** ** Strings *)

(** [series.str]: for an [object] series whose values are not all numbers
    and not all timestamps. *)
Definition str_accessor (s : Series) : result (list cell) :=
  match dt s with
  | object =>
      match List.filter (fun c => negb (is_NA c)) (values s) with
      | [] => Ok (values s)
      | present =>
          if forallb is_Num present || forallb is_Time present
          then Raise (AttributeError "Can only use .str accessor with string values!")
          else Ok (values s)
      end
  | _ => Raise (AttributeError "Can only use .str accessor with string values!")
  end.

(** Upper case of a character and of a string (ASCII letters; other
    characters are left as they are).  On a text of ASCII characters this
    is Python's [str.upper]; Python's is Unicode-aware on the others, so
    an exact result is only stated for ASCII texts. *)
Definition upper_ascii (c : ascii) : ascii :=
  let n := nat_of_ascii c in
  if (97 <=? n)%nat && (n <=? 122)%nat then ascii_of_nat (n - 32) else c.

Fixpoint upper (s : string) : string :=
  match s with
  | EmptyString => EmptyString
  | String c s' => String (upper_ascii c) (upper s')
  end.

(** [series.str.upper()]: a value that is no string comes out missing. *)
Definition str_upper (s : Series) : result Series :=
  vs ← str_accessor s;
  Ok (mkSeries object ((fun c => match c with Str x => Str (upper x) | _ => NA end) <$> vs)).

Definition cat_cell (sep na_rep : string) (a b : cell) : result cell :=
  let text c :=
    match c with
    | Str x => Ok x
    | NA => Ok na_rep
    | _ => Raise (TypeError "Concatenation requires list-likes containing only strings")
    end in
  x ← text a; y ← text b; Ok (Str (x +:+ sep +:+ y)).

(** [a.str.cat(b, sep=.., na_rep=..)] *)
Definition str_cat (a b : Series) (sep na_rep : string) : result Series :=
  va ← str_accessor a;
  vs ← traverse (fun p => cat_cell sep na_rep p.1 p.2) (zip va (values b));
  Ok (mkSeries object vs).

(** [s.split(sep)] for a non-empty separator.  [skip] counts the characters
    of a separator just found that are still to be passed over; [cur] is the
    piece being read. *)
Fixpoint split_from (sep s : string) (skip : nat) (cur : string) : list string :=
  match s with
  | EmptyString => [cur]
  | String c s' =>
      match skip with
      | S k => split_from sep s' k cur
      | O =>
          if String.prefix sep s
          then cur :: split_from sep s' (String.length sep - 1) ""
          else split_from sep s' 0 (cur +:+ String c "")
      end
  end.

Definition split_on (sep s : string) : list string := split_from sep s 0 "".

(** ** Wide to long *)

(** The two name parts of a melted column. *)
Definition name_parts (names_sep name : string) : result (string * string) :=
  match split_on names_sep name with
  | [a; b] => Ok (a, b)
  | _ => Raise (ValueError name)
  end.

(** The dtype of a column stacked from several: theirs when they agree,
    [object] otherwise. *)
Definition common_dtype (cols : list (string * Series)) : dtype :=
  match cols with
  | [] => object
  | c :: cols' => foldr (fun c' d => merge_dtype (dt c'.2) d) (dt c.2) cols'
  end.

(** [df.pivot_longer(index=.., names_to=(a, b), names_sep=..,
    sort_by_appearance=True)]: every column but [index] is melted; the long
    table has, row after row of the wide one, one row for each melted column,
    holding the index cell, the two parts of the column name and the cell. *)
Definition pivot_longer (df : DataFrame) (index : string) (names_to : string * string)
    (names_sep : string) : result DataFrame :=
  ids ← getitem df index;
  let melted := List.filter (fun c => negb (String.eqb c.1 index)) (columns df) in
  parts ← traverse (fun c => name_parts names_sep c.1) melted;
  let long := r ← seq 0 (nrows df); c ← zip melted parts; [(r, c)] in
  Ok (mkFrame (length long)
        [(index, mkSeries (dt ids) ((fun p => values ids !!! p.1) <$> long));
         (names_to.1, mkSeries object ((fun p => Str p.2.2.1) <$> long));
         (names_to.2, mkSeries object ((fun p => Str p.2.2.2) <$> long));
         ("value", mkSeries (common_dtype melted)
                     ((fun p => values p.2.1.2 !!! p.1) <$> long))]).

(** The test of the query ["value != 0"]: a missing value differs from 0. *)
Definition ne_zero (c : cell) : bool := negb (bool_decide (c = Num 0)).

(** [df.filter_on("value != 0")] *)
Definition filter_on_value_ne_0 (df : DataFrame) : result DataFrame :=
  v ← getitem df "value";
  Ok (select_rows (ne_zero <$> values v) df).

(** ** Time zones *)

(** A time zone as pandas uses it to localize: its name and, for a
    wall-clock reading, the UTC instant at which the zone's clocks show it
    ([None] for a reading the zone skips or shows twice, which pandas
    refuses). *)
Record timezone := mkZone { zone : string; utc_of_wall : Z -> option Z }.

Definition UTC : timezone := mkZone "UTC" Some.

(** [series.dt]: only a datetime series has it; the result is its zone. *)
Definition dt_accessor (s : Series) : result (option string) :=
  match dt s with
  | datetime64 tz => Ok tz
  | _ => Raise (AttributeError "Can only use .dt accessor with datetimelike values")
  end.

Definition localize_cell (tz : timezone) (c : cell) : result cell :=
  match c with
  | Time wall =>
      match utc_of_wall tz wall with
      | Some t => Ok (Time t)
      | None => Raise (LocalizeError wall)
      end
  | _ => Ok c
  end.

(** [series.dt.tz_localize(tz)] for a zone [tz]: a series that has a zone
    already is refused. *)
Definition tz_localize (s : Series) (tz : timezone) : result Series :=
  cur ← dt_accessor s;
  match cur with
  | Some _ => Raise (TypeError "Already tz-aware, use tz_convert to convert.")
  | None =>
      vs ← traverse (localize_cell tz) (values s);
      Ok (mkSeries (datetime64 (Some (zone tz))) vs)
  end.

(** [series.dt.tz_convert(tz)]: the same instants, shown in zone [tz]; a
    naive series is refused. *)
Definition tz_convert (s : Series) (tz : string) : result Series :=
  cur ← dt_accessor s;
  match cur with
  | None => Raise (TypeError "Cannot convert tz-naive timestamps, use tz_localize to localize")
  | Some _ => Ok (mkSeries (datetime64 (Some tz)) (values s))
  end.

(** * The notebook *)

(** ** change_timezone_of_field *)

(** The function works on the frame in place.  It returns the frame as the
    call leaves it, and the exception if one was raised: an exception in the
    first statement leaves the frame untouched, one in the last leaves it
    with the source field localized. *)
Definition change_timezone_of_field (df : DataFrame)
    (source_date_time_field new_date_time_field_suffix : string)
    (source_timezone : timezone) (new_timezone : string) : DataFrame * option exn :=
  (* Define the source timezone in the source_date_time_field *)
  match s ← getitem df source_date_time_field; tz_localize s source_timezone with
  | Raise e => (df, Some e)
  | Ok localized =>
      let df1 := setitem df source_date_time_field localized in
      (* Define the name of the new date time field *)
      let new_date_time_field := source_date_time_field +:+ new_date_time_field_suffix in
      (* Convert the datetime in the source_date_time_field to the new timezone
         in a new field called new_date_time_field *)
      match s ← getitem df1 source_date_time_field; tz_convert s new_timezone with
      | Raise e => (df1, Some e)
      | Ok converted => (setitem df1 new_date_time_field converted, None)
      end
  end.

(** The specification's sentence on the step: it adds the new field and
    leaves the source field as it was. *)
Definition source_field_unaltered : Prop :=
  ∀ df src suffix source_tz new_tz df',
    change_timezone_of_field df src suffix source_tz new_tz = (df', None) →
    is_Some (lookup_col (src +:+ suffix) (columns df'))
    ∧ lookup_col src (columns df') = lookup_col src (columns df).

(** ** upper_consistent *)

(** The function [upper_consistent] of the notebook. *)
Definition upper_consistent (df : DataFrame) : result DataFrame :=
  cols ← traverse
           (fun c => if bool_decide (dt c.2 = object)
                     then (s ← str_upper c.2; Ok (c.1, s))
                     else Ok c)
           (columns df);
  Ok (mkFrame (nrows df) cols).

(** ** Populate ObserverText column *)

Definition populate_ObserverText (sedfMetadataYYYY : DataFrame) : result DataFrame :=
  observer ← getitem sedfMetadataYYYY "Observer";
  let df1 := setitem sedfMetadataYYYY "ObserverText" observer in
  observer1 ← getitem df1 "Observer";
  other ← getitem df1 "ObserverOther";
  Ok (loc_setitem df1 (eq_scalar observer1 (Str "Other")) "ObserverText" other).

(** ** Populate State column based on Refuge *)

Definition WA_filter : list string :=
  ["Willapa NWR";
   "Julia Butler Hansen Refuge for the Columbian White-tailed Deer";
   "Ridgefield NWR"].

Definition OR_filter : list string :=
  ["Lewis and Clark NWR"; "Tualatin River NWR"; "Wapato Lake NWR";
   "Baskett Slough NWR"; "Ankeny NWR"; "William L. Finley NWR"; "Nestucca Bay NWR"].

Definition populate_State (sedfMetadataYYYY : DataFrame) : result DataFrame :=
  site ← getitem sedfMetadataYYYY "SiteName";
  df1 ← loc_setitem_scalar sedfMetadataYYYY (isin site WA_filter) "State" object (Str "WA");
  site1 ← getitem df1 "SiteName";
  loc_setitem_scalar df1 (isin site1 OR_filter) "State" object (Str "OR").

(** ** Join sedfMetadataYYYY with sedfObservationPoint *)

Definition sedfMetadataYYYY_ObservationPoint (sedfMetadataYYYY sedfObservationPoint : DataFrame)
  : result DataFrame :=
  merge_inner sedfMetadataYYYY sedfObservationPoint "globalid" "parentglobalid".

(** ** Populate LatitudeDD and LongitudeDD *)

Definition Prepopulated_filter : list string :=
  ["Ridgefield NWR"; "Tualatin River NWR"; "Wapato Lake NWR"].

(** [df.loc[df["SiteName"].isin(Prepopulated_filter) & test(df[tested]), target] = df[source]] *)
Definition assign_prepopulated_site (df : DataFrame) (tested : string)
    (test : Series -> list bool) (target source : string) : result DataFrame :=
  site ← getitem df "SiteName";
  t ← getitem df tested;
  rhs ← getitem df source;
  Ok (loc_setitem df (mask_and (isin site Prepopulated_filter) (test t)) target rhs).

(** [df.loc[~df["SiteName"].isin(Prepopulated_filter), target] = df[source]] *)
Definition assign_other_site (df : DataFrame) (target source : string) : result DataFrame :=
  site ← getitem df "SiteName";
  rhs ← getitem df source;
  Ok (loc_setitem df (mask_not (isin site Prepopulated_filter)) target rhs).

Definition populate_LatLongDD (joined : DataFrame) : result DataFrame :=
  df1 ← assign_prepopulated_site joined "Latitude_Prepopulated" notnull
          "LatitudeDD" "Latitude_Prepopulated";
  df2 ← assign_prepopulated_site df1 "Longitude_Prepopulated" notnull
          "LongitudeDD" "Longitude_Prepopulated";
  df3 ← assign_prepopulated_site df2 "Latitude_Prepopulated" isnull
          "LatitudeDD" "Latitude";
  df4 ← assign_prepopulated_site df3 "Longitude_Prepopulated" isnull
          "LongitudeDD" "Longitude";
  df5 ← assign_other_site df4 "LatitudeDD" "Latitude";
  assign_other_site df5 "LongitudeDD" "Longitude".

(** ** Calculate column for sum total of count data *)

Definition col_list : list string :=
  ["DuskyCount"; "WuskyCount"; "WesternCount"; "TavLessCount"; "TavCount";
   "LessCount"; "AleutianCount"; "CacklingCount"; "UnknownCanadaCount";
   "UnknownCacklerCount"; "WhiteFrontedCount"; "SnowCount"; "RossCount";
   "UnknownGooseCount"; "TrumpeterCount"; "TundraCount"; "UnknownSwanCount"].

Definition populate_Total (joined : DataFrame) : result DataFrame :=
  counts ← getitem_list joined col_list;
  total ← sum_axis1 counts;
  Ok (setitem joined "Total" total).

(** ** Dusky neckband/collar data *)

Definition neckband_columns : list string :=
  ["objectid_x"; "globalid_x"; "SiteName"; "SiteNameOther"; "Observer";
   "ObserverOther"; "ObserverText"; "State"; "EffortDate"; "EffortDate_Text";
   "FormName"; "survey_uuid"; "FormVersion"; "CreationDate_x"; "Creator_x";
   "EditDate_x"; "Editor_x"; "SHAPE_x"; "AleutianCount"; "CacklingCount";
   "CreationDate_y"; "Creator_y"; "DuskyBandNote"; "DuskyCollar1"; "DuskyCollar2";
   "DuskyCollar3"; "DuskyCollar4"; "DuskyCollar5"; "DuskyCollar6"; "DuskyCollar7";
   "DuskyCollar8"; "DuskyCollar9"; "DuskyCollar10"; "DuskyCollar11";
   "DuskyCollar12"; "DuskyCollar13"; "DuskyCollar14"; "DuskyCollar15";
   "DuskyCollar16"; "DuskyCollar17"; "DuskyCollar18"; "DuskyCollar19";
   "DuskyCollar20"; "DuskyCollar21"; "DuskyCollar22"; "DuskyCollar23";
   "DuskyCollar24"; "DuskyCollar25"; "DuskyCollar26"; "DuskyCollar27";
   "DuskyCollar28"; "DuskyCollar29"; "DuskyCollar30"; "DuskyCount"; "EditDate_y";
   "Editor_y"; "EffortNotes"; "EffortTime"; "Latitude"; "Latitude_Prepopulated";
   "LessCount"; "LocationDescription"; "LocationDescription_ReadOnly";
   "LocationOther"; "Longitude"; "Longitude_Prepopulated"; "NumberDuskyCollars";
   "RossCount"; "SHAPE_y"; "SnowCount"; "TavCount"; "TavLessCount"; "TotalGeese";
   "TrumpeterCount"; "TundraCount"; "UnknownCacklerCount"; "UnknownCanadaCount";
   "UnknownGooseCount"; "UnknownSwanCount"; "WesternCount"; "WhiteFrontedCount";
   "WuskyCount"; "globalid_y"; "objectid_y"; "parentglobalid";
   "CreationDate_Pacific"; "EditDate_Pacific"; "LatitudeDD"; "LongitudeDD"; "Total"].

Definition dfDuskyNeckband (joined : DataFrame) : result DataFrame :=
  (* Reorder columns *)
  df1 ← getitem_list joined neckband_columns;
  (* Drop columns with null values *)
  let df2 := dropna_all_columns df1 in
  (* Calculate field for coordinate precision *)
  let df3 := setitem_scalar df2 "Prec" object (Str "0") in
  site ← getattr df3 "SiteName";
  description ← getattr df3 "LocationDescription";
  location ← str_cat site description " " "";
  let df4 := setitem df3 "Location" location in
  (* Make sure that Dusky collars are uppercase *)
  let dfDuskyColumnsList := column_names (filter_regex_Dusky_star df4) in
  dusky ← getitem_list df4 dfDuskyColumnsList;
  dusky_upper ← upper_consistent dusky;
  let df5 := setitem_frame df4 dfDuskyColumnsList dusky_upper in
  (* Select only rows where DuskyCollar is not null *)
  Ok (select_rows (mask_not (isna_all (filter_like df5 "DuskyCollar"))) df5).

Definition dfDuskyNeckbandNWR (dfDuskyNeckband : DataFrame) : result DataFrame :=
  selected ← select_columns dfDuskyNeckband
               ["globalid_y"; "SiteName"; "LocationDescription"; "EffortDate_Text";
                "EffortTime"; "ObserverText"; "Dusky*"; "Total"; "LatitudeDD";
                "LongitudeDD"];
  rename_columns selected
    (list_to_map
       [("globalid_y", "occurrenceID"); ("SiteName", "location");
        ("EffortTime", "eventTime"); ("EffortDate_Text", "eventDate");
        ("LatitudeDD", "decimalLatitude"); ("LongitudeDD", "decimalLongitude");
        ("ObserverText", "recordedBy")]).

Definition dfDuskyNeckbandMB (dfDuskyNeckband : DataFrame) : result DataFrame :=
  selected ← select_columns dfDuskyNeckband
               ["globalid_y"; "State"; "EffortDate_Text"; "EffortTime"; "Prec";
                "LatitudeDD"; "LongitudeDD"; "ObserverText"; "SiteName";
                "LocationDescription"; "Location"; "Dusky*"; "Total"];
  rename_columns selected
    (list_to_map
       [("globalid_y", "globalid"); ("EffortDate_Text", "Date");
        ("LatitudeDD", "Latdd"); ("LongitudeDD", "Longdd"); ("ObserverText", "Obs");
        ("DuskyCount", "Pres")]).

(** ** Pivot flock data from wide to long *)

Definition dfFlockPivotTemp (sedfObservationPoint : DataFrame) : result DataFrame :=
  df1 ← select_columns sedfObservationPoint
          ["globalid"; "DuskyCount"; "WuskyCount"; "WesternCount"; "TavLessCount";
           "TavCount"; "LessCount"; "AleutianCount"; "CacklingCount";
           "UnknownCanadaCount"; "UnknownCacklerCount"; "WhiteFrontedCount";
           "SnowCount"; "RossCount"; "UnknownGooseCount"; "TrumpeterCount";
           "TundraCount"; "UnknownSwanCount"];
  df2 ← pivot_longer df1 "globalid" ("shortName", "dimension") "Count";
  df3 ← remove_columns df2 ["dimension"];
  df4 ← filter_on_value_ne_0 df3;
  Ok (dropna df4).

(** ** Scientific name and taxon codes *)

(** The names are kept byte for byte: in the values of [Aleutian],
    [Cackling], [Tav] and [UnknownCanada] the notebook separates the words
    by no-break spaces (U+00A0), in the others by plain blanks. *)
Definition sciname_dict : gmap string string :=
  list_to_map
    [("Aleutian", "Branta hutchinsii leucopareia");
     ("Cackling", "Branta hutchinsii minima");
     ("Dusky", "Branta canadensis occidentalis");
     ("Less", "Branta canadensis parvipes");
     ("Tav", "Branta hutchinsii taverneri");
     ("TavLess", "Branta hutchinsii taverneri x Branta canadensis parvipes");
     ("Western", "Branta canadensis moffitti");
     ("Wusky", "Branta canadensis moffitti x Branta canadensis occidentalis");
     ("UnknownCackler", "Branta hutchinsii");
     ("UnknownCanada", "Branta canadensis");
     ("Ross", "Chen rossii");
     ("Snow", "Chen caerulescens");
     ("WhiteFronted", "Anser albifrons");
     ("UnknownGoose", "Branta");
     ("Trumpeter", "Cygnus buccinator");
     ("UnknownSwan", "Cygnus columbianus");
     ("Tundra", "Cygnus")].

Definition FWSTaxonCode_dict : gmap string string :=
  list_to_map
    [("Aleutian", "604316"); ("Cackling", "604318"); ("Dusky", "77707");
     ("Less", "76633"); ("Tav", "604320"); ("TavLess", ""); ("Western", "76632");
     ("Wusky", ""); ("UnknownCackler", "604603"); ("UnknownCanada", "76625");
     ("Ross", "77746"); ("Snow", "77742"); ("WhiteFronted", "77723");
     ("UnknownGoose", "76624"); ("Trumpeter", "76618"); ("UnknownSwan", "76612");
     ("Tundra", "76609")].

Definition ITIS_dict : gmap string string :=
  list_to_map
    [("Aleutian", "714726"); ("Cackling", "714727"); ("Dusky", "175006");
     ("Less", "175004"); ("Tav", "714728"); ("TavLess", ""); ("Western", "175003");
     ("Wusky", ""); ("UnknownCackler", "714068"); ("UnknownCanada", "174999");
     ("Ross", "175041"); ("Snow", "175038"); ("WhiteFronted", "175020");
     ("UnknownGoose", "174998"); ("Trumpeter", "174992"); ("UnknownSwan", "174987");
     ("Tundra", "174984")].

Definition dfFlockPivot (dfFlockPivotTemp : DataFrame) : result DataFrame :=
  let df := dfFlockPivotTemp in
  short ← getitem df "shortName";
  let df1 := setitem df "scientificName" (series_map sciname_dict short) in
  short1 ← getitem df1 "shortName";
  let df2 := setitem df1 "fwsTaxonCode" (series_map FWSTaxonCode_dict short1) in
  short2 ← getitem df2 "shortName";
  Ok (setitem df2 "ITISTaxonCode" (series_map ITIS_dict short2)).

(** ** Merge survey metadata with pivotted long flock data *)

Definition dfCleanMetadata (joined : DataFrame) : result DataFrame :=
  select_columns joined
    ["globalid_x"; "globalid_y"; "SiteName"; "ObserverText"; "EffortDate_Text";
     "EffortTime"; "LocationDescription"; "LocationOther"; "EffortNotes";
     "LatitudeDD"; "LongitudeDD"].

Definition dfFlockLong (dfCleanMetadata dfFlockPivot : DataFrame) : result DataFrame :=
  merge_inner dfCleanMetadata dfFlockPivot "globalid_y" "globalid".

(** * Sample tables *)

(** ** A table with a timestamp *)

(** A table with one naive timestamp field. *)
Definition one_naive_field : DataFrame :=
  mkFrame 2 [("CreationDate", mkSeries (datetime64 None) [Time 1633046400000000000; NA])].

(** ** A small survey *)

(** Three survey events and three observation points.  Points [p1] and
    [p2] belong to event [e1]; point [p3] names an event that is not there;
    events [e2] and [e3] have no point.  Coordinates are in hundredths of a
    degree. *)
Definition survey_events : DataFrame :=
  mkFrame 3
    [("globalid", mkSeries object [Str "e1"; Str "e2"; Str "e3"]);
     ("SiteName", mkSeries object [Str "Ridgefield NWR"; Str "Ankeny NWR"; Str "Unknown Refuge"]);
     ("Observer", mkSeries object [Str "Other"; Str "K. So"; NA]);
     ("ObserverOther", mkSeries object [Str "J. Smith"; NA; NA])].

(** A survey-event table without events. *)
Definition no_events : DataFrame :=
  mkFrame 0 [("globalid", mkSeries object []); ("SiteName", mkSeries object [])].

Definition point_column (name : string) : Series :=
  if String.eqb name "DuskyCount" then mkSeries float64 [Num 5; Num 0; Num 2]
  else if String.eqb name "CacklingCount" then mkSeries float64 [NA; Num 3; NA]
  else mkSeries float64 [Num 0; Num 0; Num 0].

Definition observation_points : DataFrame :=
  mkFrame 3
    ([("globalid", mkSeries object [Str "p1"; Str "p2"; Str "p3"]);
      ("parentglobalid", mkSeries object [Str "e1"; Str "e1"; Str "e9"]);
      ("Latitude", mkSeries float64 [Num 4580; Num 4582; Num 4500]);
      ("Longitude", mkSeries float64 [Num (-12274); Num (-12275); Num (-12300)]);
      ("Latitude_Prepopulated", mkSeries float64 [Num 4581; NA; NA]);
      ("Longitude_Prepopulated", mkSeries float64 [Num (-12273); NA; NA])]
     ++ ((fun name => (name, point_column name)) <$> col_list)).

(** The value of a run that is known to succeed. *)
Definition run (r : result DataFrame) : DataFrame :=
  match r with
  | Ok df => df
  | Raise _ => mkFrame 0 []
  end.

Definition joined_points : DataFrame :=
  run (sedfMetadataYYYY_ObservationPoint survey_events observation_points).

Definition clean_points : DataFrame :=
  mkFrame 2
    [("globalid_x", mkSeries object [Str "e1"; Str "e1"]);
     ("globalid_y", mkSeries object [Str "p1"; Str "p2"]);
     ("SiteName", mkSeries object [Str "Ridgefield NWR"; Str "Ridgefield NWR"])].

Definition flock_points : DataFrame :=
  run (long ← dfFlockPivotTemp observation_points; dfFlockPivot long).

(** ** Two observation points, one without collars *)

(** A joined table of two observation points at Ridgefield.  The first
    reports one collar; the second reports none: its 30 collar fields are
    empty and its [NumberDuskyCollars] is 0. *)
Definition two_points_column (name : string) : Series :=
  if String.eqb name "DuskyCollar1" then mkSeries object [Str "a12"; NA]
  else if String.prefix "DuskyCollar" name then mkSeries object [NA; NA]
  else if String.eqb name "NumberDuskyCollars" then mkSeries float64 [Num 1; Num 0]
  else if String.eqb name "globalid_y" then mkSeries object [Str "point-1"; Str "point-2"]
  else if String.eqb name "SiteName" then mkSeries object [Str "Ridgefield NWR"; Str "Ridgefield NWR"]
  else if String.eqb name "DuskyCount" then mkSeries float64 [Num 4; Num 7]
  else if String.eqb name "Total" then mkSeries float64 [Num 4; Num 7]
  else if contains "Count" name || contains "itude" name || contains "objectid" name
  then mkSeries float64 [Num 0; Num 0]
  else mkSeries object [Str "x"; Str "x"].

Definition two_points : DataFrame :=
  mkFrame 2 ((fun name => (name, two_points_column name)) <$> neckband_columns).

(** * More of the notebook *)

(** ** Convert all datetime fields from UTC to Pacific *)

(** The loop
    [for col in cols: if df[col].dtype == 'datetime64[ns]':
       change_timezone_of_field(df, col, "_Pacific", "UTC", "US/Pacific")]
    over names [cols] read off the frame before the loop starts.  The frame
    is worked on in place; an exception ends the loop. *)
Fixpoint convert_fields (cols : list string) (df : DataFrame) : DataFrame * option exn :=
  match cols with
  | [] => (df, None)
  | col :: cols' =>
      match getitem df col with
      | Raise e => (df, Some e)
      | Ok s =>
          if bool_decide (dt s = datetime64 None)
          then match change_timezone_of_field df col "_Pacific" UTC "US/Pacific" with
               | (df', None) => convert_fields cols' df'
               | failed => failed
               end
          else convert_fields cols' df
      end
  end.

(** [for col in df.columns: ...] *)
Definition datetime_fields_to_Pacific (df : DataFrame) : DataFrame * option exn :=
  convert_fields (column_names df) df.

(** What the loop makes of a column: a naive timestamp column gets the UTC
    zone, any other column stays. *)
Definition localized_UTC (c : string * Series) : string * Series :=
  if bool_decide (dt c.2 = datetime64 None)
  then (c.1, mkSeries (datetime64 (Some "UTC")) (values c.2))
  else c.

(** The Pacific companions of the naive timestamp columns, in column
    order. *)
Definition Pacific_fields (cols : list (string * Series)) : list (string * Series) :=
  (fun c => (c.1 +:+ "_Pacific", mkSeries (datetime64 (Some "US/Pacific")) (values c.2)))
    <$> List.filter (fun c => bool_decide (dt c.2 = datetime64 None)) cols.

(** ** archive_dt_field *)

Section archive.

(** [strftime tz t]: the text of the timestamp [t] of a series with zone
    [tz] in the format ['%m/%d/%Y %H:%M:%S %Z%z']. *)
Variable strftime : option string -> Z -> string.

(** [series.dt.strftime(..)]: a missing timestamp gives a missing text. *)
Definition dt_strftime (s : Series) : result Series :=
  tz ← dt_accessor s;
  Ok (mkSeries object
        ((fun c => match c with Time t => Str (strftime tz t) | _ => NA end) <$> values s)).

(** The two dtypes named in the [select_dtypes] call. *)
Definition archived_dtype (d : dtype) : bool :=
  bool_decide (d = datetime64 (Some "UTC"))
  || bool_decide (d = datetime64 (Some "US/Pacific")).

(** [for col in cols: df[col] = df[col].dt.strftime(..)], in place. *)
Fixpoint archive_fields (cols : list string) (df : DataFrame) : DataFrame * option exn :=
  match cols with
  | [] => (df, None)
  | col :: cols' =>
      match s ← getitem df col; dt_strftime s with
      | Raise e => (df, Some e)
      | Ok text => archive_fields cols' (setitem df col text)
      end
  end.

Definition archive_dt_field (df : DataFrame) : DataFrame * option exn :=
  let archive_dt_field_list :=
    mkFrame (nrows df) (List.filter (fun c => archived_dtype (dt c.2)) (columns df)) in
  archive_fields (column_names archive_dt_field_list) df.

(** What the function makes of a column. *)
Definition archived (c : string * Series) : string * Series :=
  if archived_dtype (dt c.2)
  then (c.1, mkSeries object
               ((fun v => match v with
                          | Time t => Str (strftime (match dt c.2 with
                                                     | datetime64 tz => tz
                                                     | _ => None
                                                     end) t)
                          | _ => NA
                          end) <$> values c.2))
  else c.

End archive.

(** A text of ASCII characters only. *)
Definition ascii_text (x : string) : bool :=
  forallb (fun c => (nat_of_ascii c <? 128)%nat) (list_ascii_of_string x).

(** What [upper_consistent] makes of a column: the strings of an [object]
    column are put in upper case, and what is no string in it comes out
    missing; a column of another dtype stays. *)
Definition uppercased (c : string * Series) : string * Series :=
  if bool_decide (dt c.2 = object)
  then (c.1, mkSeries object
               ((fun v => match v with Str x => Str (upper x) | _ => NA end) <$> values c.2))
  else c.

(** The neckband table before its row filter, column by column: a field
    whose name contains "Dusk" has gone through [upper_consistent]. *)
Definition Dusky_uppercased (c : string * Series) : string * Series :=
  if contains "Dusk" c.1 then uppercased c else c.

(** Whether a field of the joined table survives
    [dropna(how='all', axis=1)]. *)
Definition has_value (joined : DataFrame) (name : string) : bool :=
  match lookup_col name (columns joined) with
  | Some s => negb (forallb is_NA (values s))
  | None => false
  end.

(** The text [str.cat] takes from a cell when [na_rep] is the empty
    string. *)
Definition cell_text (c : cell) : option string :=
  match c with
  | Str x => Some x
  | NA => Some ""
  | _ => None
  end.

(** A pattern without wildcard. *)
Fixpoint star_free (pat : string) : bool :=
  match pat with
  | EmptyString => true
  | String p pat' => negb (Ascii.eqb p "*") && star_free pat'
  end.

(** The fields of the joined table that [Dusky*] selects. *)
Definition Dusky_fields : list string :=
  List.filter (String.prefix "Dusky") neckband_columns.

(** The Dusky fields that hold text: the band note and the 30 collars. *)
Definition Dusky_text_fields : list string :=
  List.filter (fun n => negb (String.eqb n "DuskyCount")) Dusky_fields.

(** ** Sample tables *)

(** A raw table as it is read from the feature service: two naive
    timestamp fields among fields of other dtypes. *)
Definition raw_events : DataFrame :=
  mkFrame 2
    [("objectid", mkSeries float64 [Num 1; Num 2]);
     ("CreationDate", mkSeries (datetime64 None) [Time 1633046400000000000; NA]);
     ("Creator", mkSeries object [Str "kso"; Str "kso"]);
     ("EditDate",
      mkSeries (datetime64 None) [Time 1633046400000000000; Time 1633132800000000000])].

(** The raw table after the loop over its datetime fields. *)
Definition raw_events_Pacific : DataFrame := (datetime_fields_to_Pacific raw_events).1.

(** A stand-in for the formatter: the text names the zone only. *)
Definition zone_stamp (tz : option string) (t : Z) : string := default "naive" tz.

(** Two collar fields and a count. *)
Definition collars : DataFrame :=
  mkFrame 2
    [("DuskyCollar1", mkSeries object [Str "a12"; NA]);
     ("DuskyCollar2", mkSeries object [NA; Str "B7c"]);
     ("DuskyCount", mkSeries float64 [Num 4; Num 7])].

(** The joined table [two_points] with no site name recorded. *)
Definition two_unnamed_points : DataFrame :=
  setitem two_points "SiteName" (mkSeries object [NA; NA]).

(** The neckband table of [two_points] and its two exports. *)
Definition two_points_neckband : DataFrame := run (dfDuskyNeckband two_points).
Definition two_points_NWR : DataFrame := run (dfDuskyNeckbandNWR two_points_neckband).
Definition two_points_MB : DataFrame := run (dfDuskyNeckbandMB two_points_neckband).
(** * Properties *)

(** ** Traversals *)

(** Goes through the members of a list that is written out, one case per
    member. *)
Ltac each_member H tac :=
  repeat (apply elem_of_cons in H as [->|H]; [tac|]);
  try (by apply elem_of_nil in H).

Section traverse.
Context {A B : Type} (f : A -> result B).

Lemma traverse_ok (l : list A) :
  (∀ x, x ∈ l → ∃ y, f x = Ok y) →
  ∃ ys, traverse f l = Ok ys ∧ Forall2 (fun x y => f x = Ok y) l ys.
Proof.
  induction l as [|x l IH]; intros Hall; simpl.
  - eexists; split; [done|constructor].
  - destruct (Hall x) as [y Hy]; [by left|].
    destruct IH as (ys & -> & HF); [intros; apply Hall; by right|].
    rewrite Hy. simpl. eexists; split; [done|]. by constructor.
Qed.

Lemma traverse_inv (l : list A) ys :
  traverse f l = Ok ys → Forall2 (fun x y => f x = Ok y) l ys.
Proof.
  revert ys. induction l as [|x l IH]; simpl; intros ys.
  - intros [= <-]. constructor.
  - destruct (f x) as [y|] eqn:E; simpl; [|done].
    destruct (traverse f l) as [ys'|]; simpl; [|done].
    intros [= <-]. constructor; auto.
Qed.

Lemma traverse_length (l : list A) ys :
  traverse f l = Ok ys → length ys = length l.
Proof.
  intros H. apply traverse_inv in H. symmetry. by eapply Forall2_length.
Qed.
End traverse.

Lemma Forall2_zip_elem_of {A B} (P : A -> B -> Prop) (l : list A) (k : list B) x y :
  Forall2 P l k → (x, y) ∈ zip l k → P x y.
Proof.
  induction 1 as [|a b l k Hab HF IH]; simpl.
  - by intros ?%elem_of_nil.
  - intros [[= -> ->]|Hin]%elem_of_cons; auto.
Qed.

Lemma forallb_false_elem {A} (f : A -> bool) (l : list A) :
  forallb f l = false ↔ ∃ x, x ∈ l ∧ f x = false.
Proof.
  induction l as [|a l IH]; simpl.
  - split; [done|]. by intros (x & ?%elem_of_nil & _).
  - rewrite andb_false_iff, IH. split.
    + intros [Ha|(x & Hx & Hf)]; [exists a; split; [by left|done]|].
      exists x. split; [by right|done].
    + intros (x & [->|Hx]%elem_of_cons & Hf); [by left|]. right. eauto.
Qed.

(** ** Columns of a frame *)

Lemma lookup_col_replace_eq name s cols :
  lookup_col name (replace_col name s cols) = Some s.
Proof.
  induction cols as [|[n s0] cols IH]; simpl.
  - by rewrite String.eqb_refl.
  - destruct (String.eqb n name) eqn:E; simpl; rewrite E; done.
Qed.

Lemma lookup_col_replace_ne name other s cols :
  other ≠ name →
  lookup_col other (replace_col name s cols) = lookup_col other cols.
Proof.
  intros Hne. induction cols as [|[n s0] cols IH]; simpl.
  - destruct (String.eqb name other) eqn:E; [|done].
    apply String.eqb_eq in E. congruence.
  - destruct (String.eqb n name) eqn:E; simpl.
    + apply String.eqb_eq in E. subst n.
      destruct (String.eqb name other) eqn:E'; [|done].
      apply String.eqb_eq in E'. congruence.
    + by rewrite IH.
Qed.

Lemma replace_col_id name s cols :
  lookup_col name cols = Some s → replace_col name s cols = cols.
Proof.
  induction cols as [|[n0 s0] cols IH]; simpl; [done|].
  destruct (String.eqb n0 name) eqn:E.
  - by intros [= ->].
  - intros H. by rewrite IH.
Qed.

Lemma setitem_id df name s :
  lookup_col name (columns df) = Some s → setitem df name s = df.
Proof.
  intros H. unfold setitem. rewrite (replace_col_id _ _ _ H). by destruct df.
Qed.

Lemma lookup_col_elem_of name cols s :
  lookup_col name cols = Some s → (name, s) ∈ cols.
Proof.
  induction cols as [|[n0 s0] cols IH]; simpl; [done|].
  destruct (String.eqb n0 name) eqn:E.
  - apply String.eqb_eq in E. subst. intros [= ->]. by left.
  - intros H. right. auto.
Qed.

Lemma lookup_col_is_Some name cols :
  is_Some (lookup_col name cols) ↔ name ∈ cols.*1.
Proof.
  induction cols as [|[n0 s0] cols IH]; simpl.
  - split; [by intros [? ?]|by intros ?%elem_of_nil].
  - destruct (String.eqb n0 name) eqn:E.
    + apply String.eqb_eq in E. subst. split; [by left|eauto].
    + apply String.eqb_neq in E. rewrite IH, elem_of_cons.
      split; [auto|intros [?|?]; [congruence|done]].
Qed.

Lemma lookup_col_fmap (f : Series -> Series) name cols :
  lookup_col name (prod_map id f <$> cols) = f <$> lookup_col name cols.
Proof.
  induction cols as [|[n0 s0] cols IH]; simpl; [done|].
  by destruct (String.eqb n0 name).
Qed.

Lemma lookup_col_NoDup cols name s :
  NoDup cols.*1 → (name, s) ∈ cols → lookup_col name cols = Some s.
Proof.
  induction cols as [|[n0 s0] cols IH]; simpl.
  - by intros _ ?%elem_of_nil.
  - intros [Hnotin Hnd]%NoDup_cons [[= -> ->]|Hin]%elem_of_cons.
    + by rewrite String.eqb_refl.
    + destruct (String.eqb n0 name) eqn:E; [|auto].
      apply String.eqb_eq in E. subst. destruct Hnotin.
      apply list_elem_of_fmap. by exists (name, s).
Qed.

Lemma getitem_list_ok df names :
  (∀ n, n ∈ names → is_Some (lookup_col n (columns df))) →
  ∃ cols, getitem_list df names = Ok (mkFrame (nrows df) cols)
    ∧ Forall2 (fun n c => c.1 = n ∧ lookup_col n (columns df) = Some c.2) names cols.
Proof.
  intros Hall. unfold getitem_list.
  assert (∃ cols, traverse (fun n => s ← getitem df n; Ok (n, s)) names = Ok cols
            ∧ Forall2 (fun n c => c.1 = n ∧ lookup_col n (columns df) = Some c.2) names cols)
    as (cols & -> & HF); [|by eauto].
  induction names as [|n names IH]; simpl.
  - eexists; split; [done|constructor].
  - destruct (Hall n) as [s Hs]; [by left|].
    destruct IH as (cols & -> & HF); [intros; apply Hall; by right|].
    unfold getitem. rewrite Hs. simpl. eexists; split; [done|].
    constructor; [done|exact HF].
Qed.

Lemma select_columns_plain df names :
  (∀ n, n ∈ names → is_Some (lookup_col n (columns df))) →
  select_columns df names = getitem_list df names.
Proof.
  intros Hall. unfold select_columns.
  assert (traverse (select_one df) names = Ok ((fun n => [n]) <$> names)) as ->.
  { induction names as [|n names IH]; simpl; [done|].
    rewrite IH by (intros; apply Hall; by right).
    unfold select_one. rewrite bool_decide_eq_true_2; [done|].
    apply lookup_col_is_Some, Hall. by left. }
  cbn [mbind result_bind]. f_equal.
  induction names as [|n names IH]; simpl; [done|]. f_equal. apply IH.
  intros; apply Hall; by right.
Qed.

Lemma lookup_col_selected df names cols n :
  Forall2 (fun n c => c.1 = n ∧ lookup_col n (columns df) = Some c.2) names cols →
  n ∈ names → lookup_col n cols = lookup_col n (columns df).
Proof.
  induction 1 as [|n0 [m0 s0] names cols [Hn Hlook] HF IH]; simpl.
  - by intros ?%elem_of_nil.
  - simpl in *. subst m0. intros Hin.
    destruct (String.eqb n0 n) eqn:E.
    + apply String.eqb_eq in E. by subst.
    + apply String.eqb_neq in E. apply elem_of_cons in Hin as [->|Hin]; [done|auto].
Qed.

Lemma selected_elem_of df names cols c :
  Forall2 (fun n c => c.1 = n ∧ lookup_col n (columns df) = Some c.2) names cols →
  c ∈ cols → c.1 ∈ names ∧ lookup_col c.1 (columns df) = Some c.2.
Proof.
  induction 1 as [|n0 c0 names cols [Hn Hlook] HF IH].
  - by intros ?%elem_of_nil.
  - intros [->|Hin]%elem_of_cons.
    + subst n0. split; [by left|done].
    + destruct (IH Hin). split; [by right|done].
Qed.

(** ** Well-formed frames and masked assignment *)

Lemma mask_assign_lookup (mask : list bool) (new old : list cell) (i : nat) (m : bool) n o :
  mask !! i = Some m → new !! i = Some n → old !! i = Some o →
  mask_assign mask new old !! i = Some (if m then n else o).
Proof.
  revert new old i.
  induction mask as [|m0 mask IH]; intros [|n0 new] [|o0 old] [|i]; simpl;
    try discriminate.
  - by intros [= ->] [= ->] [= ->].
  - apply IH.
Qed.

Lemma mask_assign_length mask new old :
  length (mask_assign mask new old) = length old.
Proof.
  revert new old.
  induction mask as [|m0 mask IH]; intros [|n0 new] [|o0 old]; simpl; auto.
Qed.

Lemma cell_at_loc_setitem df (mask : list bool) name rhs (i : nat) (m : bool) n o :
  mask !! i = Some m → values rhs !! i = Some n → prior_cell df name i = Some o →
  cell_at (loc_setitem df mask name rhs) name i = Some (if m then n else o).
Proof.
  intros Hm Hn Ho. unfold cell_at, loc_setitem. unfold prior_cell in Ho.
  destruct (lookup_col name (columns df)) as [old|]; simpl;
    rewrite lookup_col_replace_eq; simpl.
  - by apply mask_assign_lookup.
  - case_bool_decide; [|done]. injection Ho as <-.
    apply mask_assign_lookup; try done. by apply lookup_replicate_2.
Qed.

Lemma lookup_col_loc_setitem_ne df mask name rhs other :
  other ≠ name →
  lookup_col other (columns (loc_setitem df mask name rhs)) = lookup_col other (columns df).
Proof.
  intros Hne. unfold loc_setitem.
  destruct (lookup_col name (columns df)); simpl; by apply lookup_col_replace_ne.
Qed.

Lemma cell_at_loc_setitem_ne df mask name rhs other i :
  other ≠ name →
  cell_at (loc_setitem df mask name rhs) other i = cell_at df other i.
Proof. intros Hne. unfold cell_at. by rewrite lookup_col_loc_setitem_ne. Qed.

Lemma nrows_loc_setitem df mask name rhs :
  nrows (loc_setitem df mask name rhs) = nrows df.
Proof. unfold loc_setitem. by destruct (lookup_col name (columns df)). Qed.

Lemma lookup_mask_and (a b : list bool) (i : nat) x y :
  a !! i = Some x → b !! i = Some y → mask_and a b !! i = Some (x && y).
Proof.
  intros Ha Hb. unfold mask_and. by rewrite lookup_zip_with, Ha; simpl; rewrite Hb.
Qed.

Lemma wf_lookup_length df name s :
  wf_frame df → lookup_col name (columns df) = Some s →
  length (values s) = nrows df.
Proof.
  unfold wf_frame. generalize (nrows df) as k. intros k Hwf.
  induction (columns df) as [|[n0 s0] cols IH]; simpl; [done|].
  inversion Hwf as [|? ? H0 Hrest]; subst.
  destruct (String.eqb n0 name); [by intros [= <-]|by apply IH].
Qed.

Lemma wf_replace_col (k : nat) name s (cols : list (string * Series)) :
  Forall (fun c => length (values c.2) = k) cols → length (values s) = k →
  Forall (fun c => length (values c.2) = k) (replace_col name s cols).
Proof.
  intros Hwf Hs. induction Hwf as [|[n0 s0] cols H0 Hrest IH]; simpl.
  - by repeat constructor.
  - destruct (String.eqb n0 name); constructor; auto.
Qed.

Lemma wf_loc_setitem df mask name rhs :
  wf_frame df → wf_frame (loc_setitem df mask name rhs).
Proof.
  intros Hwf. unfold loc_setitem.
  destruct (lookup_col name (columns df)) as [old|] eqn:E; unfold wf_frame; simpl;
    apply wf_replace_col; try done; simpl; rewrite mask_assign_length.
  - by eapply wf_lookup_length.
  - apply length_replicate.
Qed.

Lemma prior_cell_wf df name (i : nat) :
  wf_frame df → (i < nrows df)%nat → is_Some (prior_cell df name i).
Proof.
  intros Hwf Hi. unfold prior_cell.
  destruct (lookup_col name (columns df)) as [s|] eqn:E.
  - apply lookup_lt_is_Some. by rewrite (wf_lookup_length _ _ _ Hwf E).
  - rewrite bool_decide_eq_true_2 by done. eauto.
Qed.

Lemma prior_cell_fresh df name (i : nat) :
  lookup_col name (columns df) = None → (i < nrows df)%nat →
  prior_cell df name i = Some NA.
Proof.
  intros E Hi. unfold prior_cell. rewrite E. by rewrite bool_decide_eq_true_2.
Qed.

Lemma prior_cell_loc_setitem df mask name rhs other i :
  other ≠ name →
  prior_cell (loc_setitem df mask name rhs) other i = prior_cell df other i.
Proof.
  intros Hne. unfold prior_cell.
  by rewrite lookup_col_loc_setitem_ne, nrows_loc_setitem.
Qed.

Lemma prior_cell_cell_at df name i c :
  cell_at df name i = Some c → prior_cell df name i = Some c.
Proof.
  unfold cell_at, prior_cell. by destruct (lookup_col name (columns df)).
Qed.

(** ** Row selection *)

Lemma true_positions_spec (mask : list bool) (i : nat) :
  i ∈ true_positions mask ↔ mask !! i = Some true.
Proof.
  unfold true_positions. rewrite list_elem_of_In, filter_In, in_seq.
  rewrite list_lookup_total_alt. split.
  - intros [[_ Hi] Ht]. simpl in Hi.
    destruct (mask !! i) as [b|] eqn:E; simpl in Ht; [by subst|].
    apply lookup_ge_None in E. lia.
  - intros E. rewrite E. split; [|done].
    apply lookup_lt_Some in E. lia.
Qed.

Lemma lookup_col_take_frame idx df name s :
  lookup_col name (columns df) = Some s →
  lookup_col name (columns (take_frame idx df)) = Some (take_rows idx s).
Proof. intros Hs. unfold take_frame. simpl. by rewrite lookup_col_fmap, Hs. Qed.

Lemma cell_at_take_frame idx df name s (k i : nat) :
  lookup_col name (columns df) = Some s → idx !! k = Some i →
  cell_at (take_frame idx df) name k = Some (values s !!! i).
Proof.
  intros Hs Hk. unfold cell_at, take_frame. simpl.
  rewrite lookup_col_fmap, Hs. simpl. by rewrite list_lookup_fmap, Hk.
Qed.

Lemma lookup_total_not_NA (l : list cell) (i : nat) :
  l !!! i ≠ NA → l !! i = Some (l !!! i).
Proof.
  rewrite list_lookup_total_alt. by destruct (l !! i).
Qed.

(** ** Time zones *)

Lemma append_eq_self (s t : string) : s +:+ t = s → t = "".
Proof.
  induction s as [|c s IH]; simpl; [done|]. intros [= H]. auto.
Qed.

Lemma localize_UTC (l : list cell) : traverse (localize_cell UTC) l = Ok l.
Proof.
  induction l as [|c l IH]; simpl; [done|].
  rewrite IH. by destruct c.
Qed.

(** C4, as it is worded, fails: the step rewrites the source field.  On a
    table with the naive field [CreationDate], converting from UTC to
    US/Pacific succeeds and leaves [CreationDate] zone-aware, which it was
    not before. *)
Lemma change_timezone_alters_source :
  let out := change_timezone_of_field one_naive_field
               "CreationDate" "_Pacific" UTC "US/Pacific" in
  out.2 = None
  ∧ lookup_col "CreationDate" (columns one_naive_field)
    = Some (mkSeries (datetime64 None) [Time 1633046400000000000; NA])
  ∧ lookup_col "CreationDate" (columns out.1)
    = Some (mkSeries (datetime64 (Some "UTC")) [Time 1633046400000000000; NA])
  ∧ lookup_col "CreationDate" (columns out.1)
    ≠ lookup_col "CreationDate" (columns one_naive_field)
  ∧ ¬ source_field_unaltered.
Proof.
  repeat split; try reflexivity; try discriminate.
  intros H.
  destruct (H one_naive_field "CreationDate" "_Pacific" UTC "US/Pacific" _ eq_refl)
    as [_ E].
  discriminate E.
Qed.

(** C4, amended.  On a naive timestamp field whose readings the source zone
    can place, with a non-empty suffix, the step succeeds.  It puts the
    converted timestamps in the field named source field plus suffix, keeps
    every field the table had, and changes no field but these two.  The
    source field is kept but rewritten in place: it now holds the localized
    timestamps and carries the source zone.  With UTC as the source zone the
    stored readings are the same as before. *)
Theorem change_timezone_adds_field_and_localizes_source
    (df : DataFrame) (src suffix : string) (source_tz : timezone) (new_tz : string)
    (s : Series) (vs : list cell) :
  lookup_col src (columns df) = Some s →
  dt s = datetime64 None →
  traverse (localize_cell source_tz) (values s) = Ok vs →
  suffix ≠ "" →
  ∃ df', change_timezone_of_field df src suffix source_tz new_tz = (df', None)
    ∧ lookup_col (src +:+ suffix) (columns df') = Some (mkSeries (datetime64 (Some new_tz)) vs)
    ∧ lookup_col src (columns df')
      = Some (mkSeries (datetime64 (Some (zone source_tz))) vs)
    ∧ (∀ other, other ≠ src → other ≠ src +:+ suffix →
         lookup_col other (columns df') = lookup_col other (columns df))
    ∧ (∀ n, n ∈ column_names df → n ∈ column_names df')
    ∧ nrows df' = nrows df
    ∧ length vs = length (values s)
    ∧ (source_tz = UTC → vs = values s).
Proof.
  intros Hs Hdt Hvs Hsuf. unfold change_timezone_of_field, getitem.
  rewrite Hs. cbn [mbind result_bind]. unfold tz_localize, dt_accessor.
  rewrite Hdt. cbn [mbind result_bind]. rewrite Hvs. cbn [mbind result_bind].
  cbn [setitem columns nrows]. rewrite lookup_col_replace_eq.
  cbn [mbind result_bind tz_convert dt_accessor dt values].
  eexists; split; [done|]. cbn [setitem columns nrows].
  assert (Hne : src ≠ src +:+ suffix).
  { intros E. symmetry in E. by apply append_eq_self in E. }
  split; [apply lookup_col_replace_eq|].
  split; [rewrite (lookup_col_replace_ne _ _ _ _ Hne); apply lookup_col_replace_eq|].
  split; [intros other H1 H2; by rewrite !lookup_col_replace_ne|].
  split.
  { intros n Hn. unfold column_names in *.
    apply lookup_col_is_Some in Hn.
    apply lookup_col_is_Some. cbn [setitem columns].
    destruct (decide (n = src +:+ suffix)) as [->|N1];
      [rewrite lookup_col_replace_eq; eauto|].
    rewrite lookup_col_replace_ne by done.
    destruct (decide (n = src)) as [->|N2]; [rewrite lookup_col_replace_eq; eauto|].
    by rewrite lookup_col_replace_ne. }
  split; [done|]. split; [by eapply traverse_length|].
  intros ->. rewrite localize_UTC in Hvs. by injection Hvs.
Qed.

(** C7.  On a field that is zone-aware already the step stops in its first
    statement with pandas' "Already tz-aware" error and leaves the table as
    it was; whenever the step succeeds the source field was naive; and
    after a successful step a second run on the same field is refused in
    that way, instead of converting again. *)
Theorem localization_refused_on_aware_field
    (df : DataFrame) (src suffix : string) (source_tz : timezone) (new_tz : string) :
  (∀ s tz, lookup_col src (columns df) = Some s → dt s = datetime64 (Some tz) →
     change_timezone_of_field df src suffix source_tz new_tz
     = (df, Some (TypeError "Already tz-aware, use tz_convert to convert.")))
  ∧ (∀ df', change_timezone_of_field df src suffix source_tz new_tz = (df', None) →
       (∃ s, lookup_col src (columns df) = Some s ∧ dt s = datetime64 None)
       ∧ change_timezone_of_field df' src suffix source_tz new_tz
         = (df', Some (TypeError "Already tz-aware, use tz_convert to convert."))).
Proof.
  assert (Haware : ∀ d s tz, lookup_col src (columns d) = Some s →
            dt s = datetime64 (Some tz) →
            change_timezone_of_field d src suffix source_tz new_tz
            = (d, Some (TypeError "Already tz-aware, use tz_convert to convert."))).
  { intros d s tz Hs Hdt. unfold change_timezone_of_field, getitem.
    rewrite Hs. cbn [mbind result_bind]. unfold tz_localize, dt_accessor.
    by rewrite Hdt. }
  split; [apply Haware|].
  intros df' Hrun. unfold change_timezone_of_field, getitem in Hrun.
  destruct (lookup_col src (columns df)) as [s|] eqn:Hs; [|discriminate].
  cbn [mbind result_bind] in Hrun. unfold tz_localize, dt_accessor in Hrun.
  destruct (dt s) as [| |[tz|]] eqn:Hdt; try discriminate.
  cbn [mbind result_bind] in Hrun.
  destruct (traverse (localize_cell source_tz) (values s)) as [vs|] eqn:Hvs;
    [|discriminate].
  cbn [mbind result_bind setitem columns nrows] in Hrun.
  rewrite lookup_col_replace_eq in Hrun.
  cbn [mbind result_bind tz_convert dt_accessor dt values] in Hrun.
  injection Hrun as <-.
  split; [eauto|].
  destruct (decide (src +:+ suffix = src)) as [E|N].
  - apply (Haware _ (mkSeries (datetime64 (Some new_tz)) vs) new_tz); [|done].
    cbn [setitem columns]. rewrite E. apply lookup_col_replace_eq.
  - apply (Haware _ (mkSeries (datetime64 (Some (zone source_tz))) vs) (zone source_tz));
      [|done].
    cbn [setitem columns].
    rewrite lookup_col_replace_ne by (intros E; by apply N).
    apply lookup_col_replace_eq.
Qed.

(** ** Observer *)

(** C8.  On a survey-event table that has the [Observer] and [ObserverOther]
    fields the step runs through, and in every row the resolved
    [ObserverText] is the free-text [ObserverOther] when the [Observer]
    selection is the string "Other", and the selection itself otherwise. *)
Theorem ObserverText_resolution (df : DataFrame) (so st : Series) :
  lookup_col "Observer" (columns df) = Some so →
  lookup_col "ObserverOther" (columns df) = Some st →
  ∃ df', populate_ObserverText df = Ok df' ∧
    ∀ i obs oth,
      values so !! i = Some obs → values st !! i = Some oth →
      cell_at df' "ObserverText" i
      = Some (if bool_decide (obs = Str "Other") then oth else obs).
Proof.
  intros Hso Hst. unfold populate_ObserverText, getitem.
  rewrite Hso. simpl. rewrite !lookup_col_replace_ne by done.
  rewrite Hso, Hst. simpl. eexists; split; [done|].
  intros i obs oth Hobs Hoth.
  assert (Hmask : eq_scalar so (Str "Other") !! i = Some (bool_decide (obs = Str "Other"))).
  { unfold eq_scalar. rewrite list_lookup_fmap, Hobs. simpl. by destruct obs. }
  apply (cell_at_loc_setitem _ _ _ _ _ _ _ _ Hmask Hoth).
  unfold prior_cell. simpl. by rewrite lookup_col_replace_eq.
Qed.

(** ** State *)

Lemma lookup_col_loc_setitem_eq df mask name rhs :
  is_Some (lookup_col name (columns (loc_setitem df mask name rhs))).
Proof.
  unfold loc_setitem. destruct (lookup_col name (columns df)); simpl;
    rewrite lookup_col_replace_eq; eauto.
Qed.

Lemma loc_setitem_scalar_ok df mask name ty v :
  nrows df ≠ 0%nat ∨ is_Some (lookup_col name (columns df)) →
  loc_setitem_scalar df mask name ty v
  = Ok (loc_setitem df mask name (mkSeries ty (replicate (nrows df) v))).
Proof.
  intros H. unfold loc_setitem_scalar. destruct H as [H|[s H]].
  - by rewrite (bool_decide_eq_false_2 _ H).
  - rewrite H. rewrite (bool_decide_eq_false_2 (Some s = None)) by done.
    by rewrite andb_false_r.
Qed.

(** The two assignments, one after the other, on a table that has a row or
    a [State] field already. *)
Lemma State_cells (df : DataFrame) (site : Series) :
  lookup_col "SiteName" (columns df) = Some site →
  nrows df ≠ 0%nat ∨ is_Some (lookup_col "State" (columns df)) →
  ∃ df', populate_State df = Ok df' ∧
    ∀ i s old,
      (i < nrows df)%nat →
      values site !! i = Some s → prior_cell df "State" i = Some old →
      cell_at df' "State" i
      = Some (if cell_in WA_filter s then Str "WA"
              else if cell_in OR_filter s then Str "OR"
              else old).
Proof.
  intros Hsite Hok. unfold populate_State, getitem.
  rewrite Hsite. cbn [mbind result_bind]. rewrite loc_setitem_scalar_ok by done.
  cbn [mbind result_bind]. rewrite lookup_col_loc_setitem_ne by done.
  rewrite Hsite. cbn [mbind result_bind].
  rewrite loc_setitem_scalar_ok by (right; apply lookup_col_loc_setitem_eq).
  eexists; split; [done|].
  intros i s old Hi Hs Hold.
  set (df1 := loc_setitem df (isin site WA_filter) "State"
                (mkSeries object (replicate (nrows df) (Str "WA")))).
  assert (H1 : cell_at df1 "State" i
               = Some (if cell_in WA_filter s then Str "WA" else old)).
  { apply cell_at_loc_setitem; try done.
    - unfold isin. by rewrite list_lookup_fmap, Hs.
    - simpl. by apply lookup_replicate_2. }
  assert (H2 : cell_at (loc_setitem df1 (isin site OR_filter) "State"
                          (mkSeries object (replicate (nrows df1) (Str "OR")))) "State" i
               = Some (if cell_in OR_filter s then Str "OR"
                       else if cell_in WA_filter s then Str "WA" else old)).
  { apply cell_at_loc_setitem.
    - unfold isin. by rewrite list_lookup_fmap, Hs.
    - simpl. apply lookup_replicate_2. unfold df1. by rewrite nrows_loc_setitem.
    - unfold prior_cell. unfold cell_at in H1.
      destruct (lookup_col "State" (columns df1)) eqn:E; [done|discriminate]. }
  assert (Hdisj : cell_in WA_filter s = true → cell_in OR_filter s = true → False).
  { destruct s as [|x| |]; simpl; try discriminate.
    rewrite !bool_decide_eq_true. unfold WA_filter, OR_filter.
    rewrite !elem_of_cons, !elem_of_nil. intros Hwa Hor.
    destruct Hwa as [->|[->|[->|[]]]]; repeat (destruct Hor as [Hor|Hor]; [discriminate|]);
      done. }
  rewrite H2. destruct (cell_in WA_filter s) eqn:Ewa, (cell_in OR_filter s) eqn:Eor;
    try done. by destruct Hdisj.
Qed.

(** C9.  On a survey-event table with a [SiteName] field that has a row (or
    a [State] field already) the step runs through.  In every row the
    resolved [State] is "WA" when the site is Willapa NWR, Julia Butler
    Hansen Refuge for the Columbian White-tailed Deer or Ridgefield NWR, and
    "OR" when it is one of the seven Oregon refuges; for any other site, and
    for a missing site name, the step assigns nothing: the cell keeps its
    content [old], which is the cell of the [State] field the table has
    already, and the missing value when [State] is created by this step.
    On a table without rows that has no [State] field yet there is no row to
    resolve and the first assignment raises a [ValueError]. *)
Theorem State_assignment (df : DataFrame) (site : Series) :
  lookup_col "SiteName" (columns df) = Some site →
  (nrows df ≠ 0%nat ∨ is_Some (lookup_col "State" (columns df)) →
   ∃ df', populate_State df = Ok df' ∧
     ∀ i s old,
       (i < nrows df)%nat →
       values site !! i = Some s →
       match lookup_col "State" (columns df) with
       | Some state => values state !! i = Some old
       | None => old = NA
       end →
       cell_at df' "State" i
       = Some (match s with
               | Str name =>
                   if bool_decide
                        (name ∈ ["Willapa NWR";
                                 "Julia Butler Hansen Refuge for the Columbian White-tailed Deer";
                                 "Ridgefield NWR"])
                   then Str "WA"
                   else if bool_decide
                             (name ∈ ["Lewis and Clark NWR"; "Tualatin River NWR";
                                      "Wapato Lake NWR"; "Baskett Slough NWR";
                                      "Ankeny NWR"; "William L. Finley NWR";
                                      "Nestucca Bay NWR"])
                   then Str "OR"
                   else old
               | _ => old
               end))
  ∧ (nrows df = 0%nat → lookup_col "State" (columns df) = None →
     populate_State df
     = Raise (ValueError "cannot set a frame with no defined index and a scalar")).
Proof.
  intros Hsite. split.
  - intros Hok. destruct (State_cells df site Hsite Hok) as (df' & Hrun & Hrows).
    exists df'. split; [exact Hrun|]. intros i s old Hi Hs Hold.
    rewrite (Hrows i s old Hi Hs); [by destruct s|].
    unfold prior_cell. destruct (lookup_col "State" (columns df)); [exact Hold|].
    subst old. by rewrite bool_decide_eq_true_2.
  - intros Hz Hnone. unfold populate_State, getitem. rewrite Hsite.
    cbn [mbind result_bind]. unfold loc_setitem_scalar. rewrite Hz, Hnone.
    rewrite !bool_decide_eq_true_2 by done. reflexivity.
Qed.

(** ** Inner joins *)

Lemma join_indexers_spec (lk rk : list cell) (i j : nat) :
  (i, j) ∈ join_indexers lk rk ↔
  ∃ key, lk !! i = Some key ∧ rk !! j = Some key.
Proof.
  unfold join_indexers. rewrite list_elem_of_bind. split.
  - intros (i' & Hin & Hi). apply list_elem_of_bind in Hin as (j' & Hin & Hj).
    apply list_elem_of_singleton in Hin. injection Hin as <- <-.
    apply list_elem_of_In, in_seq in Hi.
    apply list_elem_of_In, filter_In in Hj as [Hj Heq]. apply in_seq in Hj.
    apply bool_decide_eq_true in Heq.
    destruct (lookup_lt_is_Some_2 lk i) as [a Ha]; [lia|].
    destruct (lookup_lt_is_Some_2 rk j) as [b Hb]; [lia|].
    rewrite !list_lookup_total_alt, Ha, Hb in Heq. simpl in Heq. subst. eauto.
  - intros (key & Ha & Hb). exists i. split.
    + apply list_elem_of_bind. exists j. split; [by apply list_elem_of_singleton|].
      apply list_elem_of_In, filter_In. split.
      * apply in_seq. apply lookup_lt_Some in Hb. lia.
      * apply bool_decide_eq_true. by rewrite !list_lookup_total_alt, Ha, Hb.
    + apply list_elem_of_In, in_seq. apply lookup_lt_Some in Ha. lia.
Qed.

Lemma merge_inner_spec left right left_on right_on :
  is_Some (lookup_col left_on (columns left)) →
  is_Some (lookup_col right_on (columns right)) →
  NoDup (merged_names left right) →
  ∃ joined, merge_inner left right left_on right_on = Ok joined
    ∧ inner_join_of left right left_on right_on joined.
Proof.
  intros [lk Hlk] [rk Hrk] Hnd. unfold merge_inner, getitem.
  rewrite Hlk, Hrk. cbn [mbind result_bind].
  set (idx := join_indexers (values lk) (values rk)).
  set (lcols := (fun c => (suffixed (column_names right) "_x" c.1, take_rows idx.*1 c.2))
                  <$> columns left).
  set (rcols := (fun c => (suffixed (column_names left) "_y" c.1, take_rows idx.*2 c.2))
                  <$> columns right).
  eexists; split; [done|].
  assert (Hnames : ((lcols ++ rcols)%list).*1 = merged_names left right).
  { unfold merged_names, column_names, lcols, rcols.
    rewrite fmap_app, <- !list_fmap_compose. done. }
  assert (HL : ∀ n s (k i j : nat), lookup_col n (columns left) = Some s →
            idx !! k = Some (i, j) →
            cell_at (mkFrame (length idx) (lcols ++ rcols))
              (suffixed (column_names right) "_x" n) k = Some (values s !!! i)).
  { intros n s k i j Hs Hk. unfold cell_at. cbn [columns].
    rewrite (lookup_col_NoDup _ _ (take_rows idx.*1 s)).
    - simpl. by rewrite !list_lookup_fmap, Hk.
    - by rewrite Hnames.
    - apply elem_of_app. left. apply list_elem_of_fmap.
      exists (n, s). split; [done|]. by apply lookup_col_elem_of. }
  assert (HR : ∀ n s (k i j : nat), lookup_col n (columns right) = Some s →
            idx !! k = Some (i, j) →
            cell_at (mkFrame (length idx) (lcols ++ rcols))
              (suffixed (column_names left) "_y" n) k = Some (values s !!! j)).
  { intros n s k i j Hs Hk. unfold cell_at. cbn [columns].
    rewrite (lookup_col_NoDup _ _ (take_rows idx.*2 s)).
    - simpl. by rewrite !list_lookup_fmap, Hk.
    - by rewrite Hnames.
    - apply elem_of_app. right. apply list_elem_of_fmap.
      exists (n, s). split; [done|]. by apply lookup_col_elem_of. }
  assert (Hrow : ∀ k, (k < length idx)%nat →
            ∃ (i j : nat) key, idx !! k = Some (i, j)
              ∧ values lk !! i = Some key ∧ values rk !! j = Some key).
  { intros k Hk. destruct (lookup_lt_is_Some_2 idx k Hk) as [[i j] Hij].
    destruct (proj1 (join_indexers_spec (values lk) (values rk) i j)) as (key & Hi & Hj).
    { apply list_elem_of_lookup. eauto. }
    exists i, j, key. done. }
  assert (Hkey : ∀ k, (k < length idx)%nat →
            ∃ (i j : nat) key, idx !! k = Some (i, j)
              ∧ values lk !! i = Some key ∧ values rk !! j = Some key
              ∧ cell_at (mkFrame (length idx) (lcols ++ rcols))
                  (suffixed (column_names right) "_x" left_on) k = Some key
              ∧ cell_at (mkFrame (length idx) (lcols ++ rcols))
                  (suffixed (column_names left) "_y" right_on) k = Some key).
  { intros k Hk. destruct (Hrow k Hk) as (i & j & key & Hij & Hi & Hj).
    exists i, j, key. repeat split; try done.
    - rewrite (HL _ _ _ _ _ Hlk Hij). by rewrite list_lookup_total_alt, Hi.
    - rewrite (HR _ _ _ _ _ Hrk Hij). by rewrite list_lookup_total_alt, Hj. }
  exists lk, rk. split; [done|]. split; [done|]. cbn [nrows]. split; [|split].
  - intros k Hk. destruct (Hkey k Hk) as (i & j & key & Hij & Hi & Hj & Hkl & Hkr).
    exists i, j, key. repeat split; try done.
    + intros n s Hs. by eapply HL.
    + intros n s Hs. by eapply HR.
  - intros key Hnot k Hk.
    destruct (Hkey k Hk) as (i & j & key' & Hij & Hi & Hj & Hkl & Hkr).
    rewrite Hkl, Hkr.
    split; intros [= ->]; destruct Hnot as [Hnot|Hnot]; destruct Hnot;
      apply list_elem_of_lookup; eauto.
  - intros key [i Hi]%list_elem_of_lookup [j Hj]%list_elem_of_lookup.
    assert (Hin : (i, j) ∈ idx) by (apply join_indexers_spec; eauto).
    apply list_elem_of_lookup in Hin as [k Hk].
    exists k. split; [by eapply lookup_lt_Some|].
    rewrite (HL _ _ _ _ _ Hlk Hk). by rewrite list_lookup_total_alt, Hi.
Qed.

(** A merged table is well formed, whatever its inputs. *)
Lemma wf_merge_inner left right left_on right_on joined :
  merge_inner left right left_on right_on = Ok joined → wf_frame joined.
Proof.
  unfold merge_inner.
  destruct (getitem left left_on) as [lk|]; [|done].
  destruct (getitem right right_on) as [rk|]; [|done].
  cbn [mbind result_bind]. intros [= <-]. unfold wf_frame. cbn [columns nrows].
  apply Forall_app. split; apply Forall_fmap, Forall_forall; intros c _; simpl;
    by rewrite !length_fmap.
Qed.

(** C6.  Both merges of the notebook are inner joins.  When the key
    columns exist and the suffixes leave no two columns of the result with
    one name, the merge of the survey events with the observation points on
    [globalid] / [parentglobalid], and the merge of the clean metadata with
    the pivoted flock table on [globalid_y] / [globalid], run through; in
    every row of the result both key columns hold the same value, the row
    being a left row beside a right row with that key; and a key that one
    side lacks is in no row of the result: the row that carries it is
    dropped, not padded. *)
Theorem inner_joins_match_keys (md op clean pivot : DataFrame) :
  is_Some (lookup_col "globalid" (columns md)) →
  is_Some (lookup_col "parentglobalid" (columns op)) →
  NoDup (merged_names md op) →
  is_Some (lookup_col "globalid_y" (columns clean)) →
  is_Some (lookup_col "globalid" (columns pivot)) →
  NoDup (merged_names clean pivot) →
  (∃ joined, sedfMetadataYYYY_ObservationPoint md op = Ok joined
     ∧ inner_join_of md op "globalid" "parentglobalid" joined)
  ∧ (∃ long, dfFlockLong clean pivot = Ok long
       ∧ inner_join_of clean pivot "globalid_y" "globalid" long).
Proof.
  intros H1 H2 H3 H4 H5 H6. split.
  - by apply merge_inner_spec.
  - by apply merge_inner_spec.
Qed.

(** ** Coordinates *)

(** One statement of the form
    [df.loc[site.isin(..) & test(tested), target] = df[source]]. *)
Lemma assign_prepopulated_site_spec df tested test target source site t rhs :
  lookup_col "SiteName" (columns df) = Some site →
  lookup_col tested (columns df) = Some t →
  lookup_col source (columns df) = Some rhs →
  ∃ df', assign_prepopulated_site df tested test target source = Ok df'
    ∧ df' = loc_setitem df (mask_and (isin site Prepopulated_filter) (test t)) target rhs.
Proof.
  intros Hs Ht Hr. unfold assign_prepopulated_site, getitem.
  rewrite Hs, Ht. simpl. rewrite Hr. simpl. eauto.
Qed.

Lemma assign_other_site_spec df target source site rhs :
  lookup_col "SiteName" (columns df) = Some site →
  lookup_col source (columns df) = Some rhs →
  ∃ df', assign_other_site df target source = Ok df'
    ∧ df' = loc_setitem df (mask_not (isin site Prepopulated_filter)) target rhs.
Proof.
  intros Hs Hr. unfold assign_other_site, getitem.
  rewrite Hs. simpl. rewrite Hr. simpl. eauto.
Qed.

Lemma is_NA_decide (c : cell) : is_NA c = bool_decide (c = NA).
Proof. by destruct c. Qed.

(** The six assignments, one after the other. *)
Lemma coordinate_cells (df : DataFrame) (site latp lonp lat lon : Series) :
  wf_frame df →
  lookup_col "SiteName" (columns df) = Some site →
  lookup_col "Latitude_Prepopulated" (columns df) = Some latp →
  lookup_col "Longitude_Prepopulated" (columns df) = Some lonp →
  lookup_col "Latitude" (columns df) = Some lat →
  lookup_col "Longitude" (columns df) = Some lon →
  ∃ df', populate_LatLongDD df = Ok df' ∧
    ∀ i s ap op a o,
      values site !! i = Some s →
      values latp !! i = Some ap → values lonp !! i = Some op →
      values lat !! i = Some a → values lon !! i = Some o →
      cell_at df' "LatitudeDD" i
      = Some (if cell_in Prepopulated_filter s && negb (is_NA ap) then ap else a)
      ∧ cell_at df' "LongitudeDD" i
      = Some (if cell_in Prepopulated_filter s && negb (is_NA op) then op else o).
Proof.
  intros Hwf Hsite Hlatp Hlonp Hlat Hlon. unfold populate_LatLongDD.
  destruct (assign_prepopulated_site_spec df "Latitude_Prepopulated" notnull
              "LatitudeDD" "Latitude_Prepopulated" _ _ _ Hsite Hlatp Hlatp)
    as (df1 & -> & E1).
  simpl.
  assert (K1 : ∀ n, n ≠ "LatitudeDD" →
               lookup_col n (columns df1) = lookup_col n (columns df)).
  { intros n Hn. rewrite E1. by apply lookup_col_loc_setitem_ne. }
  destruct (assign_prepopulated_site_spec df1 "Longitude_Prepopulated" notnull
              "LongitudeDD" "Longitude_Prepopulated" site lonp lonp)
    as (df2 & -> & E2); try (rewrite K1 by done; done).
  simpl.
  assert (K2 : ∀ n, n ≠ "LongitudeDD" →
               lookup_col n (columns df2) = lookup_col n (columns df1)).
  { intros n Hn. rewrite E2. by apply lookup_col_loc_setitem_ne. }
  destruct (assign_prepopulated_site_spec df2 "Latitude_Prepopulated" isnull
              "LatitudeDD" "Latitude" site latp lat)
    as (df3 & -> & E3); try (rewrite K2, K1 by done; done).
  simpl.
  assert (K3 : ∀ n, n ≠ "LatitudeDD" →
               lookup_col n (columns df3) = lookup_col n (columns df2)).
  { intros n Hn. rewrite E3. by apply lookup_col_loc_setitem_ne. }
  destruct (assign_prepopulated_site_spec df3 "Longitude_Prepopulated" isnull
              "LongitudeDD" "Longitude" site lonp lon)
    as (df4 & -> & E4); try (rewrite K3, K2, K1 by done; done).
  simpl.
  assert (K4 : ∀ n, n ≠ "LongitudeDD" →
               lookup_col n (columns df4) = lookup_col n (columns df3)).
  { intros n Hn. rewrite E4. by apply lookup_col_loc_setitem_ne. }
  destruct (assign_other_site_spec df4 "LatitudeDD" "Latitude" site lat)
    as (df5 & -> & E5); try (rewrite K4, K3, K2, K1 by done; done).
  simpl.
  assert (K5 : ∀ n, n ≠ "LatitudeDD" →
               lookup_col n (columns df5) = lookup_col n (columns df4)).
  { intros n Hn. rewrite E5. by apply lookup_col_loc_setitem_ne. }
  destruct (assign_other_site_spec df5 "LongitudeDD" "Longitude" site lon)
    as (df6 & -> & E6); try (rewrite K5, K4, K3, K2, K1 by done; done).
  eexists; split; [done|].
  intros i s ap op a o Hs Hap Hop Ha Ho.
  assert (Hi : (i < nrows df)%nat).
  { rewrite <- (wf_lookup_length _ _ _ Hwf Hsite). by eapply lookup_lt_Some. }
  assert (Hin : isin site Prepopulated_filter !! i = Some (cell_in Prepopulated_filter s)).
  { unfold isin. by rewrite list_lookup_fmap, Hs. }
  destruct (prior_cell_wf df "LatitudeDD" i Hwf Hi) as [la0 Hla0].
  destruct (prior_cell_wf df "LongitudeDD" i Hwf Hi) as [lo0 Hlo0].
  (* the latitude through statements 1, 3 and 5 *)
  assert (A1 : cell_at df1 "LatitudeDD" i
               = Some (if cell_in Prepopulated_filter s && negb (is_NA ap) then ap else la0)).
  { rewrite E1. apply cell_at_loc_setitem; try done.
    apply lookup_mask_and; [done|]. unfold notnull. by rewrite list_lookup_fmap, Hap. }
  assert (A2 : cell_at df2 "LatitudeDD" i = cell_at df1 "LatitudeDD" i).
  { rewrite E2. by apply cell_at_loc_setitem_ne. }
  assert (A3 : cell_at df3 "LatitudeDD" i
               = Some (if cell_in Prepopulated_filter s && is_NA ap then a
                       else if cell_in Prepopulated_filter s && negb (is_NA ap) then ap
                       else la0)).
  { rewrite E3. apply cell_at_loc_setitem; try done.
    - apply lookup_mask_and; [done|]. unfold isnull. by rewrite list_lookup_fmap, Hap.
    - apply prior_cell_cell_at. by rewrite A2, A1. }
  assert (A4 : cell_at df4 "LatitudeDD" i = cell_at df3 "LatitudeDD" i).
  { rewrite E4. by apply cell_at_loc_setitem_ne. }
  assert (A5 : cell_at df5 "LatitudeDD" i
               = Some (if negb (cell_in Prepopulated_filter s) then a
                       else if cell_in Prepopulated_filter s && is_NA ap then a
                       else if cell_in Prepopulated_filter s && negb (is_NA ap) then ap
                       else la0)).
  { rewrite E5. apply cell_at_loc_setitem; try done.
    - unfold mask_not. by rewrite list_lookup_fmap, Hin.
    - apply prior_cell_cell_at. by rewrite A4, A3. }
  assert (A6 : cell_at df6 "LatitudeDD" i = cell_at df5 "LatitudeDD" i).
  { rewrite E6. by apply cell_at_loc_setitem_ne. }
  (* the longitude through statements 2, 4 and 6 *)
  assert (B2 : cell_at df2 "LongitudeDD" i
               = Some (if cell_in Prepopulated_filter s && negb (is_NA op) then op else lo0)).
  { rewrite E2. apply cell_at_loc_setitem; try done.
    - apply lookup_mask_and; [done|]. unfold notnull. by rewrite list_lookup_fmap, Hop.
    - rewrite E1. by rewrite prior_cell_loc_setitem. }
  assert (B3 : cell_at df3 "LongitudeDD" i = cell_at df2 "LongitudeDD" i).
  { rewrite E3. by apply cell_at_loc_setitem_ne. }
  assert (B4 : cell_at df4 "LongitudeDD" i
               = Some (if cell_in Prepopulated_filter s && is_NA op then o
                       else if cell_in Prepopulated_filter s && negb (is_NA op) then op
                       else lo0)).
  { rewrite E4. apply cell_at_loc_setitem; try done.
    - apply lookup_mask_and; [done|]. unfold isnull. by rewrite list_lookup_fmap, Hop.
    - apply prior_cell_cell_at. by rewrite B3, B2. }
  assert (B5 : cell_at df5 "LongitudeDD" i = cell_at df4 "LongitudeDD" i).
  { rewrite E5. by apply cell_at_loc_setitem_ne. }
  assert (B6 : cell_at df6 "LongitudeDD" i
               = Some (if negb (cell_in Prepopulated_filter s) then o
                       else if cell_in Prepopulated_filter s && is_NA op then o
                       else if cell_in Prepopulated_filter s && negb (is_NA op) then op
                       else lo0)).
  { rewrite E6. apply cell_at_loc_setitem; try done.
    - unfold mask_not. by rewrite list_lookup_fmap, Hin.
    - apply prior_cell_cell_at. by rewrite B5, B4. }
  split.
  - rewrite A6, A5. by destruct (cell_in Prepopulated_filter s), (is_NA ap).
  - rewrite B6. by destruct (cell_in Prepopulated_filter s), (is_NA op).
Qed.

(** C2.  On a well-formed joined table that has the site name and the
    measured and prepopulated coordinates, the step runs through, and in
    every row the resolved [LatitudeDD] is the prepopulated latitude when the
    site is Ridgefield NWR, Tualatin River NWR or Wapato Lake NWR and that
    latitude is not null, and the measured [Latitude] in every other case (a
    missing site name included); likewise for [LongitudeDD]. *)
Theorem coordinate_resolution (df : DataFrame) (site latp lonp lat lon : Series) :
  wf_frame df →
  lookup_col "SiteName" (columns df) = Some site →
  lookup_col "Latitude_Prepopulated" (columns df) = Some latp →
  lookup_col "Longitude_Prepopulated" (columns df) = Some lonp →
  lookup_col "Latitude" (columns df) = Some lat →
  lookup_col "Longitude" (columns df) = Some lon →
  ∃ df', populate_LatLongDD df = Ok df' ∧
    ∀ i s ap op a o,
      values site !! i = Some s →
      values latp !! i = Some ap → values lonp !! i = Some op →
      values lat !! i = Some a → values lon !! i = Some o →
      cell_at df' "LatitudeDD" i
      = Some (match s with
              | Str name =>
                  if bool_decide
                       (name ∈ ["Ridgefield NWR"; "Tualatin River NWR"; "Wapato Lake NWR"])
                     && negb (bool_decide (ap = NA))
                  then ap else a
              | _ => a
              end)
      ∧ cell_at df' "LongitudeDD" i
        = Some (match s with
                | Str name =>
                    if bool_decide
                         (name ∈ ["Ridgefield NWR"; "Tualatin River NWR"; "Wapato Lake NWR"])
                       && negb (bool_decide (op = NA))
                    then op else o
                | _ => o
                end).
Proof.
  intros Hwf Hsite Hlatp Hlonp Hlat Hlon.
  destruct (coordinate_cells df site latp lonp lat lon Hwf Hsite Hlatp Hlonp Hlat Hlon)
    as (df' & Hrun & Hrows).
  exists df'. split; [exact Hrun|]. intros i s ap op a o Hs Hap Hop Ha Ho.
  destruct (Hrows i s ap op a o Hs Hap Hop Ha Ho) as [-> ->].
  rewrite !is_NA_decide. by destruct s.
Qed.

(** ** Total *)

Lemma row_sum_names df names cols (i : nat) :
  Forall2 (fun n c => c.1 = n ∧ lookup_col n (columns df) = Some c.2) names cols →
  Zsum ((fun c => cell_number (values c.2 !!! i)) <$> cols)
  = Zsum ((fun n => from_option cell_number 0 (cell_at df n i)) <$> names).
Proof.
  induction 1 as [|n c names cols' [<- Hlook] HF IH]; simpl; [done|].
  f_equal; [|exact IH].
  unfold cell_at. rewrite Hlook. simpl. rewrite list_lookup_total_alt.
  by destruct (values c.2 !! i).
Qed.

Lemma col_list_17 : length col_list = 17%nat ∧ NoDup col_list.
Proof. split; [reflexivity|]. apply (bool_decide_unpack _). by vm_compute. Qed.

(** The row sums of the 17 count columns. *)
Lemma Total_cells (df : DataFrame) :
  (∀ n, n ∈ col_list →
     ∃ s, lookup_col n (columns df) = Some s ∧ forallb summable (values s) = true) →
  ∃ df', populate_Total df = Ok df' ∧
    ∀ i, (i < nrows df)%nat →
      cell_at df' "Total" i
      = Some (Num (Zsum ((fun n => from_option cell_number 0 (cell_at df n i)) <$> col_list))).
Proof.
  intros Hcols. unfold populate_Total.
  destruct (getitem_list_ok df col_list) as (cols & -> & HF).
  { intros n Hn. destruct (Hcols n Hn) as (s & -> & _). eauto. }
  simpl. unfold sum_axis1. simpl.
  assert (Hnum : forallb (fun c => forallb summable (values c.2)) cols = true).
  { apply forallb_forall. intros c Hc.
    apply list_elem_of_In in Hc.
    destruct (proj1 (list_elem_of_lookup _ _) Hc) as [k Hk].
    destruct (Forall2_lookup_r _ _ _ _ _ HF Hk) as (n & Hn & <- & Hlook).
    destruct (Hcols c.1) as (s & Hs & Hdt).
    { apply list_elem_of_lookup. eauto. }
    congruence. }
  rewrite Hnum. simpl. eexists; split; [done|].
  intros i Hi. unfold cell_at at 1. simpl. rewrite lookup_col_replace_eq. simpl.
  rewrite list_lookup_fmap, lookup_seq_lt by done.
  cbn -[col_list]. by rewrite (row_sum_names _ _ _ _ HF).
Qed.

(** C1.  On a joined table whose 17 count fields hold whole numbers of at
    most [2^48] in size, or nothing, the step runs through, and in every row
    [Total] is the sum of the 17 count fields of that row, a null count
    adding 0.  (Under the bound every partial sum stays below [2^53], so the
    [float64] sum the notebook computes is the exact one.) *)
Theorem Total_is_sum_of_counts (df : DataFrame) :
  (∀ n, n ∈ ["DuskyCount"; "WuskyCount"; "WesternCount"; "TavLessCount"; "TavCount";
              "LessCount"; "AleutianCount"; "CacklingCount"; "UnknownCanadaCount";
              "UnknownCacklerCount"; "WhiteFrontedCount"; "SnowCount"; "RossCount";
              "UnknownGooseCount"; "TrumpeterCount"; "TundraCount"; "UnknownSwanCount"] →
     ∃ s, lookup_col n (columns df) = Some s
          ∧ ∀ c, c ∈ values s → c = NA ∨ ∃ z, c = Num z ∧ (Z.abs z ≤ 2 ^ 48)%Z) →
  ∃ df', populate_Total df = Ok df' ∧
    ∀ i, (i < nrows df)%nat →
      cell_at df' "Total" i
      = Some (Num (foldr Z.add 0
                     ((fun n => match cell_at df n i with Some (Num z) => z | _ => 0 end)
                        <$> ["DuskyCount"; "WuskyCount"; "WesternCount"; "TavLessCount"; "TavCount";
              "LessCount"; "AleutianCount"; "CacklingCount"; "UnknownCanadaCount";
              "UnknownCacklerCount"; "WhiteFrontedCount"; "SnowCount"; "RossCount";
              "UnknownGooseCount"; "TrumpeterCount"; "TundraCount"; "UnknownSwanCount"]))).
Proof.
  intros Hcols.
  destruct (Total_cells df) as (df' & Hrun & Hrows).
  { intros n Hn. destruct (Hcols n Hn) as (s & Hs & Hcells).
    exists s. split; [exact Hs|]. apply forallb_forall. intros c Hc.
    apply list_elem_of_In in Hc. by destruct (Hcells c Hc) as [->|(z & -> & _)]. }
  exists df'. split; [exact Hrun|]. intros i Hi. rewrite (Hrows i Hi).
  unfold Zsum, col_list, from_option, cell_number. reflexivity.
Qed.

(** ** Dusky neckband exports *)

(** The row filter looks at every column whose name contains "DuskyCollar":
    the 30 collar fields and [NumberDuskyCollars]. *)
Lemma collar_filter_columns :
  List.filter (contains "DuskyCollar") neckband_columns
  = (List.filter (String.prefix "DuskyCollar") neckband_columns ++ ["NumberDuskyCollars"])%list
  ∧ length (List.filter (String.prefix "DuskyCollar") neckband_columns) = 30%nat.
Proof. split; reflexivity. Qed.

(** What the row filter of the neckband table keeps: the rows in which some
    column whose name contains "DuskyCollar" is not missing. *)
Lemma collar_filter_keeps_row df (i : nat) :
  (i < nrows df)%nat →
  i ∈ true_positions (mask_not (isna_all (filter_like df "DuskyCollar")))
  ↔ ∃ c, c ∈ columns df ∧ contains "DuskyCollar" c.1 = true ∧ values c.2 !!! i ≠ NA.
Proof.
  intros Hi. rewrite true_positions_spec. unfold mask_not, isna_all.
  rewrite !list_lookup_fmap. cbn [filter_like nrows columns].
  rewrite lookup_seq_lt by done. cbn [fmap option_fmap option_map plus].
  assert (negb (forallb (fun c : string * Series => is_NA (values c.2 !!! i))
                  (List.filter (fun c => contains "DuskyCollar" c.1) (columns df))) = true
          ↔ ∃ c, c ∈ columns df ∧ contains "DuskyCollar" c.1 = true
                 ∧ values c.2 !!! i ≠ NA) as <-.
  { rewrite negb_true_iff, forallb_false_elem. split.
    - intros (c & Hc & Hna). apply list_elem_of_In, filter_In in Hc as [Hc Hlike].
      exists c. rewrite list_elem_of_In. repeat split; try done.
      intros E. by rewrite E in Hna.
    - intros (c & Hc & Hlike & Hna). exists c. split.
      + apply list_elem_of_In, filter_In. by rewrite <- list_elem_of_In.
      + by destruct (values c.2 !!! i). }
  split; [by intros [= ->]|by intros ->].
Qed.

(** C5 does not hold of the code.  In the table [two_points] the second
    observation point, [point-2], has all 30 collar fields empty, yet it is
    a row of the neckband table and of both exports: its
    [NumberDuskyCollars] is 0, which is not a missing value, and the row
    filter counts that field among the collar fields. *)
Theorem neckband_exports_keep_point_without_collars :
  Forall (fun name => cell_at two_points name 1 = Some NA)
    (List.filter (String.prefix "DuskyCollar") neckband_columns)
  ∧ cell_at two_points "globalid_y" 1 = Some (Str "point-2")
  ∧ cell_at two_points "NumberDuskyCollars" 1 = Some (Num 0)
  ∧ ∃ neck nwr mb,
      dfDuskyNeckband two_points = Ok neck
      ∧ dfDuskyNeckbandNWR neck = Ok nwr
      ∧ dfDuskyNeckbandMB neck = Ok mb
      ∧ cell_at neck "globalid_y" 1 = Some (Str "point-2")
      ∧ cell_at nwr "occurrenceID" 1 = Some (Str "point-2")
      ∧ cell_at mb "globalid" 1 = Some (Str "point-2").
Proof.
  split; [vm_compute; repeat constructor|].
  split; [reflexivity|]. split; [reflexivity|].
  destruct (dfDuskyNeckband two_points) as [neck|] eqn:E1; [|by vm_compute in E1].
  destruct (dfDuskyNeckbandNWR neck) as [nwr|] eqn:E2;
    [|vm_compute in E1; injection E1 as <-; by vm_compute in E2].
  destruct (dfDuskyNeckbandMB neck) as [mb|] eqn:E3;
    [|vm_compute in E1; injection E1 as <-; by vm_compute in E3].
  exists neck, nwr, mb. repeat split; try done;
    vm_compute in E1; injection E1 as <-.
  - reflexivity.
  - vm_compute in E2. injection E2 as <-. reflexivity.
  - vm_compute in E3. injection E3 as <-. reflexivity.
Qed.

(** ** Flock pivot *)

(** The three closing steps of the pivot, on a long table as
    [pivot_longer] builds it: every row that is left is a row [i] of the
    long table whose value is neither missing nor zero. *)
Lemma flock_filter_rows (n : nat) (G S D V : Series) :
  ∃ final,
    (df3 ← remove_columns
             (mkFrame n [("globalid", G); ("shortName", S); ("dimension", D); ("value", V)])
             ["dimension"];
     df4 ← filter_on_value_ne_0 df3;
     Ok (dropna df4)) = Ok final
    ∧ ∀ k, (k < nrows final)%nat →
        ∃ i, (i < length (values V))%nat
          ∧ cell_at final "globalid" k = Some (values G !!! i)
          ∧ cell_at final "shortName" k = Some (values S !!! i)
          ∧ cell_at final "value" k = Some (values V !!! i)
          ∧ values V !!! i ≠ Num 0 ∧ values V !!! i ≠ NA ∧ values G !!! i ≠ NA.
Proof.
  assert (E3 : remove_columns
                 (mkFrame n [("globalid", G); ("shortName", S); ("dimension", D); ("value", V)])
                 ["dimension"]
               = Ok (mkFrame n [("globalid", G); ("shortName", S); ("value", V)])).
  { reflexivity. }
  rewrite E3. clear E3. cbn [mbind result_bind].
  unfold filter_on_value_ne_0, getitem. cbn [columns lookup_col String.eqb Ascii.eqb Bool.eqb].
  cbn [mbind result_bind].
  set (idx1 := true_positions (ne_zero <$> values V)).
  set (df3 := mkFrame n [("globalid", G); ("shortName", S); ("value", V)]).
  set (df4 := select_rows (ne_zero <$> values V) df3).
  eexists; split; [done|].
  intros k Hk. unfold dropna, select_rows in Hk. simpl in Hk.
  set (idx2 := true_positions (row_complete df4 <$> seq 0 (nrows df4))) in *.
  destruct (lookup_lt_is_Some_2 idx2 k Hk) as [j Hj].
  assert (Hjm : (row_complete df4 <$> seq 0 (nrows df4)) !! j = Some true).
  { apply true_positions_spec. apply list_elem_of_lookup. eauto. }
  rewrite list_lookup_fmap in Hjm.
  destruct (seq 0 (nrows df4) !! j) as [j'|] eqn:Ej; [|done].
  apply lookup_seq in Ej as [-> Hjlt]. simpl in Hjm. injection Hjm as Hjm.
  simpl in Hjlt. fold idx1 in Hjlt.
  destruct (lookup_lt_is_Some_2 idx1 j Hjlt) as [i Hi].
  assert (Him : (ne_zero <$> values V) !! i = Some true).
  { apply true_positions_spec. apply list_elem_of_lookup. eauto. }
  rewrite list_lookup_fmap in Him.
  destruct (values V !! i) as [v|] eqn:Ev; [|done]. simpl in Him. injection Him as Hv.
  assert (HVi : values V !!! i = v) by (by rewrite list_lookup_total_alt, Ev).
  assert (Hcell : ∀ name s, lookup_col name (columns df3) = Some s →
            cell_at (dropna df4) name k = Some (values s !!! i)).
  { intros name s Hs. unfold dropna, select_rows. fold idx2.
    rewrite (cell_at_take_frame idx2 df4 name (take_rows idx1 s) k j);
      [|by apply lookup_col_take_frame|exact Hj].
    f_equal. simpl. by rewrite list_lookup_total_alt, list_lookup_fmap, Hi. }
  unfold row_complete in Hjm. simpl in Hjm. fold idx1 in Hjm.
  rewrite !andb_true_iff, !negb_true_iff in Hjm. destruct Hjm as (HG & _ & HV & _).
  rewrite list_lookup_total_alt, list_lookup_fmap, Hi in HG, HV. simpl in HG, HV.
  exists i. split; [by eapply lookup_lt_Some|].
  repeat split; try (apply Hcell; reflexivity).
  - rewrite HVi. unfold ne_zero in Hv. apply negb_true_iff, bool_decide_eq_false in Hv. done.
  - intros E. by rewrite E in HV.
  - intros E. by rewrite E in HG.
Qed.

(** Every count column splits at ["Count"] into the species short name and
    an empty rest. *)
Lemma name_parts_col_list n :
  n ∈ col_list → ∃ short, name_parts "Count" n = Ok (short, "") ∧ n = short +:+ "Count".
Proof.
  unfold col_list. intros Hn.
  each_member Hn ltac:(eexists; split; reflexivity).
Qed.

(** C3.  On an observation-point table that has [globalid] and the 17 count
    fields the pivot runs through.  Every row of the long table it returns
    holds a value that is neither missing nor zero, and that value is the
    count of the row's species in an observation point with the row's
    identifier.  Hence an identifier and a species whose counts are all
    missing or zero have no row in the long table. *)
Theorem flock_entries_present_and_nonzero (op : DataFrame) :
  (∀ n, n ∈ "globalid" :: col_list → is_Some (lookup_col n (columns op))) →
  ∃ long, dfFlockPivotTemp op = Ok long
    ∧ (∀ k, (k < nrows long)%nat →
         ∃ g short v r,
           cell_at long "globalid" k = Some g
           ∧ cell_at long "shortName" k = Some (Str short)
           ∧ cell_at long "value" k = Some v
           ∧ v ≠ NA ∧ v ≠ Num 0
           ∧ short +:+ "Count" ∈ col_list
           ∧ cell_at op "globalid" r = Some g
           ∧ cell_at op (short +:+ "Count") r = Some v)
    ∧ (∀ g short,
         (∀ r c, cell_at op "globalid" r = Some g →
                 cell_at op (short +:+ "Count") r = Some c → c = NA ∨ c = Num 0) →
         ¬ ∃ k, (k < nrows long)%nat
                ∧ cell_at long "globalid" k = Some g
                ∧ cell_at long "shortName" k = Some (Str short)).
Proof.
  intros Hcols.
  assert (∃ long, dfFlockPivotTemp op = Ok long
    ∧ (∀ k, (k < nrows long)%nat →
         ∃ g short v r,
           cell_at long "globalid" k = Some g
           ∧ cell_at long "shortName" k = Some (Str short)
           ∧ cell_at long "value" k = Some v
           ∧ v ≠ NA ∧ v ≠ Num 0
           ∧ short +:+ "Count" ∈ col_list
           ∧ cell_at op "globalid" r = Some g
           ∧ cell_at op (short +:+ "Count") r = Some v)) as (long & Hrun & Hrows).
  2:{ exists long. split; [done|]. split; [done|].
      intros g short Hnone (k & Hk & Hg & Hs).
      destruct (Hrows k Hk) as (g' & short' & v & r & Hg' & Hs' & Hv & Hna & Hz & _ & Hsrc & Hcnt).
      rewrite Hg in Hg'. injection Hg' as <-. rewrite Hs in Hs'. injection Hs' as <-.
      destruct (Hnone r v Hsrc Hcnt); done. }
  unfold dfFlockPivotTemp.
  change ["globalid"; "DuskyCount"; "WuskyCount"; "WesternCount"; "TavLessCount";
          "TavCount"; "LessCount"; "AleutianCount"; "CacklingCount";
          "UnknownCanadaCount"; "UnknownCacklerCount"; "WhiteFrontedCount";
          "SnowCount"; "RossCount"; "UnknownGooseCount"; "TrumpeterCount";
          "TundraCount"; "UnknownSwanCount"] with ("globalid" :: col_list).
  rewrite (select_columns_plain _ _ Hcols).
  destruct (getitem_list_ok op _ Hcols) as (cols & -> & HF).
  cbn [mbind result_bind].
  destruct (Hcols "globalid") as [ids Hids]; [by left|].
  assert (Hids' : lookup_col "globalid" cols = Some ids).
  { rewrite (lookup_col_selected _ _ _ _ HF); [done|by left]. }
  unfold pivot_longer, getitem. cbn [columns nrows]. rewrite Hids'.
  cbn [mbind result_bind].
  set (melted := List.filter (fun c => negb (String.eqb c.1 "globalid")) cols).
  assert (Hmelted : ∀ c, c ∈ melted →
            c.1 ∈ col_list ∧ lookup_col c.1 (columns op) = Some c.2).
  { intros c Hc. apply list_elem_of_In, filter_In in Hc as [Hc Hne].
    apply list_elem_of_In in Hc. destruct (selected_elem_of _ _ _ _ HF Hc) as [Hin Hl].
    split; [|done]. apply elem_of_cons in Hin as [E|Hin]; [|done].
    rewrite E in Hne. discriminate. }
  destruct (traverse_ok (fun c => name_parts "Count" c.1) melted) as (parts & -> & HP).
  { intros c Hc. destruct (Hmelted c Hc) as [Hin _].
    destruct (name_parts_col_list _ Hin) as (short & -> & _). eauto. }
  cbn [mbind result_bind fst snd].
  set (L := (seq 0 (nrows op) ≫= λ r, zip melted parts ≫= λ c, [(r, c)])).
  destruct (flock_filter_rows (length L)
              (mkSeries (dt ids) ((fun p => values ids !!! p.1) <$> L))
              (mkSeries object ((fun p => Str p.2.2.1) <$> L))
              (mkSeries object ((fun p => Str p.2.2.2) <$> L))
              (mkSeries (common_dtype melted) ((fun p => values p.2.1.2 !!! p.1) <$> L)))
    as (final & -> & Hfinal).
  exists final. split; [done|].
  intros k Hk. destruct (Hfinal k Hk) as (i & Hi & HG & HS & HV & Hz & Hna & Hgna).
  cbn [values] in *. rewrite length_fmap in Hi.
  destruct (lookup_lt_is_Some_2 L i Hi) as [[r [c [pa pb]]] HL].
  rewrite list_lookup_total_alt, list_lookup_fmap, HL in HG, HS, HV, Hz, Hna, Hgna.
  cbn [fmap option_fmap option_map default fst snd] in *.
  assert (Hin : (r, (c, (pa, pb))) ∈ L) by (apply list_elem_of_lookup; eauto).
  unfold L in Hin. apply list_elem_of_bind in Hin as (r' & Hin & _).
  apply list_elem_of_bind in Hin as (cp & Hin & Hzip).
  apply list_elem_of_singleton in Hin. injection Hin as <- <-.
  pose proof (Forall2_zip_elem_of _ _ _ _ _ HP Hzip) as Hparts. cbn beta in Hparts.
  destruct (Hmelted c (elem_of_zip_l _ _ _ _ Hzip)) as [Hc Hlook].
  destruct (name_parts_col_list _ Hc) as (short & Hshort & Hname).
  rewrite Hshort in Hparts. injection Hparts as <- <-.
  exists (values ids !!! r), short, (values c.2 !!! r), r.
  repeat split; try done.
  - by rewrite <- Hname.
  - unfold cell_at. rewrite Hids. simpl. by apply lookup_total_not_NA.
  - unfold cell_at. rewrite <- Hname, Hlook. simpl. by apply lookup_total_not_NA.
Qed.

(** ** Taxonomy *)

(** What the enrichment returns on a table with a [shortName] field. *)
Lemma dfFlockPivot_unfold df short :
  lookup_col "shortName" (columns df) = Some short →
  dfFlockPivot df
  = Ok (setitem
          (setitem (setitem df "scientificName" (series_map sciname_dict short))
             "fwsTaxonCode" (series_map FWSTaxonCode_dict short))
          "ITISTaxonCode" (series_map ITIS_dict short)).
Proof.
  intros H. unfold dfFlockPivot, getitem. rewrite H. simpl.
  rewrite lookup_col_replace_ne by done. rewrite H. simpl.
  rewrite !lookup_col_replace_ne by done. by rewrite H.
Qed.

(** C10.  Enriching a long flock table with the scientific name and the two
    taxon codes a second time changes nothing: the result of two passes is
    the result of one (a table without [shortName] is refused by both).  On a
    table with [shortName] a pass succeeds, and the three fields it leaves
    are the short names looked up in the three dictionaries. *)
Theorem taxonomy_enrichment_idempotent (df : DataFrame) :
  (enriched ← dfFlockPivot df; dfFlockPivot enriched) = dfFlockPivot df
  ∧ (∀ short, lookup_col "shortName" (columns df) = Some short →
       ∃ enriched, dfFlockPivot df = Ok enriched
         ∧ lookup_col "scientificName" (columns enriched)
           = Some (series_map sciname_dict short)
         ∧ lookup_col "fwsTaxonCode" (columns enriched)
           = Some (series_map FWSTaxonCode_dict short)
         ∧ lookup_col "ITISTaxonCode" (columns enriched)
           = Some (series_map ITIS_dict short)).
Proof.
  split.
  - destruct (lookup_col "shortName" (columns df)) as [short|] eqn:E.
    + rewrite (dfFlockPivot_unfold _ _ E). simpl.
      set (df1 := setitem df "scientificName" (series_map sciname_dict short)).
      set (df2 := setitem df1 "fwsTaxonCode" (series_map FWSTaxonCode_dict short)).
      set (df3 := setitem df2 "ITISTaxonCode" (series_map ITIS_dict short)).
      assert (E3 : lookup_col "shortName" (columns df3) = Some short).
      { simpl. by rewrite !lookup_col_replace_ne. }
      rewrite (dfFlockPivot_unfold _ _ E3). f_equal.
      assert (S1 : setitem df3 "scientificName" (series_map sciname_dict short) = df3).
      { apply setitem_id. simpl. rewrite !lookup_col_replace_ne by done.
        apply lookup_col_replace_eq. }
      rewrite S1.
      assert (S2 : setitem df3 "fwsTaxonCode" (series_map FWSTaxonCode_dict short) = df3).
      { apply setitem_id. simpl. rewrite lookup_col_replace_ne by done.
        apply lookup_col_replace_eq. }
      rewrite S2.
      apply setitem_id. simpl. apply lookup_col_replace_eq.
    + unfold dfFlockPivot, getitem. by rewrite E.
  - intros short E. rewrite (dfFlockPivot_unfold _ _ E).
    eexists; split; [done|]. cbn [setitem columns].
    split; [rewrite !lookup_col_replace_ne by done; apply lookup_col_replace_eq|].
    split; [rewrite lookup_col_replace_ne by done; apply lookup_col_replace_eq|].
    apply lookup_col_replace_eq.
Qed.

(** ** The small survey, run through the steps *)

Lemma ObserverText_resolution_witness :
  let so := mkSeries object [Str "Other"; Str "K. So"; NA] in
  let st := mkSeries object [Str "J. Smith"; NA; NA] in
  lookup_col "Observer" (columns survey_events) = Some so
  ∧ lookup_col "ObserverOther" (columns survey_events) = Some st
  ∧ ∃ df', populate_ObserverText survey_events = Ok df' ∧
      ∀ i obs oth,
        values so !! i = Some obs → values st !! i = Some oth →
        cell_at df' "ObserverText" i
        = Some (if bool_decide (obs = Str "Other") then oth else obs).
Proof.
  intros so st. split; [reflexivity|]. split; [reflexivity|].
  exact (ObserverText_resolution survey_events so st eq_refl eq_refl).
Defined.

Lemma State_assignment_witness :
  let site := mkSeries object [Str "Ridgefield NWR"; Str "Ankeny NWR"; Str "Unknown Refuge"] in
  lookup_col "SiteName" (columns survey_events) = Some site
  ∧ nrows survey_events ≠ 0%nat
  ∧ lookup_col "SiteName" (columns no_events) = Some (mkSeries object [])
  ∧ (∃ df', populate_State survey_events = Ok df'
       ∧ cell_at df' "State" 0 = Some (Str "WA")
       ∧ cell_at df' "State" 1 = Some (Str "OR")
       ∧ cell_at df' "State" 2 = Some NA)
  ∧ populate_State no_events
    = Raise (ValueError "cannot set a frame with no defined index and a scalar").
Proof.
  intros site.
  assert (Hrows : nrows survey_events ≠ 0%nat) by discriminate.
  split; [reflexivity|]. split; [exact Hrows|]. split; [reflexivity|]. split.
  - destruct (proj1 (State_assignment survey_events site eq_refl) (or_introl Hrows))
      as (df' & Hrun & Hcells).
    exists df'. split; [exact Hrun|]. split; [|split].
    + exact (Hcells 0%nat (Str "Ridgefield NWR") NA
               ltac:(vm_compute; lia) eq_refl eq_refl).
    + exact (Hcells 1%nat (Str "Ankeny NWR") NA
               ltac:(vm_compute; lia) eq_refl eq_refl).
    + exact (Hcells 2%nat (Str "Unknown Refuge") NA
               ltac:(vm_compute; lia) eq_refl eq_refl).
  - exact (proj2 (State_assignment no_events (mkSeries object []) eq_refl)
             eq_refl eq_refl).
Defined.

Lemma inner_joins_match_keys_witness :
  is_Some (lookup_col "globalid" (columns survey_events))
  ∧ is_Some (lookup_col "parentglobalid" (columns observation_points))
  ∧ NoDup (merged_names survey_events observation_points)
  ∧ is_Some (lookup_col "globalid_y" (columns clean_points))
  ∧ is_Some (lookup_col "globalid" (columns flock_points))
  ∧ NoDup (merged_names clean_points flock_points)
  ∧ (∃ joined, sedfMetadataYYYY_ObservationPoint survey_events observation_points = Ok joined
       ∧ inner_join_of survey_events observation_points "globalid" "parentglobalid" joined)
  ∧ (∃ long, dfFlockLong clean_points flock_points = Ok long
       ∧ inner_join_of clean_points flock_points "globalid_y" "globalid" long).
Proof.
  assert (H1 : is_Some (lookup_col "globalid" (columns survey_events))) by (eexists; reflexivity).
  assert (H2 : is_Some (lookup_col "parentglobalid" (columns observation_points)))
    by (eexists; reflexivity).
  assert (H3 : NoDup (merged_names survey_events observation_points)).
  { apply (bool_decide_unpack _). vm_compute. exact I. }
  assert (H4 : is_Some (lookup_col "globalid_y" (columns clean_points))) by (eexists; reflexivity).
  assert (H5 : is_Some (lookup_col "globalid" (columns flock_points))) by (eexists; reflexivity).
  assert (H6 : NoDup (merged_names clean_points flock_points)).
  { apply (bool_decide_unpack _). vm_compute. exact I. }
  repeat (split; [assumption|]).
  exact (inner_joins_match_keys survey_events observation_points clean_points flock_points
           H1 H2 H3 H4 H5 H6).
Defined.

Lemma coordinate_resolution_witness :
  wf_frame joined_points
  ∧ lookup_col "SiteName" (columns joined_points)
    = Some (mkSeries object [Str "Ridgefield NWR"; Str "Ridgefield NWR"])
  ∧ lookup_col "Latitude_Prepopulated" (columns joined_points)
    = Some (mkSeries float64 [Num 4581; NA])
  ∧ lookup_col "Latitude" (columns joined_points)
    = Some (mkSeries float64 [Num 4580; Num 4582])
  ∧ ∃ df', populate_LatLongDD joined_points = Ok df'
      ∧ cell_at df' "LatitudeDD" 0 = Some (Num 4581)
      ∧ cell_at df' "LongitudeDD" 0 = Some (Num (-12273))
      ∧ cell_at df' "LatitudeDD" 1 = Some (Num 4582)
      ∧ cell_at df' "LongitudeDD" 1 = Some (Num (-12275)).
Proof.
  assert (Hwf : wf_frame joined_points) by (vm_compute; repeat constructor).
  split; [exact Hwf|]. split; [reflexivity|]. split; [reflexivity|].
  split; [reflexivity|].
  destruct (coordinate_resolution joined_points
              (mkSeries object [Str "Ridgefield NWR"; Str "Ridgefield NWR"])
              (mkSeries float64 [Num 4581; NA]) (mkSeries float64 [Num (-12273); NA])
              (mkSeries float64 [Num 4580; Num 4582])
              (mkSeries float64 [Num (-12274); Num (-12275)])
              Hwf eq_refl eq_refl eq_refl eq_refl eq_refl) as (df' & Hrun & Hcells).
  exists df'. split; [exact Hrun|].
  destruct (Hcells 0%nat (Str "Ridgefield NWR") (Num 4581) (Num (-12273)) (Num 4580)
              (Num (-12274)) eq_refl eq_refl eq_refl eq_refl eq_refl) as [Hlat0 Hlon0].
  destruct (Hcells 1%nat (Str "Ridgefield NWR") NA NA (Num 4582)
              (Num (-12275)) eq_refl eq_refl eq_refl eq_refl eq_refl) as [Hlat1 Hlon1].
  split; [exact Hlat0|]. split; [exact Hlon0|]. split; [exact Hlat1|exact Hlon1].
Defined.

Lemma Total_is_sum_of_counts_witness :
  (∀ n, n ∈ ["DuskyCount"; "WuskyCount"; "WesternCount"; "TavLessCount"; "TavCount";
              "LessCount"; "AleutianCount"; "CacklingCount"; "UnknownCanadaCount";
              "UnknownCacklerCount"; "WhiteFrontedCount"; "SnowCount"; "RossCount";
              "UnknownGooseCount"; "TrumpeterCount"; "TundraCount"; "UnknownSwanCount"] →
     ∃ s, lookup_col n (columns joined_points) = Some s
          ∧ ∀ c, c ∈ values s → c = NA ∨ ∃ z, c = Num z ∧ (Z.abs z ≤ 2 ^ 48)%Z)
  ∧ cell_at joined_points "DuskyCount" 0 = Some (Num 5)
  ∧ cell_at joined_points "CacklingCount" 0 = Some NA
  ∧ cell_at joined_points "CacklingCount" 1 = Some (Num 3)
  ∧ ∃ df', populate_Total joined_points = Ok df'
      ∧ cell_at df' "Total" 0 = Some (Num 5)
      ∧ cell_at df' "Total" 1 = Some (Num 3).
Proof.
  assert (H : ∀ n, n ∈ ["DuskyCount"; "WuskyCount"; "WesternCount"; "TavLessCount"; "TavCount";
              "LessCount"; "AleutianCount"; "CacklingCount"; "UnknownCanadaCount";
              "UnknownCacklerCount"; "WhiteFrontedCount"; "SnowCount"; "RossCount";
              "UnknownGooseCount"; "TrumpeterCount"; "TundraCount"; "UnknownSwanCount"] →
            ∃ s, lookup_col n (columns joined_points) = Some s
                 ∧ ∀ c, c ∈ values s → c = NA ∨ ∃ z, c = Num z ∧ (Z.abs z ≤ 2 ^ 48)%Z).
  { intros n Hn.
    each_member Hn ltac:(eexists; split; [reflexivity|];
                         intros c Hc; vm_compute in Hc;
                         each_member Hc ltac:(first [by left
                                                    | right; eexists; split;
                                                      [reflexivity|by vm_compute]])). }
  split; [exact H|]. split; [reflexivity|]. split; [reflexivity|]. split; [reflexivity|].
  destruct (Total_is_sum_of_counts joined_points H) as (df' & Hrun & Hrows).
  exists df'. split; [exact Hrun|]. split.
  - rewrite (Hrows 0%nat) by (vm_compute; lia). vm_compute. reflexivity.
  - rewrite (Hrows 1%nat) by (vm_compute; lia). vm_compute. reflexivity.
Defined.

Lemma flock_entries_present_and_nonzero_witness :
  (∀ n, n ∈ "globalid" :: col_list →
     is_Some (lookup_col n (columns observation_points)))
  ∧ ∃ long, dfFlockPivotTemp observation_points = Ok long
      ∧ (∀ k, (k < nrows long)%nat →
           ∃ g short v r,
             cell_at long "globalid" k = Some g
             ∧ cell_at long "shortName" k = Some (Str short)
             ∧ cell_at long "value" k = Some v
             ∧ v ≠ NA ∧ v ≠ Num 0
             ∧ short +:+ "Count" ∈ col_list
             ∧ cell_at observation_points "globalid" r = Some g
             ∧ cell_at observation_points (short +:+ "Count") r = Some v)
      ∧ (∀ g short,
           (∀ r c, cell_at observation_points "globalid" r = Some g →
                   cell_at observation_points (short +:+ "Count") r = Some c →
                   c = NA ∨ c = Num 0) →
           ¬ ∃ k, (k < nrows long)%nat
                  ∧ cell_at long "globalid" k = Some g
                  ∧ cell_at long "shortName" k = Some (Str short)).
Proof.
  assert (H : ∀ n, n ∈ "globalid" :: col_list →
            is_Some (lookup_col n (columns observation_points))).
  { intros n Hn. unfold col_list in Hn.
    each_member Hn ltac:(eexists; reflexivity). }
  split; [exact H|]. exact (flock_entries_present_and_nonzero observation_points H).
Defined.

Lemma change_timezone_adds_field_and_localizes_source_witness :
  let s := mkSeries (datetime64 None) [Time 1633046400000000000; NA] in
  let vs := [Time 1633046400000000000; NA] in
  lookup_col "CreationDate" (columns one_naive_field) = Some s
  ∧ dt s = datetime64 None
  ∧ traverse (localize_cell UTC) (values s) = Ok vs
  ∧ "_Pacific" ≠ ""
  ∧ ∃ df', change_timezone_of_field one_naive_field "CreationDate" "_Pacific" UTC "US/Pacific"
           = (df', None)
      ∧ lookup_col ("CreationDate" +:+ "_Pacific") (columns df')
        = Some (mkSeries (datetime64 (Some "US/Pacific")) vs)
      ∧ lookup_col "CreationDate" (columns df')
        = Some (mkSeries (datetime64 (Some (zone UTC))) vs)
      ∧ (∀ other, other ≠ "CreationDate" → other ≠ "CreationDate" +:+ "_Pacific" →
           lookup_col other (columns df') = lookup_col other (columns one_naive_field))
      ∧ (∀ n, n ∈ column_names one_naive_field → n ∈ column_names df')
      ∧ nrows df' = nrows one_naive_field
      ∧ length vs = length (values s)
      ∧ (UTC = UTC → vs = values s).
Proof.
  intros s vs.
  assert (Hsuf : "_Pacific" ≠ "") by discriminate.
  split; [reflexivity|]. split; [reflexivity|]. split; [reflexivity|].
  split; [exact Hsuf|].
  exact (change_timezone_adds_field_and_localizes_source one_naive_field
           "CreationDate" "_Pacific" UTC "US/Pacific" s vs eq_refl eq_refl eq_refl Hsuf).
Defined.

Lemma localization_refused_on_aware_field_witness :
  let aware := (change_timezone_of_field one_naive_field
                  "CreationDate" "_Pacific" UTC "US/Pacific").1 in
  change_timezone_of_field aware "CreationDate" "_Pacific" UTC "US/Pacific"
  = (aware, Some (TypeError "Already tz-aware, use tz_convert to convert.")).
Proof.
  intros aware.
  exact (proj1 (localization_refused_on_aware_field aware
                  "CreationDate" "_Pacific" UTC "US/Pacific")
           (mkSeries (datetime64 (Some "UTC")) [Time 1633046400000000000; NA]) "UTC"
           eq_refl eq_refl).
Defined.

Lemma taxonomy_enrichment_idempotent_witness :
  let long := run (dfFlockPivotTemp observation_points) in
  let short := mkSeries object [Str "Dusky"; Str "Cackling"; Str "Dusky"] in
  lookup_col "shortName" (columns long) = Some short
  ∧ (enriched ← dfFlockPivot long; dfFlockPivot enriched) = dfFlockPivot long
  ∧ ∃ enriched, dfFlockPivot long = Ok enriched
      ∧ lookup_col "scientificName" (columns enriched)
        = Some (series_map sciname_dict short)
      ∧ lookup_col "fwsTaxonCode" (columns enriched)
        = Some (series_map FWSTaxonCode_dict short)
      ∧ lookup_col "ITISTaxonCode" (columns enriched)
        = Some (series_map ITIS_dict short).
Proof.
  intros long short.
  assert (E : lookup_col "shortName" (columns long) = Some short) by reflexivity.
  split; [exact E|]. split.
  - exact (proj1 (taxonomy_enrichment_idempotent long)).
  - exact (proj2 (taxonomy_enrichment_idempotent long) short E).
Defined.

(** The scenarios of the specification, run on the small survey. *)
Example scenario_observer :
  cell_at (run (populate_ObserverText survey_events)) "ObserverText" 0 = Some (Str "J. Smith").
Proof. reflexivity. Qed.

Example scenario_state :
  (fun i => cell_at (run (populate_State survey_events)) "State" i) <$> [0; 1; 2]%nat
  = [Some (Str "WA"); Some (Str "OR"); Some NA].
Proof. reflexivity. Qed.

Example scenario_latitude :
  cell_at (run (populate_LatLongDD joined_points)) "LatitudeDD" 0 = Some (Num 4581)
  ∧ cell_at (run (populate_LatLongDD joined_points)) "LatitudeDD" 1 = Some (Num 4582).
Proof. split; reflexivity. Qed.

Example scenario_flock :
  (fun name => cell_at flock_points name 0) <$> ["globalid"; "shortName"; "value"; "scientificName"]
  = [Some (Str "p1"); Some (Str "Dusky"); Some (Num 5);
     Some (Str "Branta canadensis occidentalis")]
  ∧ cell_at flock_points "globalid" 1 = Some (Str "p2").
Proof. split; reflexivity. Qed.

Example scenario_total :
  cell_at (run (populate_Total joined_points)) "Total" 0 = Some (Num 5)
  ∧ cell_at (run (populate_Total joined_points)) "Total" 1 = Some (Num 3).
Proof. split; reflexivity. Qed.

(** * More properties *)

Local Open Scope list_scope.

(** A closed decidable statement, by evaluation. *)
Ltac decided := apply (bool_decide_unpack _); vm_compute; exact I.

(** ** Lists of columns *)

Lemma lookup_col_app_r name (pre post : list (string * Series)) :
  name ∉ pre.*1 → lookup_col name (pre ++ post) = lookup_col name post.
Proof.
  induction pre as [|[n0 s0] pre IH]; simpl; [done|].
  intros Hn. apply not_elem_of_cons in Hn as [Hne Hn].
  destruct (String.eqb n0 name) eqn:E; [|auto].
  apply String.eqb_eq in E. congruence.
Qed.

Lemma lookup_col_app_l1 name (pre post : list (string * Series)) :
  is_Some (lookup_col name pre) → lookup_col name (pre ++ post) = lookup_col name pre.
Proof.
  induction pre as [|[n0 s0] pre IH]; simpl; [by intros [? ?]|].
  by destruct (String.eqb n0 name).
Qed.

Lemma lookup_col_None name (cols : list (string * Series)) :
  lookup_col name cols = None ↔ name ∉ cols.*1.
Proof.
  rewrite <- lookup_col_is_Some, <- eq_None_not_Some. done.
Qed.

Lemma replace_col_mid name s s0 (pre post : list (string * Series)) :
  name ∉ pre.*1 →
  replace_col name s (pre ++ (name, s0) :: post) = pre ++ (name, s) :: post.
Proof.
  induction pre as [|[n0 t0] pre IH]; simpl.
  - by rewrite String.eqb_refl.
  - intros Hn. apply not_elem_of_cons in Hn as [Hne Hn].
    destruct (String.eqb n0 name) eqn:E.
    + apply String.eqb_eq in E. congruence.
    + by rewrite IH.
Qed.

Lemma replace_col_fresh name s (cols : list (string * Series)) :
  name ∉ cols.*1 → replace_col name s cols = cols ++ [(name, s)].
Proof.
  induction cols as [|[n0 t0] cols IH]; simpl; [done|].
  intros Hn. apply not_elem_of_cons in Hn as [Hne Hn].
  destruct (String.eqb n0 name) eqn:E.
  - apply String.eqb_eq in E. congruence.
  - by rewrite IH.
Qed.

Lemma replace_col_names_elem name s (cols : list (string * Series)) n :
  n ∈ cols.*1 → n ∈ (replace_col name s cols).*1.
Proof.
  intros Hn. apply lookup_col_is_Some. apply lookup_col_is_Some in Hn.
  destruct (decide (n = name)) as [->|Hne].
  - rewrite lookup_col_replace_eq. eauto.
  - by rewrite lookup_col_replace_ne.
Qed.

Lemma replace_col_names name s (cols : list (string * Series)) :
  (replace_col name s cols).*1
  = if bool_decide (name ∈ cols.*1) then cols.*1 else cols.*1 ++ [name].
Proof.
  induction cols as [|[n0 t0] cols IH]; [done|].
  cbn [replace_col]. destruct (String.eqb n0 name) eqn:E; rewrite !fmap_cons; cbn [fst].
  - apply String.eqb_eq in E. subst. rewrite bool_decide_eq_true_2; [done|by left].
  - apply String.eqb_neq in E. rewrite IH. case_bool_decide as H1.
    + rewrite bool_decide_eq_true_2; [done|by right].
    + rewrite bool_decide_eq_false_2; [done|].
      intros [?|?]%elem_of_cons; [congruence|done].
Qed.

Lemma NoDup_replace_col name s (cols : list (string * Series)) :
  NoDup cols.*1 → NoDup (replace_col name s cols).*1.
Proof.
  intros Hnd. rewrite replace_col_names. case_bool_decide as H1; [done|].
  apply NoDup_app. repeat split; try done.
  - intros x Hx ->%list_elem_of_singleton. done.
  - apply NoDup_singleton.
Qed.

Lemma string_length_app (a t : string) :
  String.length (a +:+ t) = (String.length a + String.length t)%nat.
Proof. induction a as [|c a IH]; simpl; [done|]. by rewrite IH. Qed.

Lemma append_inj_r (a b t : string) : a +:+ t = b +:+ t → a = b.
Proof.
  intros E.
  assert (Hlen : String.length a = String.length b).
  { apply (f_equal String.length) in E. rewrite !string_length_app in E. lia. }
  revert b E Hlen. induction a as [|c a IH]; intros [|d b]; simpl; try done.
  intros [= -> E] [= Hlen]. f_equal. auto.
Qed.

(** ** The loop over the datetime fields *)

(** One call of the loop body on a naive field. *)
Lemma change_timezone_UTC_naive df col suffix new_tz s :
  lookup_col col (columns df) = Some s → dt s = datetime64 None →
  change_timezone_of_field df col suffix UTC new_tz
  = (setitem (setitem df col (mkSeries (datetime64 (Some "UTC")) (values s)))
       (col +:+ suffix) (mkSeries (datetime64 (Some new_tz)) (values s)), None).
Proof.
  intros Hs Hdt. unfold change_timezone_of_field, getitem.
  rewrite Hs. cbn [mbind result_bind]. unfold tz_localize, dt_accessor.
  rewrite Hdt. cbn [mbind result_bind]. rewrite localize_UTC.
  cbn [mbind result_bind setitem columns nrows zone UTC].
  by rewrite lookup_col_replace_eq.
Qed.

(** A pass over fields none of which is naive does nothing. *)
Lemma convert_fields_noop cols df :
  (∀ c, c ∈ cols → ∃ s, lookup_col c (columns df) = Some s ∧ dt s ≠ datetime64 None) →
  convert_fields cols df = (df, None).
Proof.
  induction cols as [|c cols IH]; intros Hall; simpl; [done|].
  destruct (Hall c) as (s & Hs & Hdt); [by left|].
  unfold getitem. rewrite Hs. rewrite bool_decide_eq_false_2 by done.
  apply IH. intros; apply Hall; by right.
Qed.

Lemma convert_fields_total rest df :
  NoDup (column_names df) →
  (∀ c, c ∈ rest → c ∈ column_names df) →
  (∀ n s, lookup_col n (columns df) = Some s → n ∉ rest → dt s ≠ datetime64 None) →
  ∃ df', convert_fields rest df = (df', None)
    ∧ nrows df' = nrows df
    ∧ NoDup (column_names df')
    ∧ (∀ n, n ∈ column_names df → n ∈ column_names df')
    ∧ (∀ n s, lookup_col n (columns df') = Some s → dt s ≠ datetime64 None).
Proof.
  revert df. induction rest as [|c rest IH]; intros df Hnd Hin Hinv; simpl.
  - exists df. repeat split; try done. intros n s Hs. apply (Hinv n s Hs), not_elem_of_nil.
  - destruct (proj2 (lookup_col_is_Some c (columns df))) as [s Hs]; [apply Hin; by left|].
    unfold getitem. rewrite Hs. case_bool_decide as Hdt.
    + rewrite (change_timezone_UTC_naive _ _ _ _ _ Hs Hdt).
      set (df1 := setitem _ _ _).
      destruct (IH df1) as (df' & -> & Hrows & Hnd' & Hnames & Hnone).
      * unfold df1, column_names. cbn [setitem columns].
        by do 2 apply NoDup_replace_col.
      * intros c' Hc'. unfold df1, column_names. cbn [setitem columns].
        do 2 apply replace_col_names_elem. apply Hin. by right.
      * intros n s' Hs' Hn. unfold df1 in Hs'. cbn [setitem columns] in Hs'.
        destruct (decide (n = c +:+ "_Pacific")) as [->|N1].
        { rewrite lookup_col_replace_eq in Hs'. by injection Hs' as <-. }
        rewrite lookup_col_replace_ne in Hs' by done.
        destruct (decide (n = c)) as [->|N2].
        { rewrite lookup_col_replace_eq in Hs'. by injection Hs' as <-. }
        rewrite lookup_col_replace_ne in Hs' by done.
        apply (Hinv n s' Hs'). by apply not_elem_of_cons.
      * exists df'. repeat split; try done.
        intros n Hn. apply Hnames. unfold df1, column_names. cbn [setitem columns].
        by do 2 apply replace_col_names_elem.
    + destruct (IH df) as (df' & -> & Hrows & Hnd' & Hnames & Hnone); try done.
      * intros c' Hc'. apply Hin. by right.
      * intros n s' Hs' Hn. destruct (decide (n = c)) as [->|N].
        { rewrite Hs in Hs'. by injection Hs' as <-. }
        apply (Hinv n s' Hs'). by apply not_elem_of_cons.
      * exists df'. done.
Qed.

(** X1.  On a table with distinct field names the loop over the datetime
    fields never raises.  It keeps the rows and every field, the field names
    stay distinct, no naive timestamp field is left behind, and a second run
    of the loop changes nothing. *)
Theorem datetime_fields_to_Pacific_total (df : DataFrame) :
  NoDup (column_names df) →
  ∃ df', datetime_fields_to_Pacific df = (df', None)
    ∧ nrows df' = nrows df
    ∧ NoDup (column_names df')
    ∧ (∀ n, n ∈ column_names df → n ∈ column_names df')
    ∧ (∀ n s, lookup_col n (columns df') = Some s → dt s ≠ datetime64 None)
    ∧ datetime_fields_to_Pacific df' = (df', None).
Proof.
  intros Hnd. unfold datetime_fields_to_Pacific.
  destruct (convert_fields_total (column_names df) df)
    as (df' & Hrun & Hrows & Hnd' & Hnames & Hnone).
  - done.
  - done.
  - intros n s Hs Hn. destruct Hn. apply lookup_col_is_Some. eauto.
  - exists df'. repeat split; try done.
    apply convert_fields_noop. intros c Hc.
    destruct (proj2 (lookup_col_is_Some c (columns df')) Hc) as [s Hs]. eauto.
Qed.

Lemma convert_fields_exact (todo pre app : list (string * Series)) (n : nat) :
  NoDup (pre ++ todo ++ app).*1 →
  (∀ c, c ∈ todo.*1 → c +:+ "_Pacific" ∉ (pre ++ todo ++ app).*1) →
  convert_fields todo.*1 (mkFrame n (pre ++ todo ++ app))
  = (mkFrame n (pre ++ (localized_UTC <$> todo) ++ app ++ Pacific_fields todo), None).
Proof.
  revert pre app. induction todo as [|[n0 s0] todo IH]; intros pre app Hnd Hfresh.
  - simpl. by rewrite app_nil_r.
  - change (((n0, s0) :: todo) ++ app) with ((n0, s0) :: todo ++ app) in *.
    assert (Hpre : n0 ∉ pre.*1).
    { rewrite fmap_app in Hnd. apply NoDup_app in Hnd as (_ & Hdisj & _).
      intros Hin. apply (Hdisj n0 Hin). rewrite fmap_cons. by left. }
    cbn [fmap list_fmap fst convert_fields]. unfold getitem. cbn [columns].
    rewrite lookup_col_app_r by done. cbn [lookup_col]. rewrite String.eqb_refl.
    assert (Hassoc : ∀ (x : string * Series) (extra : list (string * Series)),
              (pre ++ x :: todo ++ app) ++ extra = (pre ++ [x]) ++ todo ++ (app ++ extra)).
    { intros x extra. rewrite <- !app_assoc. simpl. by rewrite <- ?app_assoc. }
    assert (Hnames : ∀ x : string * Series, x.1 = n0 →
              (pre ++ x :: todo ++ app).*1 = (pre ++ (n0, s0) :: todo ++ app).*1).
    { intros [x1 x2] ?. simpl in *. subst. by rewrite !fmap_app, !fmap_cons. }
    case_bool_decide as Hdt.
    + rewrite (change_timezone_UTC_naive _ _ _ _ s0); [| |done].
      2:{ cbn [columns]. rewrite lookup_col_app_r by done. simpl. by rewrite String.eqb_refl. }
      unfold setitem. cbn [columns nrows]. rewrite replace_col_mid by done.
      rewrite replace_col_fresh.
      2:{ rewrite (Hnames (n0, _) eq_refl). apply Hfresh. by left. }
      rewrite (Hassoc _ [_]). rewrite IH.
      * f_equal. f_equal. unfold Pacific_fields, localized_UTC at 2.
        cbn [List.filter fmap list_fmap snd fst].
        rewrite !bool_decide_eq_true_2 by done. cbn [fmap list_fmap fst snd].
        by rewrite <- !app_assoc.
      * rewrite <- Hassoc, fmap_app. apply NoDup_app. repeat split.
        -- by rewrite (Hnames (n0, _) eq_refl).
        -- intros x Hx ->%list_elem_of_singleton. revert Hx.
           rewrite (Hnames (n0, _) eq_refl). apply Hfresh. by left.
        -- apply NoDup_singleton.
      * intros c Hc. rewrite <- Hassoc, fmap_app. apply not_elem_of_app. split.
        -- rewrite (Hnames (n0, _) eq_refl). apply Hfresh. by right.
        -- intros E%list_elem_of_singleton. apply append_inj_r in E. subst c.
           rewrite fmap_app, fmap_cons in Hnd. apply NoDup_app in Hnd as (_ & _ & Hnd).
           apply NoDup_cons in Hnd as [Hn0 _]. apply Hn0. rewrite fmap_app.
           apply elem_of_app. by left.
    + pose proof (Hassoc (n0, s0) []) as Ha. rewrite !app_nil_r in Ha. rewrite Ha, IH.
      * f_equal. f_equal. unfold Pacific_fields, localized_UTC at 2.
        cbn [List.filter fmap list_fmap snd fst].
        rewrite !bool_decide_eq_false_2 by done.
        by rewrite <- !app_assoc.
      * by rewrite <- Ha.
      * intros c Hc. rewrite <- Ha. apply Hfresh. by right.
Qed.

Lemma datetime_fields_to_Pacific_run (df : DataFrame) :
  NoDup (column_names df) →
  (∀ c, c ∈ column_names df → c +:+ "_Pacific" ∉ column_names df) →
  datetime_fields_to_Pacific df
  = (mkFrame (nrows df) ((localized_UTC <$> columns df) ++ Pacific_fields (columns df)),
     None).
Proof.
  intros Hnd Hfresh. unfold datetime_fields_to_Pacific, column_names in *.
  pose proof (convert_fields_exact (columns df) [] [] (nrows df)) as H.
  rewrite !app_nil_r in H. simpl in H. destruct df as [n cols]. apply H; done.
Qed.

(** X2.  On a table with distinct field names none of which is another
    field's name followed by "_Pacific", the loop over the datetime fields
    gives exactly this table: every naive timestamp field is turned, where it
    stands, into a UTC field with the same readings; every other field is
    left as it is; and the Pacific fields are appended after all the fields
    the table had, in the order of the fields they come from. *)
Theorem datetime_fields_to_Pacific_exact (df : DataFrame) :
  NoDup (column_names df) →
  (∀ c, c ∈ column_names df → c +:+ "_Pacific" ∉ column_names df) →
  datetime_fields_to_Pacific df
  = (mkFrame (nrows df) ((localized_UTC <$> columns df) ++ Pacific_fields (columns df)),
     None).
Proof. apply datetime_fields_to_Pacific_run. Qed.

(** ** archive_dt_field *)

Section archive_properties.
Variable strftime : option string -> Z -> string.

Lemma dt_strftime_archived name s :
  archived_dtype (dt s) = true →
  dt_strftime strftime s = Ok (archived strftime (name, s)).2.
Proof.
  intros Ha. unfold archived. cbn [snd fst]. rewrite Ha. cbn [snd].
  unfold dt_strftime, dt_accessor. unfold archived_dtype in Ha.
  destruct (dt s) as [| |tz]; try done.
Qed.

Lemma archived_name c : (archived strftime c).1 = c.1.
Proof. unfold archived. by destruct (archived_dtype (dt c.2)). Qed.

Lemma archived_not_selected c :
  archived_dtype (dt (archived strftime c).2) = false.
Proof.
  unfold archived. destruct (archived_dtype (dt c.2)) eqn:E; [done|exact E].
Qed.

Lemma archive_fields_exact (todo pre : list (string * Series)) (n : nat) :
  NoDup (pre ++ todo).*1 →
  archive_fields strftime (List.filter (fun c => archived_dtype (dt c.2)) todo).*1
    (mkFrame n (pre ++ todo))
  = (mkFrame n (pre ++ (archived strftime <$> todo)), None).
Proof.
  revert pre. induction todo as [|[n0 s0] todo IH]; intros pre Hnd; [done|].
  assert (Hpre : n0 ∉ pre.*1).
  { rewrite fmap_app in Hnd. apply NoDup_app in Hnd as (_ & Hdisj & _).
    intros Hin. apply (Hdisj n0 Hin). rewrite fmap_cons. by left. }
  assert (Hassoc : ∀ x : string * Series, pre ++ x :: todo = (pre ++ [x]) ++ todo).
  { intros x. by rewrite <- app_assoc. }
  cbn [List.filter snd]. destruct (archived_dtype (dt s0)) eqn:Ha.
  - cbn [fmap list_fmap fst archive_fields]. unfold getitem. cbn [columns].
    rewrite lookup_col_app_r by done. cbn [lookup_col]. rewrite String.eqb_refl.
    cbn [mbind result_bind]. rewrite (dt_strftime_archived n0 s0 Ha).
    unfold setitem. cbn [columns nrows]. rewrite replace_col_mid by done.
    rewrite Hassoc, IH.
    + f_equal. f_equal. rewrite <- app_assoc. cbn [fmap list_fmap]. do 2 f_equal.
      unfold archived. cbn [fst snd]. by rewrite Ha.
    + rewrite <- Hassoc. revert Hnd. by rewrite !fmap_app, !fmap_cons.
  - rewrite Hassoc, IH.
    + f_equal. f_equal. rewrite <- app_assoc. cbn [fmap list_fmap]. do 2 f_equal.
      unfold archived. cbn [fst snd]. by rewrite Ha.
    + by rewrite <- Hassoc.
Qed.

Lemma archive_dt_field_run df :
  NoDup (column_names df) →
  archive_dt_field strftime df
  = (mkFrame (nrows df) (archived strftime <$> columns df), None).
Proof.
  intros Hnd. unfold archive_dt_field, column_names. cbn [columns].
  pose proof (archive_fields_exact (columns df) [] (nrows df)) as H.
  simpl in H. destruct df as [n cols]. by apply H.
Qed.

Lemma archived_idemp (cols : list (string * Series)) :
  archived strftime <$> (archived strftime <$> cols) = archived strftime <$> cols.
Proof.
  rewrite <- list_fmap_compose. apply list_fmap_ext. intros _ c _. simpl.
  unfold archived at 1. by rewrite archived_not_selected.
Qed.

(** X3.  On a table with distinct field names, whose zone-aware timestamp
    fields are all in UTC or US/Pacific, [archive_dt_field] never raises and
    gives exactly this table: each zone-aware field is replaced, where it
    stands and under its name, by the texts of its timestamps, a missing
    timestamp giving a missing text; every other field, naive timestamp
    fields included, is left as it is.  A second run changes nothing. *)
Theorem archive_dt_field_exact (df : DataFrame) :
  NoDup (column_names df) →
  (∀ c tz, c ∈ columns df → dt c.2 = datetime64 (Some tz) →
     tz = "UTC" ∨ tz = "US/Pacific") →
  let df' := mkFrame (nrows df) (archived strftime <$> columns df) in
  archive_dt_field strftime df = (df', None)
  ∧ column_names df' = column_names df
  ∧ (∀ c, c ∈ columns df' → ∀ tz, dt c.2 ≠ datetime64 (Some tz))
  ∧ (∀ c, c ∈ columns df → dt c.2 = datetime64 None → c ∈ columns df')
  ∧ archive_dt_field strftime df' = (df', None).
Proof.
  intros Hnd Hzones df'.
  assert (Hnames : column_names df' = column_names df).
  { unfold df', column_names. cbn [columns]. rewrite <- list_fmap_compose.
    apply list_fmap_ext. intros _ c _. apply archived_name. }
  split; [by apply archive_dt_field_run|]. split; [done|]. split; [|split].
  - intros c [c0 [-> Hc0]]%list_elem_of_fmap tz Hdt.
    unfold archived in Hdt. destruct (archived_dtype (dt c0.2)) eqn:Ha; [done|].
    destruct (Hzones c0 tz Hc0 Hdt) as [->| ->]; rewrite Hdt in Ha; done.
  - intros c Hc Hdt. apply list_elem_of_fmap. exists c. split; [|done].
    unfold archived. by rewrite Hdt.
  - rewrite archive_dt_field_run by (by rewrite Hnames).
    unfold df'. cbn [nrows columns]. by rewrite archived_idemp.
Qed.

(** X4.  The two steps the notebook takes on each raw table, one after the
    other: on a table with distinct field names, none of them another
    field's name followed by "_Pacific", and with its zone-aware fields in
    UTC or US/Pacific, the conversion loop and then [archive_dt_field] both
    run through.  The table then has the fields it had, followed by one
    "_Pacific" field for each naive timestamp field, the same rows, and no
    timestamp field at all: every timestamp field has become text. *)
Theorem raw_table_backup_has_no_timestamps (df : DataFrame) :
  NoDup (column_names df) →
  (∀ c, c ∈ column_names df → c +:+ "_Pacific" ∉ column_names df) →
  (∀ c tz, c ∈ columns df → dt c.2 = datetime64 (Some tz) →
     tz = "UTC" ∨ tz = "US/Pacific") →
  ∃ df1 df2,
    datetime_fields_to_Pacific df = (df1, None)
    ∧ archive_dt_field strftime df1 = (df2, None)
    ∧ column_names df2
      = column_names df
        ++ ((fun c => c.1 +:+ "_Pacific")
              <$> List.filter (fun c => bool_decide (dt c.2 = datetime64 None)) (columns df))
    ∧ nrows df2 = nrows df
    ∧ (∀ c, c ∈ columns df2 → ∀ tz, dt c.2 ≠ datetime64 tz).
Proof.
  intros Hnd Hfresh Hzones.
  destruct (convert_fields_total (column_names df) df) as (df1 & Hrun & _ & Hnd1 & _).
  { done. }
  { done. }
  { intros n s Hs Hn. destruct Hn. apply lookup_col_is_Some. eauto. }
  fold (datetime_fields_to_Pacific df) in Hrun.
  rewrite (datetime_fields_to_Pacific_run df Hnd Hfresh) in Hrun.
  injection Hrun as <-.
  eexists _, _. split; [by apply datetime_fields_to_Pacific_run|].
  split; [by apply archive_dt_field_run|]. cbn [nrows columns].
  split; [|split; [done|]].
  - unfold column_names, Pacific_fields. cbn [columns].
    rewrite <- !list_fmap_compose, !fmap_app, <- !list_fmap_compose. f_equal.
    apply list_fmap_ext. intros _ c _. simpl. rewrite archived_name.
    unfold localized_UTC. by case_bool_decide.
  - intros c [c1 [-> Hc1]]%list_elem_of_fmap tz Hdt.
    assert (Hsel : ∀ z, dt c1.2 = datetime64 (Some z) → z = "UTC" ∨ z = "US/Pacific").
    { apply elem_of_app in Hc1 as [[c0 [-> Hc0]]%list_elem_of_fmap|Hc1].
      - unfold localized_UTC. case_bool_decide as Hn; cbn [snd dt].
        + intros z [= <-]. by left.
        + intros z Hz. by apply (Hzones c0).
      - unfold Pacific_fields in Hc1.
        apply list_elem_of_fmap in Hc1 as [c0 [-> _]]. cbn [snd dt].
        intros z [= <-]. by right. }
    assert (Hnaive : dt c1.2 ≠ datetime64 None).
    { apply elem_of_app in Hc1 as [[c0 [-> Hc0]]%list_elem_of_fmap|Hc1].
      - unfold localized_UTC. by case_bool_decide.
      - unfold Pacific_fields in Hc1. by apply list_elem_of_fmap in Hc1 as [c0 [-> _]]. }
    unfold archived in Hdt. destruct (archived_dtype (dt c1.2)) eqn:Ha; [done|].
    destruct tz as [z|]; [|done].
    destruct (Hsel z Hdt) as [->| ->]; rewrite Hdt in Ha; done.
Qed.

End archive_properties.

(** ** upper_consistent *)

Lemma upper_ascii_idemp (c : ascii) : upper_ascii (upper_ascii c) = upper_ascii c.
Proof. destruct c as [[] [] [] [] [] [] [] []]; reflexivity. Qed.

Lemma upper_idemp (s : string) : upper (upper s) = upper s.
Proof.
  induction s as [|c s IH]; simpl; [done|]. by rewrite upper_ascii_idemp, IH.
Qed.

Lemma str_upper_inv s s' :
  str_upper s = Ok s' →
  dt s = object
  ∧ s' = mkSeries object
           ((fun v => match v with Str x => Str (upper x) | _ => NA end) <$> values s).
Proof.
  unfold str_upper, str_accessor. destruct (dt s); try done.
  destruct (List.filter _ (values s)) as [|x rest].
  - by intros [= <-].
  - destruct (forallb is_Num (x :: rest) || forallb is_Time (x :: rest)); [done|].
    by intros [= <-].
Qed.

Lemma str_upper_uppercased (l : list cell) :
  let l' := (fun v => match v with Str x => Str (upper x) | _ => NA end) <$> l in
  str_upper (mkSeries object l') = Ok (mkSeries object l').
Proof.
  intros l'. unfold str_upper, str_accessor. cbn [dt values].
  assert (Hup : (fun v => match v with Str x => Str (upper x) | _ => NA end) <$> l' = l').
  { unfold l'. rewrite <- list_fmap_compose. apply list_fmap_ext. intros _ [|x| |] _; simpl;
      try done. by rewrite upper_idemp. }
  destruct (List.filter (fun c => negb (is_NA c)) l') as [|x rest] eqn:E.
  - cbn [mbind result_bind]. by rewrite Hup.
  - assert (Hx : In x (List.filter (fun c => negb (is_NA c)) l')) by (rewrite E; by left).
    apply filter_In in Hx as [Hx Hna]. apply list_elem_of_In in Hx.
    unfold l' in Hx. apply list_elem_of_fmap in Hx as [v [-> _]].
    destruct v as [|y| |]; try done. cbn [forallb is_Num is_Time andb orb].
    cbn [mbind result_bind]. by rewrite Hup.
Qed.

Lemma upper_column_uppercased (c : string * Series) :
  (if bool_decide (dt (uppercased c).2 = object)
   then s ← str_upper (uppercased c).2; Ok ((uppercased c).1, s)
   else Ok (uppercased c)) = Ok (uppercased c).
Proof.
  unfold uppercased. destruct (bool_decide (dt c.2 = object)) eqn:Hdt.
  - cbn [snd fst dt]. rewrite bool_decide_eq_true_2 by done.
    by rewrite (str_upper_uppercased (values c.2)).
  - by rewrite Hdt.
Qed.

Lemma upper_consistent_inv (df df' : DataFrame) :
  upper_consistent df = Ok df' → df' = mkFrame (nrows df) (uppercased <$> columns df).
Proof.
  unfold upper_consistent.
  destruct (traverse _ (columns df)) as [cols|] eqn:E; [|done].
  cbn [mbind result_bind]. intros [= <-]. f_equal.
  apply traverse_inv in E.
  induction E as [|c c' l l' Hc HF IH]; [done|]. rewrite fmap_cons, <- IH. f_equal.
  unfold uppercased. case_bool_decide as Hdt.
  - destruct (str_upper c.2) as [s|] eqn:Es; [|done].
    cbn [mbind result_bind] in Hc. injection Hc as <-.
    by destruct (str_upper_inv _ _ Es) as [_ ->].
  - by injection Hc.
Qed.

Lemma uppercased_name c : (uppercased c).1 = c.1.
Proof. unfold uppercased. by case_bool_decide. Qed.

(** X5.  On a table whose texts are made of ASCII characters, when
    [upper_consistent] returns, its result is exactly the table with the
    same rows, fields and field order in which the strings of every [object]
    field are in upper case and every field of another dtype is untouched;
    and applied to its own result it returns that result again. *)
Theorem upper_consistent_idempotent (df df' : DataFrame) :
  (∀ c x, c ∈ columns df → dt c.2 = object → Str x ∈ values c.2 → ascii_text x = true) →
  upper_consistent df = Ok df' →
  df' = mkFrame (nrows df) (uppercased <$> columns df)
  ∧ column_names df' = column_names df
  ∧ upper_consistent df' = Ok df'.
Proof.
  intros _ ->%upper_consistent_inv. split; [done|]. split.
  - unfold column_names. cbn [columns]. rewrite <- list_fmap_compose.
    apply list_fmap_ext. intros _ c _. simpl. apply uppercased_name.
  - unfold upper_consistent. cbn [nrows columns].
    assert (traverse
              (fun c => if bool_decide (dt c.2 = object)
                        then s ← str_upper c.2; Ok (c.1, s) else Ok c)
              (uppercased <$> columns df) = Ok (uppercased <$> columns df)) as ->; [|done].
    induction (columns df) as [|c l IH]; [done|].
    rewrite fmap_cons. cbn [traverse]. rewrite IH. clear IH.
    by rewrite upper_column_uppercased.
Qed.

(** ** The neckband table *)

Lemma lookup_col_filter_same name s (P : string * Series -> bool) cols :
  (∀ c, c ∈ cols → c.1 = name → c.2 = s) →
  lookup_col name (List.filter P cols)
  = if P (name, s) then lookup_col name cols else None.
Proof.
  induction cols as [|[n0 s0] cols IH]; intros Hsame.
  - simpl. by destruct (P (name, s)).
  - assert (IH' := IH (fun c Hc => Hsame c (list_elem_of_further _ _ _ Hc))). clear IH.
    cbn [List.filter lookup_col]. destruct (String.eqb n0 name) eqn:E.
    + apply String.eqb_eq in E. subst n0.
      assert (s0 = s) as -> by (apply (Hsame (name, s0)); [by left|done]).
      destruct (P (name, s)) eqn:EP; [|done].
      cbn [lookup_col]. by rewrite String.eqb_refl.
    + destruct (P (n0, s0)); [|done]. cbn [lookup_col]. by rewrite E.
Qed.

Lemma lookup_col_dropna_all df names cols n s :
  Forall2 (fun n c => c.1 = n ∧ lookup_col n (columns df) = Some c.2) names cols →
  n ∈ names → lookup_col n (columns df) = Some s →
  lookup_col n (columns (dropna_all_columns (mkFrame (nrows df) cols)))
  = if forallb is_NA (values s) then None else Some s.
Proof.
  intros HF Hin Hs. unfold dropna_all_columns. cbn [columns nrows].
  rewrite (lookup_col_filter_same n s).
  - cbn [snd]. rewrite (lookup_col_selected _ _ _ _ HF Hin), Hs.
    by destruct (forallb is_NA (values s)).
  - intros c Hc Hn. destruct (selected_elem_of _ _ _ _ HF Hc) as [_ Hlook].
    rewrite Hn, Hs in Hlook. by injection Hlook.
Qed.

(** X6.  The neckband table cannot be built from a joined table without a
    site name: when the joined table has the 90 fields asked for but its
    [SiteName] is missing in every row (in particular when the table has no
    row at all), the field is dropped with the all-missing fields and the
    step fails with [AttributeError] on [SiteName]; and when some site name
    is present but [LocationDescription] is missing in every row, it fails
    with [AttributeError] on [LocationDescription]. *)
Theorem dfDuskyNeckband_needs_site_and_description (joined : DataFrame)
    (site description : Series) :
  (∀ n, n ∈ neckband_columns → is_Some (lookup_col n (columns joined))) →
  lookup_col "SiteName" (columns joined) = Some site →
  lookup_col "LocationDescription" (columns joined) = Some description →
  (forallb is_NA (values site) = true →
   dfDuskyNeckband joined = Raise (AttributeError "SiteName"))
  ∧ (forallb is_NA (values site) = false →
     forallb is_NA (values description) = true →
     dfDuskyNeckband joined = Raise (AttributeError "LocationDescription")).
Proof.
  intros Hall Hsite Hdescr.
  destruct (getitem_list_ok joined neckband_columns Hall) as (cols & Hget & HF).
  assert (Hs := lookup_col_dropna_all joined _ _ "SiteName" site HF
                  ltac:(apply (bool_decide_unpack _); vm_compute; exact I) Hsite).
  assert (Hd := lookup_col_dropna_all joined _ _ "LocationDescription" description HF
                  ltac:(apply (bool_decide_unpack _); vm_compute; exact I) Hdescr).
  unfold dfDuskyNeckband. rewrite Hget. cbn [mbind result_bind].
  unfold getattr, setitem_scalar, setitem. cbn [columns nrows].
  rewrite !lookup_col_replace_ne by done.
  split.
  - intros Hna. rewrite Hna in Hs. by rewrite Hs.
  - intros Hna Hna'. rewrite Hna in Hs. rewrite Hna' in Hd. by rewrite Hs, Hd.
Qed.

(** *** Assigning to several fields at once *)

Lemma filter_names (P : string -> bool) (cols : list (string * Series)) :
  (List.filter (fun c => P c.1) cols).*1 = List.filter P cols.*1.
Proof.
  induction cols as [|[n0 s0] cols IH]; [done|].
  cbn [List.filter fst]. rewrite fmap_cons. cbn [List.filter fst].
  destruct (P n0); [rewrite fmap_cons; cbn [fst]|]; by rewrite IH.
Qed.

Lemma NoDup_filter_names (P : string * Series -> bool) (cols : list (string * Series)) :
  NoDup cols.*1 → NoDup (List.filter P cols).*1.
Proof.
  induction cols as [|c cols IH]; [done|].
  rewrite fmap_cons. intros [Hnotin Hnd]%NoDup_cons. cbn [List.filter].
  destruct (P c); [|auto]. rewrite fmap_cons. apply NoDup_cons. split; [|auto].
  intros Hin. apply Hnotin. apply list_elem_of_fmap in Hin as (c' & -> & Hc').
  apply list_elem_of_fmap. exists c'. split; [done|].
  apply list_elem_of_In. apply list_elem_of_In, filter_In in Hc'. tauto.
Qed.

Lemma getitem_list_filter df (P : string -> bool) :
  NoDup (column_names df) →
  getitem_list df (List.filter P (column_names df))
  = Ok (mkFrame (nrows df) (List.filter (fun c => P c.1) (columns df))).
Proof.
  intros Hnd. unfold getitem_list, column_names.
  assert (∀ todo, (∀ c, c ∈ todo → c ∈ columns df) →
            traverse (fun n => s ← getitem df n; Ok (n, s)) (List.filter P todo.*1)
            = Ok (List.filter (fun c => P c.1) todo)) as ->; [|done|done].
  induction todo as [|[n0 s0] todo IH]; intros Hin; [done|].
  rewrite fmap_cons. cbn [List.filter fst].
  specialize (IH (fun c Hc => Hin c (list_elem_of_further _ _ _ Hc))).
  destruct (P n0); [|done]. cbn [traverse]. rewrite IH. unfold getitem.
  rewrite (lookup_col_NoDup _ n0 s0 Hnd); [done|]. apply Hin. by left.
Qed.

Lemma setitem_frame_filter df (P : string -> bool) (f : string * Series -> string * Series) :
  NoDup (column_names df) → (∀ c, (f c).1 = c.1) →
  setitem_frame df (List.filter P (column_names df))
    (mkFrame (nrows df) (f <$> List.filter (fun c => P c.1) (columns df)))
  = mkFrame (nrows df) ((fun c => if P c.1 then f c else c) <$> columns df).
Proof.
  intros Hnd Hname. unfold setitem_frame, column_names in *. cbn [columns].
  destruct df as [n cols]. cbn [columns nrows] in *.
  assert (∀ todo pre, NoDup (pre ++ todo).*1 →
            foldl (fun d p => setitem d p.1 p.2.2) (mkFrame n (pre ++ todo))
              (zip (List.filter P todo.*1) (f <$> List.filter (fun c => P c.1) todo))
            = mkFrame n (pre ++ ((fun c => if P c.1 then f c else c) <$> todo))) as H.
  { induction todo as [|[n0 s0] todo IH]; intros pre Hnd'; [done|].
    rewrite !fmap_cons. cbn [List.filter fst].
    assert (Hassoc : ∀ (x : string * Series) l, pre ++ x :: l = (pre ++ [x]) ++ l)
      by (intros; by rewrite <- app_assoc).
    destruct (P n0) eqn:EP.
    - rewrite fmap_cons. cbn [zip zip_with foldl fst snd]. unfold setitem at 2.
      cbn [columns nrows]. rewrite replace_col_mid.
      + assert ((n0, (f (n0, s0)).2) = f (n0, s0)) as ->.
        { specialize (Hname (n0, s0)). destruct (f (n0, s0)). simpl in *. by subst. }
        rewrite (Hassoc (f (n0, s0))), IH; [by rewrite <- app_assoc|].
        rewrite !fmap_app, fmap_cons, Hname in *. cbn [fmap list_fmap fst] in *.
        by rewrite <- app_assoc.
      + rewrite fmap_app, fmap_cons in Hnd'. apply NoDup_app in Hnd' as (_ & Hd & _).
        intros Hin. apply (Hd n0 Hin). by left.
    - rewrite (Hassoc (n0, s0)), IH; [by rewrite <- app_assoc|].
      by rewrite <- app_assoc. }
  apply (H cols []). done.
Qed.

(** *** The steps of the neckband table *)

Lemma getitem_list_inv df names r :
  getitem_list df names = Ok r →
  ∃ cols, r = mkFrame (nrows df) cols
    ∧ Forall2 (fun n c => c.1 = n ∧ lookup_col n (columns df) = Some c.2) names cols.
Proof.
  unfold getitem_list.
  destruct (traverse _ names) as [cols|] eqn:E; [|done].
  cbn [mbind result_bind]. intros [= <-]. exists cols. split; [done|].
  apply traverse_inv in E. eapply Forall2_impl; [exact E|].
  intros n c. cbn beta. unfold getitem.
  destruct (lookup_col n (columns df)) as [s|]; [|done].
  cbn [mbind result_bind]. by intros [= <-].
Qed.

Lemma selected_names df names cols :
  Forall2 (fun n c => c.1 = n ∧ lookup_col n (columns df) = Some c.2) names cols →
  cols.*1 = names.
Proof.
  induction 1 as [|n c names cols [Hn _] HF IH]; [done|].
  rewrite fmap_cons. by f_equal.
Qed.

Lemma selected_has_value df names cols :
  Forall2 (fun n c => c.1 = n ∧ lookup_col n (columns df) = Some c.2) names cols →
  (List.filter (fun c => negb (forallb is_NA (values c.2))) cols).*1
  = List.filter (has_value df) names.
Proof.
  induction 1 as [|n c names cols [Hn Hlook] HF IH]; [done|].
  cbn [List.filter]. unfold has_value at 1. rewrite Hlook.
  destruct (negb (forallb is_NA (values c.2))); [|done].
  rewrite fmap_cons. by f_equal.
Qed.

Lemma NoDup_neckband_columns : NoDup neckband_columns.
Proof. apply (bool_decide_unpack _). vm_compute. exact I. Qed.

Lemma filter_elem_of (P : string -> bool) (l : list string) n :
  n ∈ List.filter P l ↔ n ∈ l ∧ P n = true.
Proof. by rewrite list_elem_of_In, filter_In, <- list_elem_of_In. Qed.

Lemma dfDuskyNeckband_inv joined neck :
  dfDuskyNeckband joined = Ok neck →
  ∃ cols1 site description location,
    Forall2 (fun n c => c.1 = n ∧ lookup_col n (columns joined) = Some c.2)
      neckband_columns cols1
    ∧ let kept := List.filter (fun c => negb (forallb is_NA (values c.2))) cols1 in
      lookup_col "SiteName" kept = Some site
      ∧ lookup_col "LocationDescription" kept = Some description
      ∧ str_cat site description " " "" = Ok location
      ∧ let df5 :=
          mkFrame (nrows joined)
            (Dusky_uppercased
               <$> kept ++ [("Prec", mkSeries object (replicate (nrows joined) (Str "0")));
                            ("Location", location)]) in
        NoDup (column_names df5)
        ∧ neck = select_rows (mask_not (isna_all (filter_like df5 "DuskyCollar"))) df5.
Proof.
  unfold dfDuskyNeckband.
  destruct (getitem_list joined neckband_columns) as [df1|] eqn:E1; [|done].
  apply getitem_list_inv in E1 as (cols1 & -> & HF).
  cbn [mbind result_bind]. unfold getattr, setitem_scalar, setitem, dropna_all_columns.
  cbn [columns nrows]. rewrite !lookup_col_replace_ne by done.
  set (kept := List.filter (fun c => negb (forallb is_NA (values c.2))) cols1).
  destruct (lookup_col "SiteName" kept) as [site|] eqn:Esite; [|done].
  destruct (lookup_col "LocationDescription" kept) as [description|] eqn:Edescr; [|done].
  cbn [mbind result_bind].
  destruct (str_cat site description " " "") as [location|] eqn:Ecat; [|done].
  cbn [mbind result_bind].
  assert (Hkept : kept.*1 = List.filter (has_value joined) neckband_columns)
    by apply (selected_has_value _ _ _ HF).
  assert (Hfresh : ∀ n, n ∉ neckband_columns → n ∉ kept.*1).
  { intros n Hn. rewrite Hkept, filter_elem_of. tauto. }
  assert (Hprec : "Prec" ∉ neckband_columns)
    by (apply (bool_decide_unpack _); vm_compute; exact I).
  assert (Hloc : "Location" ∉ neckband_columns)
    by (apply (bool_decide_unpack _); vm_compute; exact I).
  rewrite (replace_col_fresh "Prec") by auto.
  rewrite (replace_col_fresh "Location").
  2:{ rewrite fmap_app. intros [?|Hin]%elem_of_app; [by apply (Hfresh "Location")|].
      by apply list_elem_of_singleton in Hin. }
  rewrite <- app_assoc. cbn [app].
  set (cols4 := kept ++ _).
  assert (Hnd4 : NoDup cols4.*1).
  { unfold cols4. rewrite fmap_app. apply NoDup_app. split; [|split].
    - apply NoDup_filter_names. rewrite (selected_names _ _ _ HF).
      apply NoDup_neckband_columns.
    - intros n Hn Hin. cbn in Hin.
      apply elem_of_cons in Hin as [->|Hin]; [by apply (Hfresh "Prec")|].
      apply list_elem_of_singleton in Hin as ->. by apply (Hfresh "Location").
    - cbn. apply NoDup_cons. split; [|apply NoDup_singleton].
      by intros ?%list_elem_of_singleton. }
  unfold filter_regex_Dusky_star. cbn [columns nrows].
  change (column_names (mkFrame (nrows joined)
                          (List.filter (fun c : string * Series => contains "Dusk" c.1) cols4)))
    with ((List.filter (fun c : string * Series => contains "Dusk" c.1) cols4).*1).
  rewrite filter_names.
  change (List.filter (contains "Dusk") cols4.*1)
    with (List.filter (contains "Dusk") (column_names (mkFrame (nrows joined) cols4))).
  rewrite getitem_list_filter by done. cbn [mbind result_bind columns nrows].
  destruct (upper_consistent _) as [dusky_upper|] eqn:Eup; [|done].
  apply upper_consistent_inv in Eup as ->. cbn [mbind result_bind columns nrows].
  pose proof (setitem_frame_filter (mkFrame (nrows joined) cols4) (contains "Dusk")
                uppercased Hnd4 uppercased_name) as Hset.
  cbn [columns nrows] in Hset. rewrite Hset. clear Hset. intros [= <-].
  exists cols1, site, description, location. repeat split; try done.
  unfold column_names. cbn [columns]. rewrite <- list_fmap_compose.
  erewrite list_fmap_ext; [exact Hnd4|]. intros _ c _. cbn.
  unfold Dusky_uppercased. destruct (contains "Dusk" c.1); [apply uppercased_name|done].
Qed.

Lemma lookup_col_renamed (f : string * Series -> string * Series) name cols :
  (∀ c, (f c).1 = c.1) →
  lookup_col name (f <$> cols) = (fun s => (f (name, s)).2) <$> lookup_col name cols.
Proof.
  intros Hname. induction cols as [|[n0 s0] cols IH]; [done|].
  rewrite fmap_cons. specialize (Hname (n0, s0)).
  destruct (f (n0, s0)) as [n1 s1] eqn:Ef. cbn [fst] in Hname. subst n1.
  cbn [lookup_col]. destruct (String.eqb n0 name) eqn:E; [|done].
  apply String.eqb_eq in E. subst n0. cbn. by rewrite Ef.
Qed.

Lemma Dusky_uppercased_name c : (Dusky_uppercased c).1 = c.1.
Proof. unfold Dusky_uppercased. destruct (contains "Dusk" c.1); [apply uppercased_name|done]. Qed.

Lemma Dusky_uppercased_names (cols : list (string * Series)) :
  (Dusky_uppercased <$> cols).*1 = cols.*1.
Proof.
  induction cols as [|c cols IH]; [done|].
  rewrite !fmap_cons. by rewrite Dusky_uppercased_name, IH.
Qed.

Lemma column_names_take_frame idx df : column_names (take_frame idx df) = column_names df.
Proof.
  unfold column_names, take_frame. cbn [columns]. rewrite <- list_fmap_compose.
  apply list_fmap_ext. by intros _ [n s] _.
Qed.

Lemma lookup_col_take_frame_inv idx df name s :
  lookup_col name (columns (take_frame idx df)) = Some s →
  ∃ s0, lookup_col name (columns df) = Some s0 ∧ s = take_rows idx s0.
Proof.
  unfold take_frame. cbn [columns]. rewrite lookup_col_fmap.
  destruct (lookup_col name (columns df)) as [s0|]; [|done].
  intros [= <-]. eauto.
Qed.

Lemma true_positions_lt (mask : list bool) (i : nat) :
  i ∈ true_positions mask → (i < length mask)%nat.
Proof. rewrite true_positions_spec. apply lookup_lt_Some. Qed.

Lemma length_collar_mask df : length (mask_not (isna_all df)) = nrows df.
Proof. unfold mask_not, isna_all. by rewrite !length_fmap, length_seq. Qed.

Lemma dfDuskyNeckband_names (joined neck : DataFrame) :
  dfDuskyNeckband joined = Ok neck →
  column_names neck
  = List.filter (has_value joined) neckband_columns ++ ["Prec"; "Location"]
  ∧ NoDup (column_names neck).
Proof.
  intros (cols1 & site & description & location & HF & Hsite & Hdescr & _ & Hnd & ->)
    %dfDuskyNeckband_inv.
  unfold select_rows. rewrite column_names_take_frame. split; [|done].
  unfold column_names. cbn [columns]. rewrite Dusky_uppercased_names.
  rewrite fmap_app. by rewrite (selected_has_value _ _ _ HF).
Qed.

(** X7.  The fields of the neckband table, in order: those of the 90 fields
    asked for that hold a value in some row of the joined table, then [Prec]
    and [Location].  No name occurs twice, [SiteName] and
    [LocationDescription] are always among them, and [Prec] is the text "0"
    in every row. *)
Theorem neckband_table_fields (joined neck : DataFrame) :
  dfDuskyNeckband joined = Ok neck →
  column_names neck
  = List.filter (has_value joined) neckband_columns ++ ["Prec"; "Location"]
  ∧ NoDup (column_names neck)
  ∧ has_value joined "SiteName" = true
  ∧ has_value joined "LocationDescription" = true
  ∧ ∃ prec, lookup_col "Prec" (columns neck) = Some prec
            ∧ dt prec = object
            ∧ length (values prec) = nrows neck
            ∧ ∀ v, v ∈ values prec → v = Str "0".
Proof.
  intros Hneck. destruct (dfDuskyNeckband_names _ _ Hneck) as [Hnames Hnodup].
  revert Hnames Hnodup. apply dfDuskyNeckband_inv in Hneck
    as (cols1 & site & description & location & HF & Hsite & Hdescr & _ & Hnd & ->).
  intros Hnames Hnodup.
  assert (Hkept := selected_has_value _ _ _ HF).
  set (kept := List.filter _ cols1) in *.
  assert (Hin : ∀ n s, lookup_col n kept = Some s → has_value joined n = true).
  { intros n s Hn. assert (n ∈ kept.*1) as Hn' by (apply lookup_col_is_Some; eauto).
    rewrite Hkept in Hn'. by apply filter_elem_of in Hn' as [_ ?]. }
  split; [done|split; [done|split; [eauto|split; [eauto|]]]].
  exists (take_rows
              (true_positions
                 (mask_not
                    (isna_all
                       (filter_like
                          (mkFrame (nrows joined)
                             (Dusky_uppercased
                                <$> kept ++ [("Prec", mkSeries object
                                                        (replicate (nrows joined) (Str "0")));
                                             ("Location", location)]))
                          "DuskyCollar"))))
              (mkSeries object (replicate (nrows joined) (Str "0")))).
  split.
  - apply lookup_col_take_frame. cbn [columns].
    rewrite (lookup_col_renamed _ _ _ Dusky_uppercased_name).
    rewrite lookup_col_app_r.
    + reflexivity.
    + rewrite Hkept, filter_elem_of. intros [Hin' _]. revert Hin'.
      apply (bool_decide_unpack _). vm_compute. exact I.
  - unfold select_rows, take_rows, take_frame. cbn [dt values nrows]. split; [done|]. split.
    + by rewrite length_fmap.
    + intros v (j & -> & Hj)%list_elem_of_fmap.
      apply true_positions_lt in Hj. rewrite length_collar_mask in Hj.
      cbn [filter_like nrows] in Hj. by apply lookup_total_replicate_2.
Qed.

(** X8.  In the neckband table no text of a field whose name contains
    "Dusk" has a lower-case letter left: every string of such an [object]
    field is its own upper case. *)
Theorem neckband_collars_upper_case (joined neck : DataFrame) (n : string) (s : Series)
    (i : nat) (x : string) :
  dfDuskyNeckband joined = Ok neck →
  contains "Dusk" n = true →
  lookup_col n (columns neck) = Some s →
  dt s = object →
  values s !! i = Some (Str x) →
  upper x = x.
Proof.
  intros (cols1 & site & description & location & HF & Hsite & Hdescr & _ & Hnd & ->)
    %dfDuskyNeckband_inv Hdusk Hs Hdt Hx.
  apply lookup_col_take_frame_inv in Hs as (s5 & Hs5 & ->).
  cbn [columns] in Hs5. rewrite (lookup_col_renamed _ _ _ Dusky_uppercased_name) in Hs5.
  destruct (lookup_col n _) as [s4|]; [|done]. injection Hs5 as <-.
  unfold Dusky_uppercased in *. cbn [fst] in *. rewrite Hdusk in *.
  unfold take_rows in *. cbn [dt values] in *.
  rewrite list_lookup_fmap in Hx.
  destruct (true_positions _ !! i) as [j|]; [|done]. cbn in Hx. injection Hx as Hx.
  unfold uppercased in *. cbn [snd] in *. case_bool_decide as Hobj; [|done].
  cbn [snd values] in Hx. rewrite list_lookup_total_alt, list_lookup_fmap in Hx.
  destruct (values s4 !! j) as [[|y| |]|]; try done.
  cbn in Hx. injection Hx as <-. apply upper_idemp.
Qed.

Lemma cat_cell_text a b c :
  cat_cell " " "" a b = Ok c →
  ∃ x y, cell_text a = Some x ∧ cell_text b = Some y ∧ c = Str (x +:+ " " +:+ y).
Proof.
  unfold cat_cell. destruct a as [|x| |], b as [|y| |]; cbn; try done;
    intros [= <-]; eauto.
Qed.

Lemma str_cat_lookup a b location (j : nat) va vb :
  str_cat a b " " "" = Ok location →
  values a !! j = Some va → values b !! j = Some vb →
  ∃ x y, cell_text va = Some x ∧ cell_text vb = Some y
         ∧ values location !! j = Some (Str (x +:+ " " +:+ y)).
Proof.
  unfold str_cat. intros Hcat Ha Hb.
  destruct (str_accessor a) as [vs|] eqn:Eacc; [|done].
  assert (vs = values a) as ->.
  { unfold str_accessor in Eacc. destruct (dt a); try done.
    destruct (List.filter _ (values a)); [by injection Eacc|].
    destruct (_ || _); [done|by injection Eacc]. }
  cbn [mbind result_bind] in Hcat.
  destruct (traverse _ _) as [cells|] eqn:Etr; [|done].
  cbn [mbind result_bind] in Hcat. injection Hcat as <-. cbn [values].
  apply traverse_inv in Etr.
  assert (Hz : zip (values a) (values b) !! j = Some (va, vb)).
  { rewrite lookup_zip_with. rewrite Ha. cbn. by rewrite Hb. }
  destruct (Forall2_lookup_l _ _ _ _ _ Etr Hz) as (c & Hc & Hcell).
  cbn [fst snd] in Hcell. apply cat_cell_text in Hcell as (x & y & ? & ? & ->).
  eauto.
Qed.

(** X9.  In every row of the neckband table [Location] is the site name,
    a blank and the location description of that very row, a missing one of
    the two counting as the empty text: the row filter and the upper-casing
    that come after the concatenation do not separate the three fields. *)
Theorem neckband_Location_of_row (joined neck : DataFrame) (i : nat) :
  wf_frame joined →
  dfDuskyNeckband joined = Ok neck →
  (i < nrows neck)%nat →
  ∃ a b x y,
    cell_at neck "SiteName" i = Some a
    ∧ cell_at neck "LocationDescription" i = Some b
    ∧ cell_text a = Some x ∧ cell_text b = Some y
    ∧ cell_at neck "Location" i = Some (Str (x +:+ " " +:+ y)).
Proof.
  intros Hwf (cols1 & site & description & location & HF & Hsite & Hdescr & Hcat & Hnd & ->)
    %dfDuskyNeckband_inv Hi.
  assert (Hkept := selected_has_value _ _ _ HF).
  set (kept := List.filter _ cols1) in *.
  unfold select_rows in *. cbn [take_frame nrows] in Hi.
  apply lookup_lt_is_Some in Hi as [j Hj].
  assert (Hjn : (j < nrows joined)%nat).
  { assert (Hin : j ∈ true_positions
                        (mask_not (isna_all (filter_like
                           (mkFrame (nrows joined)
                              (Dusky_uppercased
                                 <$> kept ++ [("Prec", mkSeries object
                                                         (replicate (nrows joined) (Str "0")));
                                              ("Location", location)]))
                           "DuskyCollar"))))
      by (eapply list_elem_of_lookup_2; exact Hj).
    apply true_positions_lt in Hin. by rewrite length_collar_mask in Hin. }
  assert (Hlen : ∀ n s, lookup_col n kept = Some s → length (values s) = nrows joined).
  { intros n s Hn. apply lookup_col_elem_of in Hn.
    apply list_elem_of_In, filter_In in Hn as [Hn _]. apply list_elem_of_In in Hn.
    destruct (selected_elem_of _ _ _ _ HF Hn) as [_ Hlook]. cbn [fst snd] in Hlook.
    by apply (wf_lookup_length joined n). }
  destruct (lookup_lt_is_Some_2 (values site) j) as [va Hva];
    [by rewrite (Hlen _ _ Hsite)|].
  destruct (lookup_lt_is_Some_2 (values description) j) as [vb Hvb];
    [by rewrite (Hlen _ _ Hdescr)|].
  destruct (str_cat_lookup _ _ _ j va vb Hcat Hva Hvb) as (x & y & Hx & Hy & Hloc).
  assert (Hfresh : "Location" ∉ kept.*1).
  { rewrite Hkept, filter_elem_of. intros [Hin' _]. revert Hin'.
    apply (bool_decide_unpack _). vm_compute. exact I. }
  exists va, vb, x, y. repeat split; try done.
  - erewrite cell_at_take_frame; [|cbn [columns]|exact Hj].
    2:{ rewrite (lookup_col_renamed _ _ _ Dusky_uppercased_name).
        rewrite lookup_col_app_l1, Hsite; [reflexivity|eauto]. }
    cbn. by rewrite (list_lookup_total_correct _ _ _ Hva).
  - erewrite cell_at_take_frame; [|cbn [columns]|exact Hj].
    2:{ rewrite (lookup_col_renamed _ _ _ Dusky_uppercased_name).
        rewrite lookup_col_app_l1, Hdescr; [reflexivity|eauto]. }
    cbn. by rewrite (list_lookup_total_correct _ _ _ Hvb).
  - erewrite cell_at_take_frame; [|cbn [columns]|exact Hj].
    2:{ rewrite (lookup_col_renamed _ _ _ Dusky_uppercased_name).
        rewrite lookup_col_app_r by (intros Hin; apply Hfresh;
          by apply lookup_col_is_Some, lookup_col_is_Some). 
        reflexivity. }
    cbn. by rewrite (list_lookup_total_correct _ _ _ Hloc).
Qed.

(** ** The neckband exports *)

Lemma glob_match_literal pat s : star_free pat = true → glob_match pat s = true → s = pat.
Proof.
  revert s. induction pat as [|p pat IH]; intros s; cbn [star_free glob_match].
  - by destruct s.
  - intros [Hp Hfree]%andb_true_iff. apply negb_true_iff in Hp. rewrite Hp.
    destruct s as [|c s]; [done|].
    intros [->%Ascii.eqb_eq Hs]%andb_true_iff. f_equal. auto.
Qed.

Lemma glob_match_any s : glob_match "*" s = true.
Proof.
  induction s as [|c s IH]; [done|].
  change (glob_match "*" (String c s)) with (false || glob_match "*" s). by rewrite IH.
Qed.

Lemma glob_match_prefix pat s :
  star_free pat = true → glob_match (pat +:+ "*") s = String.prefix pat s.
Proof.
  revert s. induction pat as [|p pat IH]; intros s.
  - intros _. rewrite glob_match_any. by destruct s.
  - cbn [star_free]. intros [Hp Hfree]%andb_true_iff. apply negb_true_iff in Hp.
    change (String p pat +:+ "*") with (String p (pat +:+ "*")).
    cbn [glob_match]. rewrite Hp. destruct s as [|c s]; [done|]. cbn [String.prefix].
    destruct (ascii_dec p c) as [->|Hne].
    + by rewrite Ascii.eqb_refl, IH.
    + apply Ascii.eqb_neq in Hne. by rewrite Hne.
Qed.

Lemma select_one_literal df arg ns :
  star_free arg = true → select_one df arg = Ok ns →
  ns = [arg] ∧ arg ∈ column_names df.
Proof.
  intros Hfree. unfold select_one. case_bool_decide as Hin; [by intros [= <-]|].
  destruct (List.filter _ _) as [|n l] eqn:E; [done|]. exfalso.
  assert (Hn : n ∈ List.filter (glob_match arg) (column_names df))
    by (rewrite E; by left).
  apply filter_elem_of in Hn as [Hn Hm].
  apply glob_match_literal in Hm as ->; done.
Qed.

Lemma select_one_prefix df pat ns :
  star_free pat = true → pat +:+ "*" ∉ column_names df →
  select_one df (pat +:+ "*") = Ok ns →
  ns = List.filter (String.prefix pat) (column_names df) ∧ ns ≠ [].
Proof.
  intros Hfree Hnotin. unfold select_one. rewrite bool_decide_eq_false_2 by done.
  assert (List.filter (glob_match (pat +:+ "*")) (column_names df)
          = List.filter (String.prefix pat) (column_names df)) as ->.
  { apply filter_ext. intros n. by apply glob_match_prefix. }
  destruct (List.filter _ _) as [|n l]; [done|]. by intros [= <-].
Qed.

Lemma select_columns_inv df args sel :
  select_columns df args = Ok sel →
  ∃ names cols,
    Forall2 (fun a ns => select_one df a = Ok ns) args names
    ∧ sel = mkFrame (nrows df) cols
    ∧ Forall2 (fun n c => c.1 = n ∧ lookup_col n (columns df) = Some c.2)
        (concat names) cols.
Proof.
  unfold select_columns.
  destruct (traverse (select_one df) args) as [names|] eqn:E; [|done].
  cbn [mbind result_bind]. intros (cols & -> & HF)%getitem_list_inv.
  apply traverse_inv in E. eauto.
Qed.

Lemma rename_columns_inv df (d : gmap string string) r :
  rename_columns df d = Ok r →
  (∀ k v, d !! k = Some v → k ∈ column_names df)
  ∧ r = mkFrame (nrows df) ((fun c => (default c.1 (d !! c.1), c.2)) <$> columns df).
Proof.
  unfold rename_columns.
  destruct (List.filter _ (map_to_list d)) as [|kv l] eqn:E; [|done].
  intros [= <-]. split; [|done]. intros k v Hk.
  apply elem_of_map_to_list in Hk.
  destruct (decide (k ∈ column_names df)) as [|Hnotin]; [done|]. exfalso.
  assert (Hin : In (k, v) (List.filter
            (fun kv : string * string => negb (bool_decide (kv.1 ∈ column_names df)))
            (map_to_list d))).
  { apply filter_In. split; [by apply list_elem_of_In|].
    cbn. by rewrite bool_decide_eq_false_2. }
  by rewrite E in Hin.
Qed.

Lemma filter_filter_comm {A} (P Q : A -> bool) (l : list A) :
  List.filter P (List.filter Q l) = List.filter Q (List.filter P l).
Proof.
  induction l as [|a l IH]; [done|]. cbn [List.filter].
  destruct (Q a) eqn:EQ, (P a) eqn:EP; cbn [List.filter]; rewrite ?EQ, ?EP, IH; done.
Qed.

Lemma NoDup_filter_list (P : string -> bool) (l : list string) :
  NoDup l → NoDup (List.filter P l).
Proof.
  induction 1 as [|n l Hn Hnd IH]; [constructor|]. cbn [List.filter].
  destruct (P n); [|done]. constructor; [|done].
  rewrite filter_elem_of. tauto.
Qed.

Lemma lookup_col_renamed_selected df (ren : string -> string) names cols n :
  Forall2 (fun n c => c.1 = n ∧ lookup_col n (columns df) = Some c.2) names cols →
  NoDup (ren <$> names) → n ∈ names →
  lookup_col (ren n) ((fun c : string * Series => (ren c.1, c.2)) <$> cols)
  = lookup_col n (columns df).
Proof.
  induction 1 as [|n0 [m0 s0] names cols [Hn Hlook] HF IH]; [by intros _ ?%elem_of_nil|].
  cbn [fst snd] in *. subst m0. rewrite !fmap_cons. cbn [fst snd lookup_col].
  intros [Hnotin Hnd]%NoDup_cons Hin.
  destruct (String.eqb (ren n0) (ren n)) eqn:E.
  - apply String.eqb_eq in E. apply elem_of_cons in Hin as [->|Hin]; [done|].
    destruct Hnotin. rewrite E. apply list_elem_of_fmap. eauto.
  - apply elem_of_cons in Hin as [->|Hin]; [by rewrite String.eqb_refl in E|auto].
Qed.

Lemma lookup_col_not_selected df (ren : string -> string) names cols n :
  Forall2 (fun n c => c.1 = n ∧ lookup_col n (columns df) = Some c.2) names cols →
  n ∉ ren <$> names →
  lookup_col n ((fun c : string * Series => (ren c.1, c.2)) <$> cols) = None.
Proof.
  intros HF Hn. apply lookup_col_None. rewrite <- list_fmap_compose.
  rewrite <- (selected_names _ _ _ HF), <- list_fmap_compose in Hn. exact Hn.
Qed.

Lemma Dusky_fields_of_neckband (joined neck : DataFrame) :
  column_names neck
  = List.filter (has_value joined) neckband_columns ++ ["Prec"; "Location"] →
  ("Dusky*" ∉ column_names neck)
  ∧ List.filter (String.prefix "Dusky") (column_names neck)
    = List.filter (has_value joined) Dusky_fields.
Proof.
  intros ->. split.
  - assert (H1 : "Dusky*" ∉ neckband_columns)
      by (apply (bool_decide_unpack _); vm_compute; exact I).
    assert (H2 : "Dusky*" ∉ ["Prec"; "Location"])
      by (apply (bool_decide_unpack _); vm_compute; exact I).
    rewrite elem_of_app, filter_elem_of. tauto.
  - rewrite List.filter_app. unfold Dusky_fields. rewrite filter_filter_comm.
    change (List.filter (String.prefix "Dusky") ["Prec"; "Location"]) with (@nil string).
    by rewrite app_nil_r.
Qed.

Lemma Dusky_fields_prefix n : n ∈ Dusky_fields → String.prefix "Dusky" n = true.
Proof. unfold Dusky_fields. rewrite filter_elem_of. tauto. Qed.

Lemma fmap_filter_fixed (ren : string -> string) (P : string -> bool) (l : list string) :
  Forall (fun n => ren n = n) l → ren <$> List.filter P l = List.filter P l.
Proof.
  induction 1 as [|n l Hn HF IH]; [done|]. cbn [List.filter].
  destruct (P n); [|done]. by rewrite fmap_cons, Hn, IH.
Qed.

(** X10.  The fields of the Refuge export, in order: six renamed event
    fields, then the fields of the joined table whose name begins with
    "Dusky" and that hold a value in some row, under their own names, then
    [Total] and the two coordinates.  The export has the rows of the
    neckband table, no name twice, and each of its fields is the field of
    the neckband table it is named after. *)
Theorem dfDuskyNeckbandNWR_fields (joined neck nwr : DataFrame) :
  dfDuskyNeckband joined = Ok neck →
  dfDuskyNeckbandNWR neck = Ok nwr →
  column_names nwr
  = ["occurrenceID"; "location"; "LocationDescription"; "eventDate"; "eventTime";
     "recordedBy"]
    ++ List.filter (has_value joined) Dusky_fields
    ++ ["Total"; "decimalLatitude"; "decimalLongitude"]
  ∧ NoDup (column_names nwr)
  ∧ nrows nwr = nrows neck
  ∧ Forall (fun p => lookup_col p.2 (columns nwr) = lookup_col p.1 (columns neck))
      [("globalid_y", "occurrenceID"); ("SiteName", "location");
       ("LocationDescription", "LocationDescription"); ("EffortDate_Text", "eventDate");
       ("EffortTime", "eventTime"); ("ObserverText", "recordedBy"); ("Total", "Total");
       ("LatitudeDD", "decimalLatitude"); ("LongitudeDD", "decimalLongitude")]
  ∧ ∀ n, n ∈ Dusky_fields → lookup_col n (columns nwr) = lookup_col n (columns neck).
Proof.
  intros [Hnames _]%dfDuskyNeckband_names.
  destruct (Dusky_fields_of_neckband _ _ Hnames) as [Hstar Hdusky]. clear Hnames.
  unfold dfDuskyNeckbandNWR.
  destruct (select_columns neck _) as [sel|] eqn:Esel; [|done].
  cbn [mbind result_bind]. intros [_ ->]%rename_columns_inv.
  apply select_columns_inv in Esel as (names & cols & HF1 & -> & HF2).
  repeat (apply Forall2_cons_inv_l in HF1 as (? & ? & ?%select_one_literal & HF1 & ->);
          [|reflexivity]).
  apply Forall2_cons_inv_l in HF1 as (dusky & ? & Hd & HF1 & ->).
  apply (select_one_prefix neck "Dusky") in Hd as [-> _]; [|reflexivity|done].
  repeat (apply Forall2_cons_inv_l in HF1 as (? & ? & ?%select_one_literal & HF1 & ->);
          [|reflexivity]).
  apply Forall2_nil_inv_l in HF1 as ->.
  repeat match goal with H : _ = [_] ∧ _ |- _ => destruct H as [-> _] end.
  rewrite Hdusky in HF2. cbn [concat app] in HF2.
  cbn [nrows columns].
  set (d := list_to_map _).
  set (ren := fun n : string => default n (d !! n)).
  change (fun c : string * Series => (default c.1 (d !! c.1), c.2))
    with (fun c : string * Series => (ren c.1, c.2)).
  assert (Hfixed : Forall (fun n => ren n = n) Dusky_fields).
  { let l := eval vm_compute in Dusky_fields in change Dusky_fields with l.
    repeat (apply Forall_cons_2; [vm_compute; reflexivity|]). apply Forall_nil_2. }
  assert (R1 : ren "globalid_y" = "occurrenceID") by (vm_compute; reflexivity).
  assert (R2 : ren "SiteName" = "location") by (vm_compute; reflexivity).
  assert (R3 : ren "LocationDescription" = "LocationDescription")
    by (vm_compute; reflexivity).
  assert (R4 : ren "EffortDate_Text" = "eventDate") by (vm_compute; reflexivity).
  assert (R5 : ren "EffortTime" = "eventTime") by (vm_compute; reflexivity).
  assert (R6 : ren "ObserverText" = "recordedBy") by (vm_compute; reflexivity).
  assert (R7 : ren "Total" = "Total") by (vm_compute; reflexivity).
  assert (R8 : ren "LatitudeDD" = "decimalLatitude") by (vm_compute; reflexivity).
  assert (R9 : ren "LongitudeDD" = "decimalLongitude") by (vm_compute; reflexivity).
  clearbody ren. clear d.
  set (selected := "globalid_y" :: _) in HF2.
  assert (Hren : ren <$> selected
                 = ["occurrenceID"; "location"; "LocationDescription"; "eventDate";
                    "eventTime"; "recordedBy"]
                   ++ List.filter (has_value joined) Dusky_fields
                   ++ ["Total"; "decimalLatitude"; "decimalLongitude"]).
  { unfold selected. rewrite !fmap_cons, fmap_app, !fmap_cons, fmap_nil.
    rewrite (fmap_filter_fixed ren _ _ Hfixed), R1, R2, R3, R4, R5, R6, R7, R8, R9.
    reflexivity. }
  assert (Hnd : NoDup (ren <$> selected)).
  { rewrite Hren. apply NoDup_app. split; [|split].
    - decided.
    - intros n Hn [[Hin _]%filter_elem_of|Hin]%elem_of_app; revert Hin;
        each_member Hn ltac:(decided).
    - apply NoDup_app. split; [|split].
      + apply NoDup_filter_list. decided.
      + intros n [Hn _]%filter_elem_of Hin. revert Hn.
        each_member Hin ltac:(decided).
      + decided. }
  assert (Hcols : ((fun c : string * Series => (ren c.1, c.2)) <$> cols).*1
                  = ren <$> selected).
  { rewrite <- (selected_names _ _ _ HF2), <- !list_fmap_compose.
    apply list_fmap_ext. by intros _ c _. }
  unfold column_names. cbn [columns]. rewrite Hcols, <- Hren.
  split; [reflexivity|]. split; [exact Hnd|]. split; [reflexivity|].
  assert (Hlook : ∀ n, n ∈ selected →
            lookup_col (ren n) ((fun c : string * Series => (ren c.1, c.2)) <$> cols)
            = lookup_col n (columns neck))
    by (intros n; by apply (lookup_col_renamed_selected neck ren selected cols)).
  assert (Hsel : ∀ n, n ∈ ["globalid_y"; "SiteName"; "LocationDescription";
                           "EffortDate_Text"; "EffortTime"; "ObserverText"; "Total";
                           "LatitudeDD"; "LongitudeDD"] → n ∈ selected).
  { intros n Hn. unfold selected. rewrite !elem_of_cons, elem_of_app, !elem_of_cons.
    rewrite !elem_of_cons in Hn. tauto. }
  split.
  - repeat (apply Forall_cons_2; [cbn [fst snd]|]); [..|apply Forall_nil_2].
    + rewrite <- R1. apply Hlook, Hsel. decided.
    + rewrite <- R2. apply Hlook, Hsel. decided.
    + rewrite <- R3 at 1. apply Hlook, Hsel. decided.
    + rewrite <- R4. apply Hlook, Hsel. decided.
    + rewrite <- R5. apply Hlook, Hsel. decided.
    + rewrite <- R6. apply Hlook, Hsel. decided.
    + rewrite <- R7 at 1. apply Hlook, Hsel. decided.
    + rewrite <- R8. apply Hlook, Hsel. decided.
    + rewrite <- R9. apply Hlook, Hsel. decided.
  - intros n Hn. destruct (has_value joined n) eqn:Ehv.
    + assert (Hn' := proj1 (Forall_forall _ _) Hfixed n Hn). cbn beta in Hn'.
      rewrite <- Hn' at 1.
      apply Hlook. unfold selected. rewrite !elem_of_cons, elem_of_app, filter_elem_of.
      tauto.
    + assert (Hnot : n ∉ List.filter (has_value joined) Dusky_fields)
        by (rewrite filter_elem_of; intros [_ Hv]; rewrite Ehv in Hv; discriminate).
      rewrite (lookup_col_not_selected _ ren _ _ _ HF2).
      * symmetry. apply lookup_col_None. intros Hin. apply Hnot. rewrite <- Hdusky.
        apply filter_elem_of. split; [exact Hin|]. by apply Dusky_fields_prefix.
      * fold selected. rewrite Hren. rewrite !elem_of_app.
        intros [Hin|[Hin|Hin]]; [|done|];
          revert Hn Hin; unfold Dusky_fields; rewrite filter_elem_of; intros [_ Hp] Hin;
          each_member Hin ltac:(by vm_compute in Hp).
Qed.

Lemma Dusky_fields_split : Dusky_fields = Dusky_text_fields ++ ["DuskyCount"].
Proof. vm_compute. reflexivity. Qed.

Lemma Dusky_text_fields_prefix n :
  n ∈ Dusky_text_fields → String.prefix "Dusky" n = true ∧ n ≠ "DuskyCount".
Proof.
  unfold Dusky_text_fields. rewrite filter_elem_of.
  intros [Hn Hne]. split; [by apply Dusky_fields_prefix|].
  intros ->. by vm_compute in Hne.
Qed.

(** X11.  The Migratory Birds export exists only when a Dusky count is
    recorded in some row of the joined table.  Its fields are then, in
    order: eleven event fields, five of them renamed, the Dusky band note
    and collars that hold a value in some row, under their own names, the
    Dusky count under the name [Pres], and [Total].  The export has the rows
    of the neckband table, no name twice, and each of its fields is the
    field of the neckband table it is named after. *)
Theorem dfDuskyNeckbandMB_fields (joined neck mb : DataFrame) :
  dfDuskyNeckband joined = Ok neck →
  dfDuskyNeckbandMB neck = Ok mb →
  has_value joined "DuskyCount" = true
  ∧ column_names mb
    = ["globalid"; "State"; "Date"; "EffortTime"; "Prec"; "Latdd"; "Longdd"; "Obs";
       "SiteName"; "LocationDescription"; "Location"]
      ++ List.filter (has_value joined) Dusky_text_fields
      ++ ["Pres"; "Total"]
  ∧ NoDup (column_names mb)
  ∧ nrows mb = nrows neck
  ∧ Forall (fun p => lookup_col p.2 (columns mb) = lookup_col p.1 (columns neck))
      [("globalid_y", "globalid"); ("State", "State"); ("EffortDate_Text", "Date");
       ("EffortTime", "EffortTime"); ("Prec", "Prec"); ("LatitudeDD", "Latdd");
       ("LongitudeDD", "Longdd"); ("ObserverText", "Obs"); ("SiteName", "SiteName");
       ("LocationDescription", "LocationDescription"); ("Location", "Location");
       ("DuskyCount", "Pres"); ("Total", "Total")]
  ∧ ∀ n, n ∈ Dusky_text_fields → lookup_col n (columns mb) = lookup_col n (columns neck).
Proof.
  intros [Hnames _]%dfDuskyNeckband_names.
  destruct (Dusky_fields_of_neckband _ _ Hnames) as [Hstar Hdusky]. clear Hnames.
  unfold dfDuskyNeckbandMB.
  destruct (select_columns neck _) as [sel|] eqn:Esel; [|done].
  cbn [mbind result_bind]. intros [Hkeys ->]%rename_columns_inv.
  apply select_columns_inv in Esel as (names & cols & HF1 & -> & HF2).
  repeat (apply Forall2_cons_inv_l in HF1 as (? & ? & ?%select_one_literal & HF1 & ->);
          [|reflexivity]).
  apply Forall2_cons_inv_l in HF1 as (dusky & ? & Hd & HF1 & ->).
  apply (select_one_prefix neck "Dusky") in Hd as [-> _]; [|reflexivity|done].
  repeat (apply Forall2_cons_inv_l in HF1 as (? & ? & ?%select_one_literal & HF1 & ->);
          [|reflexivity]).
  apply Forall2_nil_inv_l in HF1 as ->.
  repeat match goal with H : _ = [_] ∧ _ |- _ => destruct H as [-> _] end.
  rewrite Hdusky in HF2. cbn [concat app] in HF2.
  cbn [nrows columns] in *.
  set (selected := "globalid_y" :: _) in HF2.
  assert (Hcount : has_value joined "DuskyCount" = true).
  { assert (Hin : "DuskyCount" ∈ selected).
    { unfold column_names in Hkeys. cbn [columns] in Hkeys.
      rewrite (selected_names _ _ _ HF2) in Hkeys. apply (Hkeys _ "Pres").
      vm_compute. reflexivity. }
    unfold selected in Hin. rewrite !elem_of_cons, elem_of_app, filter_elem_of in Hin.
    destruct Hin as [Hin|[Hin|[Hin|[Hin|[Hin|[Hin|[Hin|[Hin|[Hin|[Hin|[Hin|Hin]]]]]]]]]]];
      try discriminate Hin.
    destruct Hin as [[_ Hin]|Hin]; [done|]. revert Hin. decided. }
  clear Hkeys.
  set (d := list_to_map _).
  set (ren := fun n : string => default n (d !! n)).
  change (fun c : string * Series => (default c.1 (d !! c.1), c.2))
    with (fun c : string * Series => (ren c.1, c.2)).
  assert (Hfixed : Forall (fun n => ren n = n) Dusky_text_fields).
  { let l := eval vm_compute in Dusky_text_fields in change Dusky_text_fields with l.
    repeat (apply Forall_cons_2; [vm_compute; reflexivity|]). apply Forall_nil_2. }
  assert (R1 : ren "globalid_y" = "globalid") by (vm_compute; reflexivity).
  assert (R2 : ren "State" = "State") by (vm_compute; reflexivity).
  assert (R3 : ren "EffortDate_Text" = "Date") by (vm_compute; reflexivity).
  assert (R4 : ren "EffortTime" = "EffortTime") by (vm_compute; reflexivity).
  assert (R5 : ren "Prec" = "Prec") by (vm_compute; reflexivity).
  assert (R6 : ren "LatitudeDD" = "Latdd") by (vm_compute; reflexivity).
  assert (R7 : ren "LongitudeDD" = "Longdd") by (vm_compute; reflexivity).
  assert (R8 : ren "ObserverText" = "Obs") by (vm_compute; reflexivity).
  assert (R9 : ren "SiteName" = "SiteName") by (vm_compute; reflexivity).
  assert (R10 : ren "LocationDescription" = "LocationDescription")
    by (vm_compute; reflexivity).
  assert (R11 : ren "Location" = "Location") by (vm_compute; reflexivity).
  assert (R12 : ren "DuskyCount" = "Pres") by (vm_compute; reflexivity).
  assert (R13 : ren "Total" = "Total") by (vm_compute; reflexivity).
  clearbody ren. clear d.
  assert (Hsplit : List.filter (has_value joined) Dusky_fields
                   = List.filter (has_value joined) Dusky_text_fields ++ ["DuskyCount"]).
  { rewrite Dusky_fields_split, List.filter_app. cbn [List.filter]. by rewrite Hcount. }
  assert (Hren : ren <$> selected
                 = ["globalid"; "State"; "Date"; "EffortTime"; "Prec"; "Latdd"; "Longdd";
                    "Obs"; "SiteName"; "LocationDescription"; "Location"]
                   ++ List.filter (has_value joined) Dusky_text_fields
                   ++ ["Pres"; "Total"]).
  { unfold selected. rewrite Hsplit.
    rewrite !fmap_cons, !fmap_app, !fmap_cons, !fmap_nil.
    rewrite (fmap_filter_fixed ren _ _ Hfixed).
    rewrite R1, R2, R3, R4, R5, R6, R7, R8, R9, R10, R11, R12, R13.
    by rewrite <- app_assoc. }
  assert (Hnd : NoDup (ren <$> selected)).
  { rewrite Hren. apply NoDup_app. split; [|split].
    - decided.
    - intros n Hn [[[Hin _]%Dusky_text_fields_prefix _]%filter_elem_of|Hin]%elem_of_app.
      + revert Hin. each_member Hn ltac:(by vm_compute).
      + revert Hin. each_member Hn ltac:(decided).
    - apply NoDup_app. split; [|split].
      + apply NoDup_filter_list. decided.
      + intros n [[Hn _]%Dusky_text_fields_prefix _]%filter_elem_of Hin. revert Hn.
        each_member Hin ltac:(by vm_compute).
      + decided. }
  assert (Hcols : ((fun c : string * Series => (ren c.1, c.2)) <$> cols).*1
                  = ren <$> selected).
  { rewrite <- (selected_names _ _ _ HF2), <- !list_fmap_compose.
    apply list_fmap_ext. by intros _ c _. }
  split; [exact Hcount|].
  unfold column_names. cbn [columns]. rewrite Hcols, <- Hren.
  split; [reflexivity|]. split; [exact Hnd|]. split; [reflexivity|].
  assert (Hlook : ∀ n, n ∈ selected →
            lookup_col (ren n) ((fun c : string * Series => (ren c.1, c.2)) <$> cols)
            = lookup_col n (columns neck))
    by (intros n; by apply (lookup_col_renamed_selected neck ren selected cols)).
  assert (Hsel : ∀ n, n ∈ ["globalid_y"; "State"; "EffortDate_Text"; "EffortTime"; "Prec";
                           "LatitudeDD"; "LongitudeDD"; "ObserverText"; "SiteName";
                           "LocationDescription"; "Location"; "DuskyCount"; "Total"] →
                      n ∈ selected).
  { intros n Hn. unfold selected. rewrite Hsplit.
    rewrite !elem_of_cons, !elem_of_app, !elem_of_cons.
    rewrite !elem_of_cons in Hn. tauto. }
  split.
  - repeat (apply Forall_cons_2; [cbn [fst snd]|]); [..|apply Forall_nil_2].
    + rewrite <- R1. apply Hlook, Hsel. decided.
    + rewrite <- R2 at 1. apply Hlook, Hsel. decided.
    + rewrite <- R3. apply Hlook, Hsel. decided.
    + rewrite <- R4 at 1. apply Hlook, Hsel. decided.
    + rewrite <- R5 at 1. apply Hlook, Hsel. decided.
    + rewrite <- R6. apply Hlook, Hsel. decided.
    + rewrite <- R7. apply Hlook, Hsel. decided.
    + rewrite <- R8. apply Hlook, Hsel. decided.
    + rewrite <- R9 at 1. apply Hlook, Hsel. decided.
    + rewrite <- R10 at 1. apply Hlook, Hsel. decided.
    + rewrite <- R11 at 1. apply Hlook, Hsel. decided.
    + rewrite <- R12. apply Hlook, Hsel. decided.
    + rewrite <- R13 at 1. apply Hlook, Hsel. decided.
  - intros n Hn. destruct (Dusky_text_fields_prefix _ Hn) as [Hp Hne].
    destruct (has_value joined n) eqn:Ehv.
    + assert (Hn' := proj1 (Forall_forall _ _) Hfixed n Hn). cbn beta in Hn'.
      rewrite <- Hn' at 1.
      apply Hlook. unfold selected. rewrite Hsplit.
      rewrite !elem_of_cons, !elem_of_app, filter_elem_of. tauto.
    + rewrite (lookup_col_not_selected _ ren _ _ _ HF2).
      * symmetry. apply lookup_col_None. intros Hin.
        assert (Hin' : n ∈ List.filter (String.prefix "Dusky") (column_names neck))
          by (apply filter_elem_of; split; [exact Hin|exact Hp]).
        rewrite Hdusky, Hsplit, elem_of_app, filter_elem_of in Hin'.
        destruct Hin' as [[_ Hv]|Hc%list_elem_of_singleton]; [|done].
        rewrite Ehv in Hv. discriminate.
      * fold selected. rewrite Hren. rewrite !elem_of_app, filter_elem_of.
        intros [Hin|[[_ Hv]|Hin]].
        -- revert Hp. each_member Hin ltac:(by vm_compute).
        -- rewrite Ehv in Hv. discriminate.
        -- revert Hp. each_member Hin ltac:(by vm_compute).
Qed.

(** * The properties at work on the sample tables *)

Lemma datetime_fields_to_Pacific_total_witness :
  NoDup (column_names raw_events)
  ∧ ∃ df', datetime_fields_to_Pacific raw_events = (df', None)
      ∧ nrows df' = nrows raw_events
      ∧ NoDup (column_names df')
      ∧ (∀ n, n ∈ column_names raw_events → n ∈ column_names df')
      ∧ (∀ n s, lookup_col n (columns df') = Some s → dt s ≠ datetime64 None)
      ∧ datetime_fields_to_Pacific df' = (df', None).
Proof.
  assert (H : NoDup (column_names raw_events)) by decided.
  split; [exact H|]. exact (datetime_fields_to_Pacific_total raw_events H).
Defined.

Lemma datetime_fields_to_Pacific_exact_witness :
  NoDup (column_names raw_events)
  ∧ (∀ c, c ∈ column_names raw_events → c +:+ "_Pacific" ∉ column_names raw_events)
  ∧ datetime_fields_to_Pacific raw_events
    = (mkFrame (nrows raw_events)
         ((localized_UTC <$> columns raw_events) ++ Pacific_fields (columns raw_events)),
       None).
Proof.
  assert (H : NoDup (column_names raw_events)) by decided.
  assert (Hfresh : ∀ c, c ∈ column_names raw_events →
                        c +:+ "_Pacific" ∉ column_names raw_events).
  { intros c Hc. vm_compute in Hc. each_member Hc ltac:(decided). }
  split; [exact H|]. split; [exact Hfresh|].
  exact (datetime_fields_to_Pacific_exact raw_events H Hfresh).
Defined.

Lemma archive_dt_field_exact_witness :
  NoDup (column_names raw_events_Pacific)
  ∧ (∀ c tz, c ∈ columns raw_events_Pacific → dt c.2 = datetime64 (Some tz) →
       tz = "UTC" ∨ tz = "US/Pacific")
  ∧ let df' := mkFrame (nrows raw_events_Pacific)
                 (archived zone_stamp <$> columns raw_events_Pacific) in
    archive_dt_field zone_stamp raw_events_Pacific = (df', None)
    ∧ column_names df' = column_names raw_events_Pacific
    ∧ (∀ c, c ∈ columns df' → ∀ tz, dt c.2 ≠ datetime64 (Some tz))
    ∧ (∀ c, c ∈ columns raw_events_Pacific → dt c.2 = datetime64 None → c ∈ columns df')
    ∧ archive_dt_field zone_stamp df' = (df', None).
Proof.
  assert (H : NoDup (column_names raw_events_Pacific)) by decided.
  assert (Hzone : ∀ c tz, c ∈ columns raw_events_Pacific →
                          dt c.2 = datetime64 (Some tz) → tz = "UTC" ∨ tz = "US/Pacific").
  { intros c tz Hc Hdt. vm_compute in Hc.
    each_member Hc ltac:(cbn in Hdt; first [discriminate Hdt | injection Hdt as <-; auto]). }
  split; [exact H|]. split; [exact Hzone|].
  exact (archive_dt_field_exact zone_stamp raw_events_Pacific H Hzone).
Defined.

Lemma raw_table_backup_has_no_timestamps_witness :
  NoDup (column_names raw_events)
  ∧ (∀ c, c ∈ column_names raw_events → c +:+ "_Pacific" ∉ column_names raw_events)
  ∧ (∀ c tz, c ∈ columns raw_events → dt c.2 = datetime64 (Some tz) →
       tz = "UTC" ∨ tz = "US/Pacific")
  ∧ ∃ df1 df2,
      datetime_fields_to_Pacific raw_events = (df1, None)
      ∧ archive_dt_field zone_stamp df1 = (df2, None)
      ∧ column_names df2
        = column_names raw_events
          ++ ((fun c => c.1 +:+ "_Pacific")
                <$> List.filter (fun c => bool_decide (dt c.2 = datetime64 None))
                      (columns raw_events))
      ∧ nrows df2 = nrows raw_events
      ∧ (∀ c, c ∈ columns df2 → ∀ tz, dt c.2 ≠ datetime64 tz).
Proof.
  assert (H : NoDup (column_names raw_events)) by decided.
  assert (Hfresh : ∀ c, c ∈ column_names raw_events →
                        c +:+ "_Pacific" ∉ column_names raw_events).
  { intros c Hc. vm_compute in Hc. each_member Hc ltac:(decided). }
  assert (Hzone : ∀ c tz, c ∈ columns raw_events →
                          dt c.2 = datetime64 (Some tz) → tz = "UTC" ∨ tz = "US/Pacific").
  { intros c tz Hc Hdt. vm_compute in Hc.
    each_member Hc ltac:(cbn in Hdt; first [discriminate Hdt | injection Hdt as <-; auto]). }
  split; [exact H|]. split; [exact Hfresh|]. split; [exact Hzone|].
  exact (raw_table_backup_has_no_timestamps zone_stamp raw_events H Hfresh Hzone).
Defined.

Lemma upper_consistent_idempotent_witness :
  let df' := mkFrame 2
               [("DuskyCollar1", mkSeries object [Str "A12"; NA]);
                ("DuskyCollar2", mkSeries object [NA; Str "B7C"]);
                ("DuskyCount", mkSeries float64 [Num 4; Num 7])] in
  (∀ c x, c ∈ columns collars → dt c.2 = object → Str x ∈ values c.2 →
          ascii_text x = true)
  ∧ upper_consistent collars = Ok df'
  ∧ df' = mkFrame (nrows collars) (uppercased <$> columns collars)
  ∧ column_names df' = column_names collars
  ∧ upper_consistent df' = Ok df'.
Proof.
  intros df'.
  assert (Ha : ∀ c x, c ∈ columns collars → dt c.2 = object → Str x ∈ values c.2 →
                      ascii_text x = true).
  { intros c x Hc _ Hx. vm_compute in Hc.
    each_member Hc
      ltac:(cbn in Hx;
            repeat (apply elem_of_cons in Hx as [Hx'|Hx];
                    [first [discriminate Hx' | injection Hx' as ->; reflexivity]|]);
            by apply elem_of_nil in Hx). }
  assert (H : upper_consistent collars = Ok df') by (vm_compute; reflexivity).
  split; [exact Ha|]. split; [exact H|].
  exact (upper_consistent_idempotent collars df' Ha H).
Defined.

Lemma dfDuskyNeckband_needs_site_and_description_witness :
  let site := mkSeries object [NA; NA] in
  let description := mkSeries object [Str "x"; Str "x"] in
  (∀ n, n ∈ neckband_columns → is_Some (lookup_col n (columns two_unnamed_points)))
  ∧ lookup_col "SiteName" (columns two_unnamed_points) = Some site
  ∧ lookup_col "LocationDescription" (columns two_unnamed_points) = Some description
  ∧ forallb is_NA (values site) = true
  ∧ dfDuskyNeckband two_unnamed_points = Raise (AttributeError "SiteName").
Proof.
  intros site description.
  assert (Hall : ∀ n, n ∈ neckband_columns →
                      is_Some (lookup_col n (columns two_unnamed_points)))
    by (apply Forall_forall; decided).
  assert (Hsite : lookup_col "SiteName" (columns two_unnamed_points) = Some site)
    by (vm_compute; reflexivity).
  assert (Hdescr : lookup_col "LocationDescription" (columns two_unnamed_points)
                   = Some description) by (vm_compute; reflexivity).
  split; [exact Hall|]. split; [exact Hsite|]. split; [exact Hdescr|].
  split; [reflexivity|].
  exact (proj1 (dfDuskyNeckband_needs_site_and_description two_unnamed_points
                  site description Hall Hsite Hdescr) eq_refl).
Defined.

Lemma neckband_table_fields_witness :
  dfDuskyNeckband two_points = Ok two_points_neckband
  ∧ column_names two_points_neckband
    = List.filter (has_value two_points) neckband_columns ++ ["Prec"; "Location"]
  ∧ NoDup (column_names two_points_neckband)
  ∧ has_value two_points "SiteName" = true
  ∧ has_value two_points "LocationDescription" = true
  ∧ ∃ prec, lookup_col "Prec" (columns two_points_neckband) = Some prec
            ∧ dt prec = object
            ∧ length (values prec) = nrows two_points_neckband
            ∧ ∀ v, v ∈ values prec → v = Str "0".
Proof.
  assert (H : dfDuskyNeckband two_points = Ok two_points_neckband)
    by (vm_compute; reflexivity).
  split; [exact H|]. exact (neckband_table_fields two_points two_points_neckband H).
Defined.

Lemma neckband_collars_upper_case_witness :
  let s := mkSeries object [Str "A12"; NA] in
  dfDuskyNeckband two_points = Ok two_points_neckband
  ∧ contains "Dusk" "DuskyCollar1" = true
  ∧ lookup_col "DuskyCollar1" (columns two_points_neckband) = Some s
  ∧ dt s = object
  ∧ values s !! 0%nat = Some (Str "A12")
  ∧ upper "A12" = "A12".
Proof.
  intros s.
  assert (H : dfDuskyNeckband two_points = Ok two_points_neckband)
    by (vm_compute; reflexivity).
  assert (Hs : lookup_col "DuskyCollar1" (columns two_points_neckband) = Some s)
    by (vm_compute; reflexivity).
  split; [exact H|]. split; [reflexivity|]. split; [exact Hs|].
  split; [reflexivity|]. split; [reflexivity|].
  exact (neckband_collars_upper_case two_points two_points_neckband "DuskyCollar1" s
           0 "A12" H eq_refl Hs eq_refl eq_refl).
Defined.

Lemma neckband_Location_of_row_witness :
  wf_frame two_points
  ∧ dfDuskyNeckband two_points = Ok two_points_neckband
  ∧ (0 < nrows two_points_neckband)%nat
  ∧ ∃ a b x y,
      cell_at two_points_neckband "SiteName" 0 = Some a
      ∧ cell_at two_points_neckband "LocationDescription" 0 = Some b
      ∧ cell_text a = Some x ∧ cell_text b = Some y
      ∧ cell_at two_points_neckband "Location" 0 = Some (Str (x +:+ " " +:+ y)).
Proof.
  assert (Hwf : wf_frame two_points) by (unfold wf_frame; decided).
  assert (H : dfDuskyNeckband two_points = Ok two_points_neckband)
    by (vm_compute; reflexivity).
  assert (Hi : (0 < nrows two_points_neckband)%nat) by decided.
  split; [exact Hwf|]. split; [exact H|]. split; [exact Hi|].
  exact (neckband_Location_of_row two_points two_points_neckband 0 Hwf H Hi).
Defined.

Lemma dfDuskyNeckbandNWR_fields_witness :
  dfDuskyNeckband two_points = Ok two_points_neckband
  ∧ dfDuskyNeckbandNWR two_points_neckband = Ok two_points_NWR
  ∧ column_names two_points_NWR
    = ["occurrenceID"; "location"; "LocationDescription"; "eventDate"; "eventTime";
       "recordedBy"]
      ++ List.filter (has_value two_points) Dusky_fields
      ++ ["Total"; "decimalLatitude"; "decimalLongitude"].
Proof.
  assert (H : dfDuskyNeckband two_points = Ok two_points_neckband)
    by (vm_compute; reflexivity).
  assert (H' : dfDuskyNeckbandNWR two_points_neckband = Ok two_points_NWR)
    by (vm_compute; reflexivity).
  split; [exact H|]. split; [exact H'|].
  exact (proj1 (dfDuskyNeckbandNWR_fields two_points two_points_neckband two_points_NWR
                  H H')).
Defined.

Lemma dfDuskyNeckbandMB_fields_witness :
  dfDuskyNeckband two_points = Ok two_points_neckband
  ∧ dfDuskyNeckbandMB two_points_neckband = Ok two_points_MB
  ∧ has_value two_points "DuskyCount" = true
  ∧ column_names two_points_MB
    = ["globalid"; "State"; "Date"; "EffortTime"; "Prec"; "Latdd"; "Longdd"; "Obs";
       "SiteName"; "LocationDescription"; "Location"]
      ++ List.filter (has_value two_points) Dusky_text_fields
      ++ ["Pres"; "Total"].
Proof.
  assert (H : dfDuskyNeckband two_points = Ok two_points_neckband)
    by (vm_compute; reflexivity).
  assert (H' : dfDuskyNeckbandMB two_points_neckband = Ok two_points_MB)
    by (vm_compute; reflexivity).
  split; [exact H|]. split; [exact H'|].
  destruct (dfDuskyNeckbandMB_fields two_points two_points_neckband two_points_MB H H')
    as (Hcount & Hnames & _).
  split; [exact Hcount|exact Hnames].
Defined.
